(** * Claw Town: task store, pipeline, detector, broker and task graph

    A shallow embedding of the Python sources under [scripts/] together
    with the properties stated about them.  The definitions come first:

    - [PyStr]      : the [str] methods the scripts rely on
    - [Tasklib]    : [claw_town_tasklib.py]  (per-task JSON files, counter)
    - [Roles]      : [claw_town_roles.py]    (pipeline stages, claim/release/reject)
    - [Detector]   : [dashboard_data.py]     (agent status detection, nudge decision)
    - [Supervisor] : [claw_town_dashboard.py] (orchestrator nudge, outbox broker)
    - [TasksJson]  : [claw_town_tasks_json.py] (tasks.json migration, add_task)
    - [Samples]    : concrete inputs
    - [TasklibCommands], [RolesCommands], [TasksJsonOps], [DashboardData],
      [Events], [View] : the remaining commands and helpers of these
      scripts, of [claw_town_events.py] and of [dashboard_view.py]
    - [MoreSamples] : concrete inputs for them

    and then the properties, one module of facts per script
    ([TasklibFacts], [RolesFacts], [DetectorFacts], [SupervisorFacts],
    [BrokerFacts], [TasksJsonFacts]; then [PyStrFacts], [StoreFacts],
    [WalkFacts], [PipelineFacts], [TasksFileFacts], [DashboardFacts],
    [EventsFacts], [ViewFacts]).

    File locks serialize the commands, so a run is a sequence of commands;
    a command is a function from the state of the directory to an outcome
    and a new state.  Clocks, terminal captures and delivery results are
    inputs of the functions that read them. *)

From Stdlib Require Import ZArith List String Ascii Bool Lia DecimalString DecimalN Floats.
From stdpp Require Import gmap strings list.

(* ====================================================================== *)
(** ** Python [str] helpers

    Command-line strings are modelled as Rocq strings: every [ascii] is one
    character with code point below 256. *)
(* ====================================================================== *)

Module PyStr.

(** [str.isspace] restricted to code points below 256. *)
Definition is_space (c : ascii) : bool :=
  let n := nat_of_ascii c in
  ((9 <=? n) && (n <=? 13)) || ((28 <=? n) && (n <=? 32))
  || (n =? 133) || (n =? 160).

Definition is_digit (c : ascii) : bool :=
  let n := nat_of_ascii c in (48 <=? n) && (n <=? 57).

(** [str.lower] on one character: the capitals are A to Z and 192 to 222
    without the multiplication sign 215. *)
Definition lower_char (c : ascii) : ascii :=
  let n := nat_of_ascii c in
  if ((65 <=? n) && (n <=? 90))
     || ((192 <=? n) && (n <=? 222) && negb (n =? 215))
  then ascii_of_nat (n + 32) else c.

(** [str.upper] on one character: the small letters are a to z and 224 to
    254 without the division sign 247.  The capitals of 181, 223 and 255
    are not characters below 256 (nor digits); these three are left as
    they are. *)
Definition upper_char (c : ascii) : ascii :=
  let n := nat_of_ascii c in
  if ((97 <=? n) && (n <=? 122))
     || ((224 <=? n) && (n <=? 254) && negb (n =? 247))
  then ascii_of_nat (n - 32) else c.

Fixpoint map_chars (f : ascii -> ascii) (s : string) : string :=
  match s with
  | EmptyString => EmptyString
  | String c r => String (f c) (map_chars f r)
  end.

Definition lower : string -> string := map_chars lower_char.
Definition upper : string -> string := map_chars upper_char.

(** [s.replace(a, b)] for single characters. *)
Definition replace_char (a b : ascii) : string -> string :=
  map_chars (fun c => if Ascii.eqb c a then b else c).

(** The whitespace [int()] skips around a number: [str.isspace] without
    the four separators 28 to 31. *)
Definition is_int_space (c : ascii) : bool :=
  let n := nat_of_ascii c in
  ((9 <=? n) && (n <=? 13)) || (n =? 32) || (n =? 133) || (n =? 160).

Fixpoint lstrip_by (f : ascii -> bool) (s : string) : string :=
  match s with
  | EmptyString => EmptyString
  | String c r => if f c then lstrip_by f r else s
  end.

Fixpoint rev_onto (s acc : string) : string :=
  match s with
  | EmptyString => acc
  | String c r => rev_onto r (String c acc)
  end.

Definition rev (s : string) : string := rev_onto s EmptyString.

Definition strip_by (f : ascii -> bool) (s : string) : string :=
  rev (lstrip_by f (rev (lstrip_by f s))).

(** [s.strip()]. *)
Definition strip (s : string) : string := strip_by is_space s.

(** Truthiness of a [str]. *)
Definition nonempty (s : string) : bool :=
  match s with EmptyString => false | _ => true end.

(** Truthiness of an optional [str] ([None] and [""] are falsy). *)
Definition truthy (o : option string) : bool :=
  match o with Some s => nonempty s | None => false end.

(** [s.split(sep)] for a single-character separator. *)
Fixpoint split_on (sep : ascii) (s : string) (cur : string) : list string :=
  match s with
  | EmptyString => [rev cur]
  | String c r =>
      if Ascii.eqb c sep then rev cur :: split_on sep r EmptyString
      else split_on sep r (String c cur)
  end.

Definition split (sep : ascii) (s : string) : list string :=
  split_on sep s EmptyString.

(** [x in xs] for a list of strings. *)
Definition mem (x : string) (xs : list string) : bool :=
  existsb (String.eqb x) xs.

(** [s.startswith(p)]. *)
Definition startswith (p s : string) : bool := String.prefix p s.

(** Decimal digits of a natural number, ["0"] for zero. *)
Definition dec (n : N) : string := NilZero.string_of_uint (N.to_uint n).

Fixpoint zeros (k : nat) : string :=
  match k with O => EmptyString | S k' => String "0" (zeros k') end.

(** Left-pad with zeros to a width of [w] characters. *)
Definition zfill (w : nat) (s : string) : string :=
  zeros (w - String.length s) +:+ s.

(** The format specification [{:03d}]: the sign counts towards the width. *)
Definition format_03d (num : Z) : string :=
  if (num <? 0)%Z then "-" +:+ zfill 2 (dec (Z.abs_N num))
  else zfill 3 (dec (Z.abs_N num)).

(** Digits with single underscores between them, as [int()] accepts. *)
Fixpoint digits_value (s : string) (acc : N) (after_digit : bool) : option N :=
  match s with
  | EmptyString => if after_digit then Some acc else None
  | String c r =>
      if is_digit c then
        digits_value r (acc * 10 + N.of_nat (nat_of_ascii c - 48))%N true
      else if Ascii.eqb c "_" && after_digit then
        match r with
        | String d _ => if is_digit d then digits_value r acc false else None
        | EmptyString => None
        end
      else None
  end.

(** [int(s)] in base 10; [None] stands for [ValueError].  (The limit
    of the interpreter on the number of digits is not modelled.) *)
Definition py_int (s : string) : option Z :=
  match strip_by is_int_space s with
  | String "-" r => option_map (fun n => (- Z.of_N n)%Z) (digits_value r 0%N false)
  | String "+" r => option_map Z.of_N (digits_value r 0%N false)
  | t => option_map Z.of_N (digits_value t 0%N false)
  end.

End PyStr.

(* ====================================================================== *)
(** ** claw_town_tasklib.py *)
(* ====================================================================== *)

Module Tasklib.
Import PyStr.

Record Comment := mkComment {
  comment_id : nat;
  content : string;
  prefix : option string;
  comment_created_at : string
}.

(** One task file.  The keys are those written by [cmd_create]; keys that
    are added later ([completed_at], [priority]) are optional. *)
Record Task := mkTask {
  t_number : string;
  title : string;
  description : string;
  status : string;
  tags : list string;
  created_at : string;
  updated_at : string;
  blocking : list string;
  blocked_by : list string;
  assigned_to : option string;
  comments : list Comment;
  stage : option string;
  owner : option string;
  completed_at : option string;
  priority : option string
}.

(** The [.tasks/] directory.  [counter_json] is [None] when the file is
    absent, [Some None] when it lacks the key [next_id].  [task_files]
    maps a T-number [t] to the content of [t.json].  [clock_reads] counts
    the calls of [datetime.now] made so far. *)
Record World := mkWorld {
  counter_json : option (option Z);
  task_files : gmap string Task;
  clock_reads : nat
}.

Definition empty_dir : World :=
  {| counter_json := None; task_files := ∅; clock_reads := 0 |}.

(** A command either returns, or leaves through [sys.exit] with an exit
    code and the JSON error printed on stderr (the [error] message and,
    for some pipeline errors, one more key listing the allowed values);
    the writes made before the exit stay in the world. *)
Record ErrJson := mkErr {
  error : string;
  listing : option (string * list string)
}.

Inductive Outcome (A : Type) : Type :=
| Done (a : A) (w : World)
| Exited (code : Z) (stderr : ErrJson) (w : World).
Arguments Done {A} a w.
Arguments Exited {A} code stderr w.

Definition M (A : Type) : Type := World -> Outcome A.

Definition ret {A} (a : A) : M A := fun w => Done a w.

Definition bind {A B} (m : M A) (k : A -> M B) : M B :=
  fun w =>
    match m w with
    | Done a w' => k a w'
    | Exited c e w' => Exited c e w'
    end.

Notation "x <- m ;; k" := (bind m (fun x => k))
  (at level 100, m at next level, right associativity).
Notation "m ;;; k" := (bind m (fun _ => k))
  (at level 100, right associativity).

Definition world_of {A} (o : Outcome A) : World :=
  match o with Done _ w => w | Exited _ _ w => w end.

Definition exit_code {A} (o : Outcome A) : option Z :=
  match o with Done _ _ => None | Exited c _ _ => Some c end.

(** [_error(message)]: print the error and [sys.exit(1)]. *)
Definition _error {A} (message : string) : M A :=
  fun w => Exited 1%Z {| error := message; listing := None |} w.

Section WithClock.

(** [utcnow i] is the ISO string returned by the [i]-th call of
    [datetime.now(timezone.utc).isoformat()]. *)
Variable utcnow : nat -> string.

Definition now : M string :=
  fun w => Done (utcnow (clock_reads w))
    {| counter_json := counter_json w; task_files := task_files w;
       clock_reads := S (clock_reads w) |}.

(** [_next_id]: read-or-default the counter, store the successor. *)
Definition _next_id : M Z :=
  fun w =>
    let next_id :=
      match counter_json w with
      | Some (Some n) => n
      | Some None => 1%Z
      | None => 1%Z
      end in
    Done next_id
      {| counter_json := Some (Some (next_id + 1)%Z);
         task_files := task_files w; clock_reads := clock_reads w |}.

Definition _format_t_number (num : Z) : string := "T" +:+ format_03d num.

Definition _read_task (tn : string) : M Task :=
  fun w =>
    match task_files w !! tn with
    | Some t => Done t w
    | None => _error ("Task " +:+ tn +:+ " not found") w
    end.

Definition set_updated_at (ts : string) (t : Task) : Task :=
  {| t_number := t_number t; title := title t; description := description t;
     status := status t; tags := tags t; created_at := created_at t;
     updated_at := ts; blocking := blocking t; blocked_by := blocked_by t;
     assigned_to := assigned_to t; comments := comments t; stage := stage t;
     owner := owner t; completed_at := completed_at t; priority := priority t |}.

(** [_write_task]: stamp [updated_at], replace the file. *)
Definition _write_task (tn : string) (data : Task) : M unit :=
  ts <- now ;;
  fun w =>
    Done tt {| counter_json := counter_json w;
               task_files := <[tn := set_updated_at ts data]> (task_files w);
               clock_reads := clock_reads w |}.

(** [_parse_t_number]: accept [T001], [T1], [1]; emit the canonical form. *)
Definition _parse_t_number (raw : string) : M string :=
  let cleaned := upper (strip raw) in
  let cleaned := if startswith "T" cleaned
                 then String.substring 1 (String.length cleaned - 1) cleaned
                 else cleaned in
  match py_int cleaned with
  | Some num => ret (_format_t_number num)
  | None => _error ("Invalid T-number: " +:+ raw)
  end.


Definition status_map : list (string * string) :=
  [("no_progress", "open"); ("planned", "open");
   ("in_progress", "in_progress"); ("blocked", "blocked");
   ("closed", "closed")].

Fixpoint assoc_get (k : string) (l : list (string * string)) : option string :=
  match l with
  | [] => None
  | (k', v) :: r => if String.eqb k k' then Some v else assoc_get k r
  end.

(** [_normalize_status]: lowercase, hyphens and spaces to underscores,
    then [status_map.get(normalized, normalized)]. *)
(** [raw.lower().replace("-", "_").replace(" ", "_")]. *)
Definition normalized_key (raw : string) : string :=
  replace_char " " "_" (replace_char "-" "_" (lower raw)).

Definition _normalize_status (raw : string) : string :=
  let normalized := normalized_key raw in
  match assoc_get normalized status_map with
  | Some v => v
  | None => normalized
  end.

(** [[t.strip() for t in tags.split(",") if t.strip()]]. *)
Definition parse_tags (s : string) : list string :=
  List.filter nonempty (List.map strip (split "," s)).

Record CreateArgs := mkCreateArgs {
  c_title : string;
  c_description : option string;
  c_tags : option string;
  c_assigned_to : option string;
  c_progress : option string;
  c_stage : option string;
  c_owner : option string
}.

(** What a command prints on stdout. *)
Inductive Output : Type :=
| OutCreate (tn ttl : string)
| OutUpdate (tn : string) (updated : list string)
| OutClose (tn : string)
| OutBlocks (blocker blocked : string)
| OutComment (tn : string) (cid : nat).

Definition set_status (s : string) (t : Task) : Task :=
  {| t_number := t_number t; title := title t; description := description t;
     status := s; tags := tags t; created_at := created_at t;
     updated_at := updated_at t; blocking := blocking t;
     blocked_by := blocked_by t; assigned_to := assigned_to t;
     comments := comments t; stage := stage t; owner := owner t;
     completed_at := completed_at t; priority := priority t |}.

Definition cmd_create (args : CreateArgs) : M Output :=
  task_id <- _next_id ;;
  let tn := _format_t_number task_id in
  ts <- now ;;
  let tags0 := if truthy (c_tags args)
               then parse_tags (default EmptyString (c_tags args)) else [] in
  let tags1 := if mem "claw-town" tags0 then tags0 else tags0 ++ ["claw-town"] in
  let task_data :=
    {| t_number := tn;
       title := c_title args;
       description := if truthy (c_description args)
                      then default EmptyString (c_description args)
                      else "No description provided";
       status := "open";
       tags := tags1;
       created_at := ts;
       updated_at := ts;
       blocking := [];
       blocked_by := [];
       assigned_to := c_assigned_to args;
       comments := [];
       stage := c_stage args;
       owner := c_owner args;
       completed_at := None;
       priority := None |} in
  let task_data :=
    if truthy (c_progress args)
    then set_status (_normalize_status (default EmptyString (c_progress args))) task_data
    else task_data in
  _write_task tn task_data ;;;
  ret (OutCreate tn (c_title args)).

Definition set_title (x : string) (t : Task) : Task :=
  {| t_number := t_number t; title := x; description := description t;
     status := status t; tags := tags t; created_at := created_at t;
     updated_at := updated_at t; blocking := blocking t;
     blocked_by := blocked_by t; assigned_to := assigned_to t;
     comments := comments t; stage := stage t; owner := owner t;
     completed_at := completed_at t; priority := priority t |}.

Definition set_description (x : string) (t : Task) : Task :=
  {| t_number := t_number t; title := title t; description := x;
     status := status t; tags := tags t; created_at := created_at t;
     updated_at := updated_at t; blocking := blocking t;
     blocked_by := blocked_by t; assigned_to := assigned_to t;
     comments := comments t; stage := stage t; owner := owner t;
     completed_at := completed_at t; priority := priority t |}.

Definition set_tags (x : list string) (t : Task) : Task :=
  {| t_number := t_number t; title := title t; description := description t;
     status := status t; tags := x; created_at := created_at t;
     updated_at := updated_at t; blocking := blocking t;
     blocked_by := blocked_by t; assigned_to := assigned_to t;
     comments := comments t; stage := stage t; owner := owner t;
     completed_at := completed_at t; priority := priority t |}.

Definition set_blocking (x : list string) (t : Task) : Task :=
  {| t_number := t_number t; title := title t; description := description t;
     status := status t; tags := tags t; created_at := created_at t;
     updated_at := updated_at t; blocking := x;
     blocked_by := blocked_by t; assigned_to := assigned_to t;
     comments := comments t; stage := stage t; owner := owner t;
     completed_at := completed_at t; priority := priority t |}.

Definition set_blocked_by (x : list string) (t : Task) : Task :=
  {| t_number := t_number t; title := title t; description := description t;
     status := status t; tags := tags t; created_at := created_at t;
     updated_at := updated_at t; blocking := blocking t;
     blocked_by := x; assigned_to := assigned_to t;
     comments := comments t; stage := stage t; owner := owner t;
     completed_at := completed_at t; priority := priority t |}.

Definition set_comments (x : list Comment) (t : Task) : Task :=
  {| t_number := t_number t; title := title t; description := description t;
     status := status t; tags := tags t; created_at := created_at t;
     updated_at := updated_at t; blocking := blocking t;
     blocked_by := blocked_by t; assigned_to := assigned_to t;
     comments := x; stage := stage t; owner := owner t;
     completed_at := completed_at t; priority := priority t |}.

Definition set_stage (x : option string) (t : Task) : Task :=
  {| t_number := t_number t; title := title t; description := description t;
     status := status t; tags := tags t; created_at := created_at t;
     updated_at := updated_at t; blocking := blocking t;
     blocked_by := blocked_by t; assigned_to := assigned_to t;
     comments := comments t; stage := x; owner := owner t;
     completed_at := completed_at t; priority := priority t |}.

Definition set_owner (x : option string) (t : Task) : Task :=
  {| t_number := t_number t; title := title t; description := description t;
     status := status t; tags := tags t; created_at := created_at t;
     updated_at := updated_at t; blocking := blocking t;
     blocked_by := blocked_by t; assigned_to := assigned_to t;
     comments := comments t; stage := stage t; owner := x;
     completed_at := completed_at t; priority := priority t |}.

Definition set_completed_at (x : option string) (t : Task) : Task :=
  {| t_number := t_number t; title := title t; description := description t;
     status := status t; tags := tags t; created_at := created_at t;
     updated_at := updated_at t; blocking := blocking t;
     blocked_by := blocked_by t; assigned_to := assigned_to t;
     comments := comments t; stage := stage t; owner := owner t;
     completed_at := x; priority := priority t |}.

Definition set_priority (x : option string) (t : Task) : Task :=
  {| t_number := t_number t; title := title t; description := description t;
     status := status t; tags := tags t; created_at := created_at t;
     updated_at := updated_at t; blocking := blocking t;
     blocked_by := blocked_by t; assigned_to := assigned_to t;
     comments := comments t; stage := stage t; owner := owner t;
     completed_at := completed_at t; priority := x |}.

Record UpdateArgs := mkUpdateArgs {
  u_task : string;
  u_status : option string;
  u_title : option string;
  u_description : option string;
  u_priority : option string;
  u_tags : option string;
  u_stage : option string;
  u_owner : option string
}.

(** The loop [for tag in new_tags: if tag not in existing: append]. *)
Fixpoint add_tags (new_tags existing : list string) : list string :=
  match new_tags with
  | [] => existing
  | tag :: r => add_tags r (if mem tag existing then existing else existing ++ [tag])
  end.

(** One [if args.x: task_data[x] = ...; updated_fields.append(x)] step. *)
Definition upd_if (c : bool) (name : string) (f : Task -> Task)
    (st : Task * list string) : Task * list string :=
  if c then (f (fst st), snd st ++ [name]) else st.

Definition is_some {A} (o : option A) : bool :=
  match o with Some _ => true | None => false end.

Definition cmd_update (args : UpdateArgs) : M Output :=
  tn <- _parse_t_number (u_task args) ;;
  task_data <- _read_task tn ;;
  let st := (task_data, []) in
  let st := upd_if (truthy (u_status args)) "status"
              (set_status (_normalize_status (default EmptyString (u_status args)))) st in
  let st := upd_if (truthy (u_title args)) "title"
              (set_title (default EmptyString (u_title args))) st in
  let st := upd_if (truthy (u_description args)) "description"
              (set_description (default EmptyString (u_description args))) st in
  let st := upd_if (truthy (u_priority args)) "priority"
              (set_priority (u_priority args)) st in
  let st := upd_if (truthy (u_tags args)) "tags"
              (fun t => set_tags
                 (add_tags (parse_tags (default EmptyString (u_tags args))) (tags t)) t) st in
  let st := upd_if (is_some (u_stage args)) "stage" (set_stage (u_stage args)) st in
  let st := upd_if (is_some (u_owner args)) "owner"
              (set_owner (match u_owner args with
                          | Some o => if String.eqb o "none" then None else Some o
                          | None => None
                          end)) st in
  match snd st with
  | [] => _error ("No fields to update. Provide --status, --title, "
                  +:+ "--description, --priority, --tags, --stage, or --owner.")
  | updated_fields =>
      _write_task tn (fst st) ;;;
      ret (OutUpdate tn updated_fields)
  end.

Definition cmd_close (raw_task : string) : M Output :=
  tn <- _parse_t_number raw_task ;;
  task_data <- _read_task tn ;;
  ts <- now ;;
  _write_task tn (set_completed_at (Some ts) (set_status "closed" task_data)) ;;;
  ret (OutClose tn).

(** [cmd_add_blocking]: the blocker's file is rewritten before the blocked
    task's file is read. *)
Definition cmd_add_blocking (raw_blocker raw_blocked : string) : M Output :=
  blocker_tn <- _parse_t_number raw_blocker ;;
  blocked_tn <- _parse_t_number raw_blocked ;;
  blocker_data <- _read_task blocker_tn ;;
  let blocking_list := blocking blocker_data in
  let blocking_list := if mem blocked_tn blocking_list then blocking_list
                       else blocking_list ++ [blocked_tn] in
  _write_task blocker_tn (set_blocking blocking_list blocker_data) ;;;
  blocked_data <- _read_task blocked_tn ;;
  let blocked_by_list := blocked_by blocked_data in
  let blocked_by_list := if mem blocker_tn blocked_by_list then blocked_by_list
                         else blocked_by_list ++ [blocker_tn] in
  _write_task blocked_tn (set_blocked_by blocked_by_list blocked_data) ;;;
  ret (OutBlocks raw_blocker raw_blocked).

(** The task-store commands that the link invariant speaks about. *)
Inductive Command : Type :=
| Create (args : CreateArgs)
| AddBlocking (blocker blocked : string)
| Update (args : UpdateArgs)
| Close (task : string).

Definition run_command (c : Command) : M Output :=
  match c with
  | Create a => cmd_create a
  | AddBlocking b d => cmd_add_blocking b d
  | Update a => cmd_update a
  | Close t => cmd_close t
  end.

(** Run the commands one after the other, each as its own process: an
    exit ends that command only; the directory is carried on. *)
Fixpoint run_all (cs : list Command) (w : World) : World :=
  match cs with
  | [] => w
  | c :: r => run_all r (world_of (run_command c w))
  end.

End WithClock.

(** The value [_next_id] hands out in a directory. *)
Definition next_id_of (w : World) : Z :=
  match counter_json w with
  | Some (Some n) => n
  | _ => 1%Z
  end.

(** Symmetry of the two link lists over the task files that exist. *)
Definition links_symmetric (w : World) : Prop :=
  forall a b ta tb,
    task_files w !! a = Some ta ->
    task_files w !! b = Some tb ->
    (In b (blocking ta) <-> In a (blocked_by tb)).

End Tasklib.

(* ====================================================================== *)
(** ** claw_town_roles.py *)
(* ====================================================================== *)

Module Roles.
Import PyStr.
Import Tasklib.

Definition PIPELINE_STAGES : list string :=
  ["pm"; "tech-lead"; "intern"; "code-review"; "perf-check"; "qa-test";
   "design-audit"; "done"].

(** [VALID_STAGES = set(PIPELINE_STAGES)]; only membership is used. *)
Definition VALID_STAGES : list string := PIPELINE_STAGES.

Definition STAGE_TO_ROLE : list (string * string) :=
  [("pm", "pm"); ("tech-lead", "tech-lead"); ("intern", "intern");
   ("code-review", "code-reviewer"); ("perf-check", "perf-checker");
   ("qa-test", "qa-tester"); ("design-audit", "design-auditor")].

Definition VALID_ROLES : list string := List.map snd STAGE_TO_ROLE.

Definition ROLE_TO_STAGE : list (string * string) :=
  List.map (fun kv => (snd kv, fst kv)) STAGE_TO_ROLE.

(** [xs.index(x)]; [None] stands for [ValueError]. *)
Fixpoint index_of (x : string) (xs : list string) : option nat :=
  match xs with
  | [] => None
  | y :: r => if String.eqb x y then Some 0
              else option_map S (index_of x r)
  end.

Definition next_stage (current : string) : option string :=
  match index_of current PIPELINE_STAGES with
  | None => None
  | Some idx =>
      if List.length PIPELINE_STAGES <=? idx + 1 then None
      else nth_error PIPELINE_STAGES (idx + 1)
  end.

Definition exit_with {A} (msg : string) (extra : option (string * list string)) : M A :=
  fun w => Exited 1%Z {| error := msg; listing := extra |} w.

(** [_read_task] of the pipeline script; [setdefault] of [stage] and
    [owner] is the identity on a [Task], whose two fields are options. *)
Definition _read_task (tn : string) : M Task :=
  fun w =>
    match task_files w !! tn with
    | Some t => Done t w
    | None => exit_with ("Task " +:+ tn +:+ " not found") None w
    end.

(** How an f-string renders an optional string. *)
Definition show (o : option string) : string :=
  match o with Some s => s | None => "None" end.

Inductive RoleOutput : Type :=
| OutClaim (tn role : string) (stg : option string)
| OutRelease (tn : string) (released_by : option string)
    (old_stage : option string) (new_stage : string) (st : string)
| OutSetStage (tn : string) (old_stage : option string) (new_stage : string)
| OutReject (tn : string) (rejected_by : option string)
    (old_stage : option string) (new_stage reason : string) (cid : nat).

Definition REJECT_ALLOWED : list (string * list string) :=
  [("code-review", ["intern"]);
   ("perf-check", ["intern"]);
   ("qa-test", ["intern"]);
   ("design-audit", ["intern"]);
   ("intern", ["pm"; "tech-lead"]);
   ("tech-lead", ["pm"])].

(** [REJECT_ALLOWED.get(current_stage, [])]. *)
Fixpoint allowed_get (k : option string) (l : list (string * list string)) : list string :=
  match l with
  | [] => []
  | (k', v) :: r =>
      match k with
      | Some s => if String.eqb s k' then v else allowed_get k r
      | None => []
      end
  end.

Section WithClock.

Variable utcnow : nat -> string.

Definition cmd_claim (raw_task role : string) : M RoleOutput :=
  tn <- _parse_t_number raw_task ;;
  if negb (mem role VALID_ROLES) then
    exit_with ("Unknown role '" +:+ role +:+ "'") (Some ("valid_roles", VALID_ROLES))
  else
    task <- _read_task tn ;;
    let expected_stage := assoc_get role ROLE_TO_STAGE in
    if negb (bool_decide (stage task = expected_stage)) then
      exit_with ("Task " +:+ tn +:+ " is at stage '" +:+ show (stage task)
                 +:+ "', but role '" +:+ role +:+ "' handles stage '"
                 +:+ show expected_stage +:+ "'") None
    else if is_some (owner task) then
      exit_with ("Task " +:+ tn +:+ " is already owned by '"
                 +:+ show (owner task) +:+ "'") None
    else
      let task := set_status "in_progress" (set_owner (Some role) task) in
      _write_task utcnow tn task ;;;
      ret (OutClaim tn role (stage task)).

Definition cmd_release (raw_task : string) : M RoleOutput :=
  tn <- _parse_t_number raw_task ;;
  task <- _read_task tn ;;
  let current_stage := stage task in
  let current_owner := owner task in
  if negb (is_some current_owner) then
    exit_with ("Task " +:+ tn +:+ " has no owner to release") None
  else
    let new_stage :=
      match current_stage with
      | Some s => if nonempty s then next_stage s else None
      | None => None
      end in
    if negb (is_some new_stage)
       && negb (bool_decide (current_stage = Some "done")) then
      exit_with ("Task " +:+ tn +:+ " is at unknown stage '"
                 +:+ show current_stage +:+ "', cannot advance") None
    else
      let stage' := if truthy new_stage then default EmptyString new_stage
                    else "done" in
      let status' :=
        if bool_decide (new_stage = Some "done") || negb (is_some new_stage)
        then "closed" else "open" in
      let task := set_status status' (set_stage (Some stage') (set_owner None task)) in
      _write_task utcnow tn task ;;;
      ret (OutRelease tn current_owner current_stage stage' status').

Definition cmd_set_stage (raw_task stg : string) : M RoleOutput :=
  tn <- _parse_t_number raw_task ;;
  if negb (mem stg VALID_STAGES) then
    exit_with ("Unknown stage '" +:+ stg +:+ "'") (Some ("valid_stages", PIPELINE_STAGES))
  else
    task <- _read_task tn ;;
    let old_stage := stage task in
    _write_task utcnow tn (set_owner None (set_stage (Some stg) task)) ;;;
    ret (OutSetStage tn old_stage stg).

(** The index of the current stage, [-1] when it is not a pipeline stage. *)
Definition current_index (current_stage : option string) : Z :=
  match current_stage with
  | Some s =>
      match index_of s PIPELINE_STAGES with
      | Some i => Z.of_nat i
      | None => (-1)%Z
      end
  | None => (-1)%Z
  end.

Definition reject_comment (current_stage : option string) (target_stage : string)
    (current_owner : option string) (reason : string) : string :=
  "Rejected from " +:+ show current_stage +:+ " back to " +:+ target_stage
  +:+ " (by " +:+ (if truthy current_owner then show current_owner else "unknown")
  +:+ "): " +:+ reason.

Definition cmd_reject (raw_task target_stage reason : string) : M RoleOutput :=
  tn <- _parse_t_number raw_task ;;
  if negb (mem target_stage VALID_STAGES) then
    exit_with ("Unknown stage '" +:+ target_stage +:+ "'")
      (Some ("valid_stages", PIPELINE_STAGES))
  else
    task <- _read_task tn ;;
    let current_stage := stage task in
    let current_owner := owner task in
    let allowed_targets := allowed_get current_stage REJECT_ALLOWED in
    if negb (mem target_stage allowed_targets) then
      exit_with ("Stage '" +:+ show current_stage +:+ "' cannot reject to '"
                 +:+ target_stage +:+ "'") (Some ("allowed_targets", allowed_targets))
    else
      let current_idx := current_index current_stage in
      match index_of target_stage PIPELINE_STAGES with
      | None => exit_with "ValueError" None
      | Some target_idx =>
          if (current_idx <=? Z.of_nat target_idx)%Z then
            exit_with ("Cannot reject forward: '" +:+ target_stage
                       +:+ "' is not before '" +:+ show current_stage +:+ "'") None
          else
            let task := set_status "open"
                          (set_stage (Some target_stage) (set_owner None task)) in
            _write_task utcnow tn task ;;;
            let comment_content :=
              reject_comment current_stage target_stage current_owner reason in
            let cs := comments task in
            let cid := List.length cs + 1 in
            ts <- now utcnow ;;
            let task := set_comments
                          (cs ++ [{| comment_id := cid; content := comment_content;
                                     prefix := Some "REJECTED";
                                     comment_created_at := ts |}]) task in
            _write_task utcnow tn task ;;;
            ret (OutReject tn current_owner current_stage target_stage reason cid)
      end.

(** [update <task> --owner <o>] followed by [release <task>], [k] times
    over; the stage of the task after each release that returned (with
    [None] for a release that exited). *)
Fixpoint release_rounds (k : nat) (raw tn o : string) (w : World) : list (option string) :=
  match k with
  | O => []
  | S k' =>
      let w1 := world_of (cmd_update utcnow
                  {| u_task := raw; u_status := None; u_title := None;
                     u_description := None; u_priority := None; u_tags := None;
                     u_stage := None; u_owner := Some o |} w) in
      let r := cmd_release raw w1 in
      let w2 := world_of r in
      (match r with
       | Done _ _ => match task_files w2 !! tn with
                     | Some t => stage t
                     | None => None
                     end
       | Exited _ _ _ => None
       end) :: release_rounds k' raw tn o w2
  end.

End WithClock.

(** The reject allow-list, in the words of the specification. *)
Definition reject_allow_list : list (string * string) :=
  [("code-review", "intern"); ("perf-check", "intern"); ("qa-test", "intern");
   ("design-audit", "intern"); ("intern", "pm"); ("intern", "tech-lead");
   ("tech-lead", "pm")].

Definition in_allow_list (c : option string) (s : string) : bool :=
  match c with
  | Some c' =>
      existsb (fun p => String.eqb (fst p) c' && String.eqb (snd p) s)
        reject_allow_list
  | None => false
  end.

(** [index(s) < index(c)] in the pipeline order. *)
Definition strictly_before (s : string) (c : option string) : bool :=
  match c with
  | Some c' =>
      match index_of s PIPELINE_STAGES, index_of c' PIPELINE_STAGES with
      | Some i, Some j => i <? j
      | _, _ => false
      end
  | None => false
  end.

Definition reject_legal (c : option string) (s : string) : bool :=
  in_allow_list c s && strictly_before s c.

(** [needle] occurs in [hay]. *)
Definition occurs_in (needle hay : string) : Prop :=
  exists pre post, hay = pre +:+ needle +:+ post.

End Roles.

(* ====================================================================== *)
(** ** dashboard_data.py

    Pane output is arbitrary terminal text, so a [str] is modelled here as
    the list of its code points. *)
(* ====================================================================== *)

Module Detector.

Definition ustr : Type := list N.

(** A literal of the source, as code points. *)
Definition u (s : string) : ustr :=
  List.map N_of_ascii (list_ascii_of_string s).

(** [str.isspace] (also the class [\s] of [re] on [str] patterns). *)
Definition is_space (c : N) : bool :=
  (((9 <=? c) && (c <=? 13)) || ((28 <=? c) && (c <=? 32)) || (c =? 133)
   || (c =? 160) || (c =? 5760) || ((8192 <=? c) && (c <=? 8202))
   || (c =? 8232) || (c =? 8233) || (c =? 8239) || (c =? 8287)
   || (c =? 12288))%N.

(** [s[-k:]] for [k > 0]. *)
Definition last_chars (k : nat) (s : ustr) : ustr :=
  skipn (List.length s - k) s.

Fixpoint is_prefix (p s : ustr) : bool :=
  match p, s with
  | [], _ => true
  | a :: p', b :: s' => (a =? b)%N && is_prefix p' s'
  | _ :: _, [] => false
  end.

(** [p in s]. *)
Fixpoint contains (p s : ustr) : bool :=
  is_prefix p s ||
  match s with
  | [] => false
  | _ :: r => contains p r
  end.

Fixpoint ustr_eqb (a b : ustr) : bool :=
  match a, b with
  | [], [] => true
  | x :: a', y :: b' => (x =? y)%N && ustr_eqb a' b'
  | _, _ => false
  end.

Fixpoint lstrip (s : ustr) : ustr :=
  match s with
  | [] => []
  | c :: r => if is_space c then lstrip r else s
  end.

Definition rstrip (s : ustr) : ustr := List.rev (lstrip (List.rev s)).
Definition strip (s : ustr) : ustr := rstrip (lstrip s).

(** [s.endswith(p)]. *)
Definition endswith (p s : ustr) : bool := is_prefix (List.rev p) (List.rev s).

(** [s.split("\n")]. *)
Fixpoint split_lines (s : ustr) (cur : ustr) : list ustr :=
  match s with
  | [] => [List.rev cur]
  | c :: r =>
      if (c =? 10)%N then List.rev cur :: split_lines r []
      else split_lines r (c :: cur)
  end.

(** The first line of [s]: the characters before the first newline. *)
Fixpoint first_line (s : ustr) : ustr :=
  match s with
  | [] => []
  | c :: r => if (c =? 10)%N then [] else c :: first_line r
  end.

Fixpoint space_run (s : ustr) : nat :=
  match s with
  | [] => 0
  | c :: r => if is_space c then S (space_run r) else 0
  end.

(** Group 1 of [TASK_BLOCKED:\s*(.+?)(?:\n|$)] once the literal is
    matched and [\s*] has taken [k] characters of [rest]: the lazy group
    needs one character other than a newline and then runs to the end of
    its line. *)
Definition group_at (rest : ustr) (k : nat) : option ustr :=
  match skipn k rest with
  | c :: r => if (c =? 10)%N then None else Some (first_line (c :: r))
  | [] => None
  end.

(** The greedy [\s*] gives characters back one at a time. *)
Fixpoint backtrack (rest : ustr) (k : nat) : option ustr :=
  match group_at rest k with
  | Some g => Some g
  | None => match k with O => None | S k' => backtrack rest k' end
  end.

(** [re.search]: the leftmost position where the pattern matches. *)
Fixpoint search_blocked (s : ustr) : option ustr :=
  let here :=
    if is_prefix (u "TASK_BLOCKED:") s
    then let rest := skipn 13 s in backtrack rest (space_run rest)
    else None in
  match here with
  | Some g => Some g
  | None => match s with [] => None | _ :: r => search_blocked r end
  end.

Module AgentStatus.
Definition WORKING : ustr := u "working".
Definition COMPLETED : ustr := u "completed".
Definition NEEDS_INPUT : ustr := u "needs_input".
Definition NEEDS_HUMAN : ustr := u "needs_human".
Definition NEEDS_ORCHESTRATOR : ustr := u "needs_orchestrator".
Definition NEEDS_AGENT : ustr := u "needs_agent".
Definition SLEEPING : ustr := u "sleeping".
Definition FREE : ustr := u "free".
Definition UNKNOWN : ustr := u "unknown".
End AgentStatus.

Module OrchestratorStatus.
Definition WORKING : ustr := u "working".
Definition WAITING_FOR_HUMAN : ustr := u "waiting_for_human".
Definition WAITING_FOR_AGENT : ustr := u "waiting_for_agent".
Definition WAITING_FOR_SUB_ORCH : ustr := u "waiting_for_sub_orch".
Definition IDLE : ustr := u "idle".
Definition UNKNOWN : ustr := u "unknown".
End OrchestratorStatus.

(** The glyphs of the source: prompt, spinners. *)
Definition PROMPT_GLYPH : ustr := [10095%N].
Definition SPINNERS : list ustr := [[10251%N]; [10265%N]; [10297%N]; [10296%N]].

Definition completion_signals : list ustr :=
  [u "task_complete"; u "task complete"; u "taskcomplete"].

Definition human_patterns : list (ustr * ustr) :=
  [(u "1.", u "choose option"); (u "2.", u "choose option");
   (u "(y/n)", u "confirm"); (u "[y/N]", u "confirm"); (u "[Y/n]", u "confirm");
   (u "Which", u "question"); (u "What would you like", u "question");
   (u "Please select", u "choose"); (u "Choose", u "choose");
   (u "Enter your", u "input needed"); (u "Type your", u "input needed");
   (u "?", u "question")].

Definition orchestrator_patterns : list (ustr * ustr) :=
  [(u "waiting for task", u "next task");
   (u "waiting for assignment", u "assignment");
   (u "ready for next", u "next task");
   (u "what should i", u "direction");
   (u "awaiting instructions", u "instructions");
   (u "TASK_NEEDS_CLARIFICATION", u "clarification")].

Definition sleep_patterns : list (ustr * ustr) :=
  [(u "sleeping", u "polling"); (u "waiting for", u "waiting");
   (u "polling", u "polling"); (u "watching", u "monitoring");
   (u "monitoring", u "monitoring")].

Definition busy_patterns : list ustr :=
  [u "esc to interrupt"; u "press esc to interrupt"; [10043%N];
   [10251%N]; [10265%N]; [10297%N]; [10296%N];
   u "Thinking..."; u "Running:"].

(** [for pattern, detail in ps: if test pattern: return detail]. *)
Fixpoint first_match (test : ustr -> bool) (ps : list (ustr * ustr)) : option ustr :=
  match ps with
  | [] => None
  | (p, d) :: r => if test p then Some d else first_match test r
  end.

Section WithUnicode.

(** [str.lower] maps the ASCII capitals to their small letters; what it
    does to a code point from 128 on is the table of the Unicode database,
    taken here as [lower_tail]. *)
Variable lower_tail : N -> list N.

Definition lower_cp (c : N) : list N :=
  if ((65 <=? c) && (c <=? 90))%N then [(c + 32)%N]
  else if (c <? 128)%N then [c]
  else lower_tail c.

Definition lower (s : ustr) : ustr := List.flat_map lower_cp s.

Definition detect_agent_status (pane_output : ustr) : ustr * ustr :=
  match pane_output with
  | [] => (AgentStatus.UNKNOWN, [])
  | _ =>
    let lower_output := lower pane_output in
    let recent := last_chars 800 pane_output in
    let recent_lower := lower recent in
    if existsb (fun signal => contains signal recent_lower) completion_signals then
      (AgentStatus.COMPLETED, u "completed")
    else if contains (u "TASK_BLOCKED") recent then
      let reason :=
        match search_blocked recent with
        | Some g => firstn 30 (strip g)
        | None => u "blocked"
        end in
      (AgentStatus.NEEDS_AGENT, reason)
    else
    match first_match (fun p => contains p (last_chars 200 recent)) human_patterns with
    | Some detail => (AgentStatus.NEEDS_HUMAN, detail)
    | None =>
    match first_match (fun p => contains (lower p) lower_output) orchestrator_patterns with
    | Some detail => (AgentStatus.NEEDS_ORCHESTRATOR, detail)
    | None =>
    match first_match (fun p => contains (lower p) (last_chars 300 lower_output))
            sleep_patterns with
    | Some detail => (AgentStatus.SLEEPING, detail)
    | None =>
    if contains (u "inbox") lower_output || contains (u "status watcher") lower_output then
      (AgentStatus.SLEEPING, u "daemon")
    else if existsb (fun p => contains (lower p) lower_output) busy_patterns then
      (AgentStatus.WORKING, [])
    else if contains PROMPT_GLYPH (last_chars 100 recent) then
      (AgentStatus.NEEDS_ORCHESTRATOR, u "idle")
    else (AgentStatus.NEEDS_INPUT, [])
    end end end
  end.

(** [lines[-1]]: [split] never returns the empty list. *)
Definition last_of (ls : list ustr) : ustr := List.last ls [].

Definition is_prompt_line (line : ustr) : bool :=
  ustr_eqb (strip line) PROMPT_GLYPH || endswith PROMPT_GLYPH (strip line).

Definition explicit_prompts : list ustr :=
  [u "What would you like"; u "Please select"; u "Choose an option";
   u "Enter your"; u "Type your"; u "(y/n)"; u "[y/N]"; u "[Y/n]";
   u "Press Enter"; u "confirm?"; u "proceed?"].

Definition detect_human_input_prompt (pane_output : ustr) : bool :=
  match pane_output with
  | [] => false
  | _ =>
    let recent := last_chars 3000 pane_output in
    let lines := split_lines (strip recent) [] in
    let last_line := strip (last_of lines) in
    let has_numbered_options := contains (u "1.") recent && contains (u "2.") recent in
    let has_prompt :=
      existsb is_prompt_line (skipn (List.length lines - 10) lines) in
    if has_numbered_options && has_prompt then true
    else if (ustr_eqb last_line PROMPT_GLYPH || endswith PROMPT_GLYPH last_line)
            && negb (existsb (fun spin => contains spin (last_chars 200 pane_output))
                       SPINNERS)
    then true
    else if has_numbered_options then true
    else existsb (fun p => contains (lower p) (lower recent)) explicit_prompts
  end.

(** The class [\w] of [re]: ASCII letters, digits and the underscore; from
    128 on it is the alphanumeric table of the Unicode database, taken here
    as [word_tail]. *)
Variable word_tail : N -> bool.

Definition is_word (c : N) : bool :=
  (((48 <=? c) && (c <=? 57)) || ((65 <=? c) && (c <=? 90))
   || ((97 <=? c) && (c <=? 122)) || (c =? 95)
   || ((128 <=? c) && word_tail c))%N.

Fixpoint drop_while (f : N -> bool) (s : ustr) : ustr :=
  match s with
  | [] => []
  | c :: r => if f c then drop_while f r else s
  end.

Fixpoint take_while (f : N -> bool) (s : ustr) : ustr :=
  match s with
  | [] => []
  | c :: r => if f c then c :: take_while f r else []
  end.

(** [re.search(r"agent \w+ is working", s)] as a truth value: after the
    literal, the longest run of word characters (it cannot be shortened,
    a space has to follow) and then the second literal. *)
Fixpoint search_agent_working (s : ustr) : bool :=
  (is_prefix (u "agent ") s
   && (let rest := skipn 6 s in
       match take_while is_word rest with
       | [] => false
       | _ :: _ => is_prefix (u " is working") (drop_while is_word rest)
       end))
  || match s with [] => false | _ :: r => search_agent_working r end.

(** The five [waiting_patterns], in their order. *)
Definition waiting_patterns : list (ustr -> bool) :=
  [ (fun s => contains (u "waiting for agent") s || contains (u "waiting on agent") s);
    (fun s => contains (u "spawned agent") s);
    (fun s => contains (u "sub-orchestrator") s);
    search_agent_working;
    (fun s => contains (u "agent running") s || contains (u "agents running") s) ].

Definition is_sep (c : N) : bool := (c =? 58)%N || is_space c.
Definition is_name_char (c : N) : bool := negb (is_space c || (c =? 44)%N).

(** Group 1 of [(?:agent|sub-orchestrator)[:\s]+([^\s,]+)] when the
    separator run takes [k] characters. *)
Definition entity_at (rest : ustr) (k : nat) : option ustr :=
  match skipn k rest with
  | c :: r => if is_name_char c then Some (take_while is_name_char (c :: r)) else None
  | [] => None
  end.

(** The greedy separator run gives characters back, down to one. *)
Fixpoint entity_backtrack (rest : ustr) (k : nat) : option ustr :=
  match k with
  | O => None
  | S k' =>
      match entity_at rest k with
      | Some g => Some g
      | None => entity_backtrack rest k'
      end
  end.

Definition entity_after (rest : ustr) : option ustr :=
  entity_backtrack rest (List.length (take_while is_sep rest)).

Fixpoint search_entity (s : ustr) : option ustr :=
  let here :=
    if is_prefix (u "agent") s then entity_after (skipn 5 s)
    else if is_prefix (u "sub-orchestrator") s then entity_after (skipn 16 s)
    else None in
  match here with
  | Some g => Some g
  | None => match s with [] => None | _ :: r => search_entity r end
  end.

Definition detect_waiting_context (pane_output : ustr) : bool * list ustr :=
  match pane_output with
  | [] => (false, [])
  | _ =>
      if existsb (fun pattern => pattern (lower pane_output)) waiting_patterns then
        (true, match search_entity pane_output with
               | Some g => [g]
               | None => []
               end)
      else (false, [])
  end.

End WithUnicode.

(** An agent of the dashboard and a task of its [tasks] view, with the keys
    the decision functions read; [None] is a missing key (or [null]). *)
Record Agent := mkAgent {
  agent_name : ustr;
  agent_status : option ustr
}.

Record TaskView := mkTaskView {
  task_id : option ustr;
  task_status : option ustr;
  task_blocked_by : list ustr;
  task_blockedBy : list ustr;
  task_depends_on : list ustr;
  task_owner : option ustr
}.

Definition opt_eqb (o : option ustr) (s : ustr) : bool :=
  match o with Some x => ustr_eqb x s | None => false end.

(** [{t.get("id"): t.get("status") for t in all_tasks}.get(b)]: the last
    task with that id decides. *)
Definition task_statuses_get (b : ustr) (all_tasks : list TaskView) : option ustr :=
  match List.find (fun t => opt_eqb (task_id t) b) (List.rev all_tasks) with
  | Some t => task_status t
  | None => None
  end.

(** [a or b or c or []] on lists. *)
Definition first_nonempty (a b c : list ustr) : list ustr :=
  match a with
  | _ :: _ => a
  | [] => match b with _ :: _ => b | [] => c end
  end.

Definition is_task_ready (task : TaskView) (all_tasks : list TaskView) : bool :=
  if negb (opt_eqb (task_status task) (u "open")
           || opt_eqb (task_status task) (u "pending")) then false
  else
    match first_nonempty (task_blocked_by task) (task_blockedBy task)
            (task_depends_on task) with
    | [] => true
    | blocked =>
        forallb (fun b => opt_eqb (task_statuses_get b all_tasks) (u "completed"))
          blocked
    end.

(** Truthiness of [t.get("owner")]. *)
Definition has_owner (t : TaskView) : bool :=
  match task_owner t with Some (_ :: _) => true | _ => false end.

(** [should_nudge] of the data layer. *)
Definition should_nudge (idle_time nudge_interval last_nudge_time nudge_cooldown : float)
    (nudge_count : Z) (now : float) (agents : list Agent) (tasks : list TaskView)
    (orchestrator_status : ustr) : bool :=
  if ustr_eqb orchestrator_status OrchestratorStatus.WAITING_FOR_HUMAN then false
  else
    let cooldown_elapsed := PrimFloat.ltb nudge_cooldown (PrimFloat.sub now last_nudge_time) in
    if PrimFloat.ltb idle_time nudge_interval then false
    else if negb cooldown_elapsed then false
    else
      let needs_input :=
        List.filter (fun a => opt_eqb (agent_status a) AgentStatus.NEEDS_INPUT) agents in
      let ready_tasks :=
        List.filter (fun t => is_task_ready t tasks && negb (has_owner t)) tasks in
      match needs_input, ready_tasks with
      | [], [] => false
      | _, _ => true
      end.

End Detector.

(* ====================================================================== *)
(** ** claw_town_dashboard.py: orchestrator nudge and outbox broker *)
(* ====================================================================== *)

Module Supervisor.
Import Detector.

(** *** Outbox files *)

(** The keys of a message file that the broker reads; [None] is a missing
    key. *)
Record Payload := mkPayload {
  target : option ustr;
  content : option ustr;
  source : option ustr;
  queued_at : option float;
  priority : option Z
}.

(** What [json.loads(msg_file.read_text())] gives: a [JSONDecodeError], a
    JSON value that is not an object (so [.get] raises), or an object. *)
Inductive FileBody : Type :=
| BadJson
| NotObject
| Object (p : Payload).

Record MsgFile := mkMsgFile {
  body : FileBody;
  st_mtime : float
}.

(** Modelled from the spec: [claw_town_message_queue] is imported by the
    dashboard but is not among the sources.  Its [record_delivery_ack] and
    [record_delivery_failure] keep a sidecar store keyed by message
    filename: a delivery with the data to compute its latency, or a failure
    with its reason.  [expired_after] keeps the age whose integer part the
    reason string [expired_after_<n>s] shows.  [write_sender_feedback], of
    the same module, writes a note for the sender and no ack; it is left
    out. *)
Inductive Ack : Type :=
| DeliveryAck (msg_filename src tgt : ustr) (prio : Z) (queued : float)
    (content_preview : ustr)
| FailureAck (msg_filename src tgt : ustr) (expired_after : float).

Definition ack_filename (a : Ack) : ustr :=
  match a with
  | DeliveryAck f _ _ _ _ _ => f
  | FailureAck f _ _ _ => f
  end.


(** Lines of the activity log, with the values their f-strings format. *)
Inductive LogLine : Type :=
| LogDelivered (src tgt : ustr) (chars : nat)
| LogDeliveryFailed (src tgt : ustr) (age : float) (file : ustr)
| LogInvalid (file src : ustr)
| LogCorrupted (file : ustr)
| LogProcessError (file : ustr)
| LogExpired (age : float) (src tgt : ustr) (file : ustr)
| LogExpireError (file : ustr)
| LogStaleLock (age : float)
| LogNudgeQueued
| LogNudgesExhausted (count max : Z).

Inductive EventSummary : Type :=
| OrchNudged (count max : Z) (idle_seconds : float).

Record Event := mkEvent {
  event_ts : ustr;
  event_type : ustr;
  summary : EventSummary
}.

(** The part of the dashboard object and of its state directory that the
    nudge logic and the broker touch.  [pending], [sent] and [expired] are
    the [*.json] files of the three outbox directories, by file name;
    [lock_file] is the mtime of [outbox/.lock] when that file exists.
    Moving and writing files is taken to succeed. *)
Record Dashboard := mkDashboard {
  last_activity_time : float;
  last_nudge_time : float;
  nudge_interval : float;
  nudge_count : Z;
  max_nudges : Z;
  restart_count : Z;
  max_restarts : Z;
  orchestrator_pane : ustr;
  last_outbox_process_time : float;
  pending : gmap ustr MsgFile;
  sent : gmap ustr MsgFile;
  expired : gmap ustr MsgFile;
  lock_file : option float;
  acks : list Ack;
  activity_log : list LogLine;
  events : list Event
}.


Definition with_log (line : LogLine) (d : Dashboard) : Dashboard :=
  {| last_activity_time := last_activity_time d;
     last_nudge_time := last_nudge_time d;
     nudge_interval := nudge_interval d;
     nudge_count := nudge_count d; max_nudges := max_nudges d;
     restart_count := restart_count d; max_restarts := max_restarts d;
     orchestrator_pane := orchestrator_pane d;
     last_outbox_process_time := last_outbox_process_time d;
     pending := pending d; sent := sent d; expired := expired d;
     lock_file := lock_file d; acks := acks d;
     activity_log := activity_log d ++ [line];
     events := events d |}.


Definition with_dirs (p s e : gmap ustr MsgFile) (d : Dashboard) : Dashboard :=
  {| last_activity_time := last_activity_time d;
     last_nudge_time := last_nudge_time d;
     nudge_interval := nudge_interval d;
     nudge_count := nudge_count d; max_nudges := max_nudges d;
     restart_count := restart_count d; max_restarts := max_restarts d;
     orchestrator_pane := orchestrator_pane d;
     last_outbox_process_time := last_outbox_process_time d;
     pending := p; sent := s; expired := e;
     lock_file := lock_file d; acks := acks d;
     activity_log := activity_log d;
     events := events d |}.



Definition with_nudge (count : Z) (last : float) (d : Dashboard) : Dashboard :=
  {| last_activity_time := last_activity_time d;
     last_nudge_time := last;
     nudge_interval := nudge_interval d;
     nudge_count := count; max_nudges := max_nudges d;
     restart_count := restart_count d; max_restarts := max_restarts d;
     orchestrator_pane := orchestrator_pane d;
     last_outbox_process_time := last_outbox_process_time d;
     pending := pending d; sent := sent d; expired := expired d;
     lock_file := lock_file d; acks := acks d;
     activity_log := activity_log d;
     events := events d |}.

Definition with_events (es : list Event) (d : Dashboard) : Dashboard :=
  {| last_activity_time := last_activity_time d;
     last_nudge_time := last_nudge_time d;
     nudge_interval := nudge_interval d;
     nudge_count := nudge_count d; max_nudges := max_nudges d;
     restart_count := restart_count d; max_restarts := max_restarts d;
     orchestrator_pane := orchestrator_pane d;
     last_outbox_process_time := last_outbox_process_time d;
     pending := pending d; sent := sent d; expired := expired d;
     lock_file := lock_file d; acks := acks d;
     activity_log := activity_log d;
     events := es |}.






(** Lexicographic order of file names, the order of [sorted]. *)
Fixpoint name_leb (a b : ustr) : bool :=
  match a, b with
  | [], _ => true
  | _ :: _, [] => false
  | x :: a', y :: b' => (x <? y)%N || ((x =? y)%N && name_leb a' b')
  end.

Fixpoint insert_sorted (x : ustr) (l : list ustr) : list ustr :=
  match l with
  | [] => [x]
  | y :: r => if name_leb x y then x :: l else y :: insert_sorted x r
  end.

(** [sorted(self.outbox_pending.glob("*.json"))], by file name. *)
Definition sorted_pending (d : Dashboard) : list ustr :=
  List.fold_right insert_sorted [] (List.map fst (map_to_list (pending d))).


Section WithAckTracking.

(** [True] when the import of [claw_town_message_queue] succeeds. *)
Variable ACK_TRACKING_AVAILABLE : bool.









End WithAckTracking.

(** *** Orchestrator nudge *)

(** What the nudge step of one tick reads from outside: the results of
    [time.time] in [should_nudge] ([t_idle], [t_cooldown]), in
    [queue_message] ([q_time]) and in [nudge_orchestrator] ([t_nudge],
    [t_event]), the [strftime] stamp of the file name, the mtime given to
    the new file and the timestamp of the event. *)
Record NudgeEnv := mkNudgeEnv {
  t_idle : float;
  t_cooldown : float;
  q_stamp : ustr;
  q_time : float;
  q_mtime : float;
  t_nudge : float;
  t_event : float;
  ev_ts : ustr
}.

Definition EVENT_LOG_AVAILABLE : bool := true.
Definition _MAX_EVENTS : nat := 500.

Definition dec_Z (z : Z) : ustr :=
  if (z <? 0)%Z then u "-" ++ u (PyStr.dec (Z.abs_N z)) else u (PyStr.dec (Z.abs_N z)).

(** [queue_message]: write [pending/<priority>_<stamp>_<source>.json]. *)
Definition queue_message (env : NudgeEnv) (tgt cnt : ustr) (prio : Z) (src : ustr)
    (d : Dashboard) : Dashboard :=
  let name := dec_Z prio ++ u "_" ++ q_stamp env ++ u "_" ++ src ++ u ".json" in
  let msg := {| target := Some tgt; content := Some cnt; source := Some src;
                queued_at := Some (q_time env); priority := Some prio |} in
  with_dirs (<[name := {| body := Object msg; st_mtime := q_mtime env |}]> (pending d))
    (sent d) (expired d) d.

(** [log_event] of [claw_town_events.py]: append, then keep the last
    [_MAX_EVENTS] lines. *)
Definition log_event (ts ty : ustr) (sm : EventSummary) (d : Dashboard) : Dashboard :=
  let es := events d ++ [{| event_ts := ts; event_type := ty; summary := sm |}] in
  with_events (skipn (List.length es - _MAX_EVENTS) es) d.

Definition agent_needs_input (a : Agent) : bool :=
  opt_eqb (agent_status a) AgentStatus.NEEDS_INPUT.

Definition ready_unowned (tasks : list TaskView) (t : TaskView) : bool :=
  is_task_ready t tasks && negb (has_owner t).

(** The method [should_nudge] of the dashboard: it takes the agents and
    the tasks only, and resets the nudge counter on activity. *)
Definition should_nudge (env : NudgeEnv) (agents : list Agent) (tasks : list TaskView)
    (d : Dashboard) : bool * Dashboard :=
  let idle_time := PrimFloat.sub (t_idle env) (last_activity_time d) in
  let cooldown_elapsed :=
    PrimFloat.ltb (nudge_interval d) (PrimFloat.sub (t_cooldown env) (last_nudge_time d)) in
  let d := if PrimFloat.ltb idle_time (nudge_interval d) && (0 <? nudge_count d)%Z
           then with_nudge 0%Z (last_nudge_time d) d else d in
  if PrimFloat.ltb idle_time (nudge_interval d) then (false, d)
  else if negb cooldown_elapsed then (false, d)
  else
    match List.filter agent_needs_input agents,
          List.filter (ready_unowned tasks) tasks with
    | [], [] => (false, d)
    | _, _ => (true, d)
    end.

Definition dec_nat (n : nat) : ustr := u (PyStr.dec (N.of_nat n)).

(** The f-string of [nudge_orchestrator]. *)
Definition nudge_message (needs_input ready_tasks agents : nat) : ustr :=
  [128680%N] ++ u " **WHY ARE YOU STALLED? KEEP GOING!** " ++ [128680%N; 10%N; 10%N]
  ++ u "You've been idle. The orchestrator must ALWAYS be making progress."
  ++ [10%N; 10%N] ++ u "**Current State:**" ++ [10%N]
  ++ u "- Agents needing input: " ++ dec_nat needs_input ++ [10%N]
  ++ u "- Ready tasks without owner: " ++ dec_nat ready_tasks ++ [10%N]
  ++ u "- Total agents: " ++ dec_nat agents ++ [10%N; 10%N]
  ++ u "**What you should be doing RIGHT NOW:**" ++ [10%N]
  ++ u "1. Check if any agents completed " ++ [8594%N]
  ++ u " collect their outputs" ++ [10%N]
  ++ u "2. Spawn agents for ready tasks " ++ [8594%N]
  ++ u " don't let work pile up" ++ [10%N]
  ++ u "3. Nudge stuck agents " ++ [8594%N]
  ++ u " send them recovery prompts" ++ [10%N]
  ++ u "4. Check task dependencies " ++ [8594%N]
  ++ u " unblock what you can" ++ [10%N; 10%N]
  ++ u "**CARDINAL RULES:**" ++ [10%N; 9940%N]
  ++ u " ALL work is spawned as new Claude sessions - are you spawning or doing work directly?"
  ++ [10%N; 9940%N]
  ++ u " Keep orchestrating - don't wait for input, use your judgment!"
  ++ [10%N; 10%N] ++ u "**Stop waiting. Start orchestrating. NOW.**".

(** [nudge_orchestrator]: queue the nudge, count it, log [nudge_orch]. *)
Definition nudge_orchestrator (env : NudgeEnv) (agents : list Agent)
    (tasks : list TaskView) (d : Dashboard) : bool * Dashboard :=
  let needs_input := List.filter agent_needs_input agents in
  let ready_tasks := List.filter (ready_unowned tasks) tasks in
  let message := nudge_message (List.length needs_input) (List.length ready_tasks)
                   (List.length agents) in
  let d := queue_message env (orchestrator_pane d) message 1%Z (u "nudge") d in
  let d := with_nudge (nudge_count d + 1)%Z (t_nudge env) d in
  let d := with_log LogNudgeQueued d in
  let d :=
    if EVENT_LOG_AVAILABLE
    then log_event (ev_ts env) (u "nudge_orch")
           (OrchNudged (nudge_count d) (max_nudges d)
              (PrimFloat.sub (t_event env) (last_activity_time d))) d
    else d in
  (true, d).

Section WithRestart.

(** [restart_orchestrator] drives the terminal multiplexer; it is taken
    as given. *)
Variable restart_orchestrator : list Agent -> list TaskView -> Dashboard -> Dashboard.

(** Steps 0 and 1 of [nudge_all_stalled], the ones about the orchestrator.
    Steps 2 and 3 nudge or restart worker agents and sub-orchestrators and
    log [nudge_agent] and [restart_agent] events only; they are left out. *)
Definition nudge_all_stalled (env : NudgeEnv) (agents : list Agent)
    (tasks : list TaskView) (d : Dashboard) : nat * Dashboard :=
  if (max_nudges d <=? nudge_count d)%Z && (restart_count d <? max_restarts d)%Z then
    (0, restart_orchestrator agents tasks
          (with_log (LogNudgesExhausted (nudge_count d) (max_nudges d)) d))
  else
    let r := should_nudge env agents tasks d in
    if fst r then
      let r' := nudge_orchestrator env agents tasks (snd r) in
      ((if fst r' then 1 else 0), snd r')
    else (0, snd r).

End WithRestart.

Section WithUnicode.

Variable lower_tail : N -> list N.
Variable word_tail : N -> bool.

(** [sub_status == AgentStatus.WORKING] compares the pair returned by
    [detect_agent_status] with a [str]: never equal. *)
Definition pair_equals_str (p : ustr * ustr) (s : ustr) : bool := false.

(** [get_orchestrator_status], for the captured orchestrator pane, the
    live agents and the captured panes of the sub-orchestrators (id and
    output); of the tuple it returns, the status and the entities waited
    on (colour and detail only feed the display). *)
Definition get_orchestrator_status (output : ustr) (agents : list Agent)
    (sub_orchestrators : list (ustr * ustr)) : ustr * list ustr :=
  match output with
  | [] => (OrchestratorStatus.UNKNOWN, [])
  | _ =>
    if existsb (fun pattern => contains (lower lower_tail pattern)
                                 (lower lower_tail output)) busy_patterns
    then (OrchestratorStatus.WORKING, [])
    else
      let working_agents :=
        List.filter (fun a => opt_eqb (agent_status a) AgentStatus.WORKING) agents in
      let working_agent_names := List.map agent_name working_agents in
      let working_sub_orchs :=
        List.map fst
          (List.filter
             (fun sub =>
                match snd sub with
                | [] => false
                | _ => pair_equals_str (detect_agent_status lower_tail (snd sub))
                         AgentStatus.WORKING
                end) sub_orchestrators) in
      match working_sub_orchs, working_agents with
      | _ :: _, _ => (OrchestratorStatus.WAITING_FOR_SUB_ORCH, working_sub_orchs)
      | [], _ :: _ => (OrchestratorStatus.WAITING_FOR_AGENT, working_agent_names)
      | [], [] =>
          if detect_human_input_prompt lower_tail output
          then (OrchestratorStatus.WAITING_FOR_HUMAN, [])
          else
            match detect_waiting_context lower_tail word_tail output with
            | (true, entities) => (OrchestratorStatus.WAITING_FOR_AGENT, entities)
            | (false, _) => (OrchestratorStatus.IDLE, [])
            end
      end
  end.

End WithUnicode.

(** *** What the ack balance speaks about *)

(** The acks recorded under a file name. *)
Definition acks_for (name : ustr) (l : list Ack) : list Ack :=
  List.filter (fun a => ustr_eqb (ack_filename a) name) l.










(** What is known about one file name is the same in [d] and [d']. *)
Definition same_view (name : ustr) (d d' : Dashboard) : Prop :=
  pending d' !! name = pending d !! name
  /\ sent d' !! name = sent d !! name
  /\ expired d' !! name = expired d !! name
  /\ acks_for name (acks d') = acks_for name (acks d).


(** The [nudge_orch] events of the log. *)
Definition nudge_orch_events (d : Dashboard) : list Event :=
  List.filter (fun e => ustr_eqb (event_type e) (u "nudge_orch")) (events d).

End Supervisor.

(* ====================================================================== *)
(** ** claw_town_tasks_json.py *)
(* ====================================================================== *)

Module TasksJson.
Import PyStr.

(** A parsed JSON document.  An object keeps its keys in file order, as a
    Python [dict] does; numbers are the integers. *)
#[local] Set Warnings "-register-all".
Inductive json : Type :=
| JNull
| JBool (b : bool)
| JInt (z : Z)
| JStr (s : string)
| JList (l : list json)
| JObj (o : list (string * json)).
#[local] Set Warnings "register-all".

Definition dict : Type := list (string * json).

(** The result of running Python code: a value, an exception, or a run
    that leaves the model (a [dict] with a key that is not a [str]). *)
Inductive PyResult (A : Type) : Type :=
| Ok (a : A)
| Raises (exc : string)
| Unmodelled.
Arguments Ok {A} a.
Arguments Raises {A} exc.
Arguments Unmodelled {A}.

Definition pbind {A B} (r : PyResult A) (k : A -> PyResult B) : PyResult B :=
  match r with
  | Ok a => k a
  | Raises e => Raises e
  | Unmodelled => Unmodelled
  end.

Notation "x <~ r ;; k" := (pbind r (fun x => k))
  (at level 100, r at next level, right associativity).

(** [d.get(k)]. *)
Fixpoint dget (k : string) (d : dict) : option json :=
  match d with
  | [] => None
  | (k', v) :: r => if String.eqb k k' then Some v else dget k r
  end.

(** [k in d]. *)
Definition dhas (k : string) (d : dict) : bool :=
  match dget k d with Some _ => true | None => false end.

(** [d[k] = v]: in place when the key exists, at the end otherwise. *)
Fixpoint dset (k : string) (v : json) (d : dict) : dict :=
  match d with
  | [] => [(k, v)]
  | (k', v') :: r =>
      if String.eqb k k' then (k', v) :: r else (k', v') :: dset k v r
  end.

(** [d.pop(k, None)], for the dictionary that is left. *)
Definition dpop (k : string) (d : dict) : dict :=
  List.filter (fun kv => negb (String.eqb k (fst kv))) d.

(** [d.setdefault(k, v)], for the dictionary that is left. *)
Definition dsetdefault (k : string) (v : json) (d : dict) : dict :=
  if dhas k d then d else d ++ [(k, v)].

Definition keys (d : dict) : list string := List.map fst d.

(** Truthiness of a JSON value. *)
Definition truthy (j : json) : bool :=
  match j with
  | JNull => false
  | JBool b => b
  | JInt z => negb (z =? 0)%Z
  | JStr s => nonempty s
  | JList l => match l with [] => false | _ => true end
  | JObj o => match o with [] => false | _ => true end
  end.

(** [d.get(k)] as a Python value: [None] for a missing key. *)
Definition get_or_none (k : string) (d : dict) : json :=
  match dget k d with Some v => v | None => JNull end.

(** [a or b]. *)
Definition por (a b : json) : json := if truthy a then a else b.

(** [x is None]. *)
Definition is_none (j : json) : bool :=
  match j with JNull => true | _ => false end.

(** One element of the sequence given to [dict(...)]. *)
Definition pair_of (e : json) : PyResult (string * json) :=
  match e with
  | JList [JStr k; v] => Ok (k, v)
  | JList [JList _; _] => Raises "TypeError"
  | JList [JObj _; _] => Raises "TypeError"
  | JList [_; _] => Unmodelled
  | JList _ => Raises "ValueError"
  | JStr (String a (String b EmptyString)) =>
      Ok (String a EmptyString, JStr (String b EmptyString))
  | JStr _ => Raises "ValueError"
  | JObj [(k1, _); (k2, _)] => Ok (k1, JStr k2)
  | JObj _ => Raises "ValueError"
  | _ => Raises "TypeError"
  end.

Fixpoint dict_of_pairs (l : list json) (acc : dict) : PyResult dict :=
  match l with
  | [] => Ok acc
  | e :: r => kv <~ pair_of e ;; dict_of_pairs r (dset (fst kv) (snd kv) acc)
  end.

(** [dict(entry)]. *)
Definition py_dict (entry : json) : PyResult dict :=
  match entry with
  | JObj o => Ok o
  | JList l => dict_of_pairs l []
  | JStr EmptyString => Ok []
  | JStr _ => Raises "ValueError"
  | _ => Raises "TypeError"
  end.

(** [entry.get]: only a [dict] has the method. *)
Definition as_dict (j : json) : PyResult dict :=
  match j with
  | JObj o => Ok o
  | _ => Raises "AttributeError"
  end.

Definition _migrate_task_entry (entry : json) : PyResult dict :=
  migrated <~ py_dict entry ;;
  let migrated :=
    if dhas "window" migrated && negb (dhas "agent_window" migrated) then
      dset "agent_window" (get_or_none "window" migrated) (dpop "window" migrated)
    else if dhas "window" migrated && dhas "agent_window" migrated then
      dpop "window" migrated
    else migrated in
  let migrated :=
    if dhas "state" migrated then
      if is_none (get_or_none "status" migrated) && negb (dhas "agent_state" migrated)
      then dset "status" (get_or_none "state" migrated) (dpop "state" migrated)
      else dpop "state" migrated
    else migrated in
  let migrated :=
    if dhas "agent_state" migrated then
      if is_none (get_or_none "status" migrated)
      then dset "status" (get_or_none "agent_state" migrated) (dpop "agent_state" migrated)
      else dpop "agent_state" migrated
    else migrated in
  let migrated := dpop "agent" migrated in
  let migrated := dsetdefault "title" JNull migrated in
  let migrated := dsetdefault "blocked_by" (JList []) migrated in
  let migrated := dsetdefault "status" (JStr "pending") migrated in
  let migrated := dsetdefault "name" JNull migrated in
  let migrated := dsetdefault "agent_window" JNull migrated in
  let migrated := dsetdefault "created_by" (JStr "claw-town") migrated in
  let migrated := dsetdefault "last_synced" JNull migrated in
  Ok migrated.

(** [isinstance(x, str) and x.startswith("T")]. *)
Definition is_t_string (j : json) : bool :=
  match j with JStr s => startswith "T" s | _ => false end.

(** The loop over [known_tasks.items()]. *)
Fixpoint migrate_known (items : dict) (migrated_tasks : dict) : PyResult dict :=
  match items with
  | [] => Ok migrated_tasks
  | (key, entry) :: r =>
      if startswith "T" key then
        e <~ _migrate_task_entry entry ;;
        migrate_known r (dset key (JObj e) migrated_tasks)
      else
        o <~ as_dict entry ;;
        let t_number := por (get_or_none "t_number" o) (get_or_none "task_number" o) in
        if truthy t_number && is_t_string t_number then
          match t_number with
          | JStr tn =>
              e <~ _migrate_task_entry entry ;;
              migrate_known r (dset tn (JObj e) migrated_tasks)
          | _ => migrate_known r migrated_tasks
          end
        else migrate_known r migrated_tasks
  end.

(** The loop over the legacy [tasks] array. *)
Fixpoint migrate_legacy (tasks : list json) (migrated_tasks : dict) : PyResult dict :=
  match tasks with
  | [] => Ok migrated_tasks
  | task :: r =>
      o <~ as_dict task ;;
      let t_number := por (get_or_none "t_number" o) (get_or_none "task_number" o) in
      let task_id := match dget "id" o with Some v => v | None => JStr EmptyString end in
      let tn := if negb (truthy t_number) && is_t_string task_id
                then task_id else t_number in
      if truthy tn then
        match tn with
        | JStr k =>
            if negb (dhas k migrated_tasks) then
              e <~ _migrate_task_entry task ;;
              migrate_legacy r (dset k (JObj e) migrated_tasks)
            else migrate_legacy r migrated_tasks
        | JList _ => Raises "TypeError"
        | JObj _ => Raises "TypeError"
        | _ => Unmodelled
        end
      else migrate_legacy r migrated_tasks
  end.

Definition _migrate_data (data : json) : PyResult dict :=
  data <~ as_dict data ;;
  known_tasks <~ as_dict (match dget "known_tasks" data with
                          | Some v => v
                          | None => JObj []
                          end) ;;
  migrated_tasks <~ migrate_known known_tasks [] ;;
  r <~ match dget "tasks" data with
       | Some (JList tasks) =>
           m <~ migrate_legacy tasks migrated_tasks ;;
           Ok (m, dpop "tasks" data)
       | _ => Ok (migrated_tasks, data)
       end ;;
  let data := dset "known_tasks" (JObj (fst r)) (snd r) in
  let data := dsetdefault "project" (JStr "unknown") data in
  let data := dsetdefault "root_task" JNull data in
  let data := dsetdefault "working_dir" JNull data in
  let data := dsetdefault "gsd_url" JNull data in
  let data := dsetdefault "gsd_project_id" JNull data in
  let data := dsetdefault "last_dag_walk" JNull data in
  let data := dsetdefault "last_gsd_poll" JNull data in
  Ok data.

Definition _empty_state (project : string) : dict :=
  [("project", JStr project); ("root_task", JNull); ("working_dir", JNull);
   ("gsd_url", JNull); ("gsd_project_id", JNull); ("known_tasks", JObj []);
   ("last_dag_walk", JNull); ("last_gsd_poll", JNull)].

(** The state directory: [None] when [tasks.json] does not exist, its
    parsed content otherwise. *)
Definition TasksFile : Type := option json.

Definition load (project : string) (f : TasksFile) : PyResult dict :=
  match f with
  | None => Ok (_empty_state project)
  | Some data => _migrate_data data
  end.

Definition save (data : dict) (f : TasksFile) : TasksFile := Some (JObj data).

(** [with locked_update(project) as data: body]: read and migrate under the
    lock, run the body on the dictionary, write the dictionary back.  An
    exception leaves the file as it was. *)
Definition locked_update (project : string) (body : dict -> PyResult dict)
    (f : TasksFile) : PyResult TasksFile :=
  data <~ load project f ;;
  data' <~ body data ;;
  Ok (Some (JObj data')).

Definition opt_json (o : option string) : json :=
  match o with Some s => JStr s | None => JNull end.

(** [a or b] on optional strings. *)
Definition or_str (a b : option string) : option string :=
  if PyStr.truthy a then a else b.

Record AddTaskArgs := mkAddTaskArgs {
  a_title : option string;
  a_status : string;
  a_blocked_by : option (list string);
  a_name : option string;
  a_agent_window : option string;
  a_created_by : string;
  a_agent : option string;
  a_window : option string;
  a_state : option string;
  a_agent_state : option string
}.

Definition add_task (project t_number : string) (args : AddTaskArgs)
    (f : TasksFile) : PyResult TasksFile :=
  let resolved_window := or_str (a_agent_window args) (a_window args) in
  let resolved_window :=
    if PyStr.truthy (a_agent args) && negb (PyStr.truthy resolved_window)
    then a_agent args else resolved_window in
  let resolved_status :=
    or_str (or_str (a_agent_state args) (a_state args)) (Some (a_status args)) in
  locked_update project
    (fun data =>
       let data := dsetdefault "known_tasks" (JObj []) data in
       tasks <~ as_dict (get_or_none "known_tasks" data) ;;
       if negb (dhas t_number tasks) then
         let entry :=
           [("title", opt_json (a_title args));
            ("blocked_by",
             JList (List.map JStr (match a_blocked_by args with
                                   | Some (x :: r) => x :: r
                                   | _ => []
                                   end)));
            ("status", opt_json resolved_status);
            ("name", opt_json (a_name args));
            ("agent_window", opt_json resolved_window);
            ("created_by", JStr (a_created_by args));
            ("last_synced", JNull)] in
         Ok (dset "known_tasks" (JObj (dset t_number (JObj entry) tasks)) data)
       else Ok data)
    f.

(** A T-number in the sense of [_T_NUMBER_RE]: the letter T, then digits. *)
Definition is_t_number (s : string) : bool :=
  match s with
  | String "T" (String c r) =>
      is_digit c && forallb is_digit (list_ascii_of_string r)
  | _ => false
  end.

Definition legacy_entry_keys : list string := ["window"; "state"; "agent_state"; "agent"].

Definition entry_keys : list string :=
  ["title"; "blocked_by"; "status"; "name"; "agent_window"; "created_by"; "last_synced"].

Definition top_level_keys : list string :=
  ["project"; "root_task"; "working_dir"; "gsd_url"; "gsd_project_id";
   "known_tasks"; "last_dag_walk"; "last_gsd_poll"].

(** The normalized form of an entry, in the words of the specification:
    the new field names only, every default present. *)
Definition normalized_entry (e : json) : bool :=
  match e with
  | JObj o =>
      forallb (fun k => negb (dhas k o)) legacy_entry_keys
      && forallb (fun k => dhas k o) entry_keys
  | _ => false
  end.

Fixpoint nodup_keys (ks : list string) : bool :=
  match ks with
  | [] => true
  | k :: r => negb (mem k r) && nodup_keys r
  end.

(** The normalized form of a document, in the words of the specification:
    every key of [known_tasks] is a T-number, every entry is normalized,
    every top-level field is present; the legacy top-level [tasks] array
    is gone; and, as in any [dict], no key of [known_tasks] occurs twice. *)
Definition normalized (data : json) : bool :=
  match data with
  | JObj d =>
      forallb (fun k => dhas k d) top_level_keys
      && match dget "tasks" d with Some (JList _) => false | _ => true end
      && match dget "known_tasks" d with
         | Some (JObj kt) =>
             forallb is_t_number (keys kt)
             && forallb normalized_entry (List.map snd kt)
             && nodup_keys (keys kt)
         | _ => false
         end
  | _ => false
  end.

End TasksJson.

(* ====================================================================== *)
(** ** Concrete inputs used by the examples below *)
(* ====================================================================== *)

Module Samples.
Import Tasklib.

(** A clock that always shows the same instant. *)
Definition fixed_clock (i : nat) : string := "2026-01-01T00:00:00+00:00".

(** [create --title <ttl>]. *)
Definition create_titled (ttl : string) : CreateArgs :=
  {| c_title := ttl; c_description := None; c_tags := None;
     c_assigned_to := None; c_progress := None; c_stage := None;
     c_owner := None |}.


(** The directory after [create --title "A"]. *)
Definition one_task : World :=
  run_all fixed_clock [Create (create_titled "A")] empty_dir.

(** A task file at a given stage and with a given owner. *)
Definition task_at (stg own : option string) : Task :=
  {| t_number := "T001"; title := "A"; description := "No description provided";
     status := "in_progress"; tags := ["claw-town"];
     created_at := "2026-01-01T00:00:00+00:00";
     updated_at := "2026-01-01T00:00:00+00:00";
     blocking := []; blocked_by := []; assigned_to := None; comments := [];
     stage := stg; owner := own; completed_at := None; priority := None |}.

(** A directory with that one task file. *)
Definition dir_with (t : Task) : World :=
  {| counter_json := Some (Some 2%Z); task_files := {[ "T001" := t ]};
     clock_reads := 2 |}.

(** Unicode tables that leave the characters of the samples alone. *)
Definition plain_lower (c : N) : list N := [c].
Definition no_word (c : N) : bool := false.

(** Pane output that asks a question, mentions waiting and shows the
    prompt, and in which the agent has written [Task complete.]. *)
Definition pane_with_completion : Detector.ustr :=
  (Detector.u "Which file? waiting for review. Task complete." ++ [10%N; 10095%N; 32%N])%list.

(** The orchestrator pane of the suppression scenario: two numbered
    options and the prompt glyph. *)
Definition pane_with_options : Detector.ustr :=
  (Detector.u "1. Option A" ++ [10%N] ++ Detector.u "2. Option B"
   ++ [10%N; 10095%N])%list.

(** One worker agent that needs input. *)
Definition worker_needing_input : Detector.Agent :=
  {| Detector.agent_name := Detector.u "worker";
     Detector.agent_status := Some Detector.AgentStatus.NEEDS_INPUT |}.

(** A dashboard whose orchestrator was last active, and last nudged, at
    time 0, with the default limits and an empty outbox. *)
Definition idle_dashboard : Supervisor.Dashboard :=
  {| Supervisor.last_activity_time := 0%float;
     Supervisor.last_nudge_time := 0%float;
     Supervisor.nudge_interval := 900%float;
     Supervisor.nudge_count := 0%Z;
     Supervisor.max_nudges := 10%Z;
     Supervisor.restart_count := 0%Z;
     Supervisor.max_restarts := 3%Z;
     Supervisor.orchestrator_pane := Detector.u "claw-town-demo:control.1";
     Supervisor.last_outbox_process_time := 0%float;
     Supervisor.pending := ∅;
     Supervisor.sent := ∅;
     Supervisor.expired := ∅;
     Supervisor.lock_file := None;
     Supervisor.acks := [];
     Supervisor.activity_log := [];
     Supervisor.events := [] |}.

(** A tick twenty minutes later. *)
Definition tick_after_20_minutes : Supervisor.NudgeEnv :=
  {| Supervisor.t_idle := 1200%float;
     Supervisor.t_cooldown := 1200%float;
     Supervisor.q_stamp := Detector.u "20260101_002000_000000";
     Supervisor.q_time := 1200%float;
     Supervisor.q_mtime := 1200%float;
     Supervisor.t_nudge := 1200%float;
     Supervisor.t_event := 1200%float;
     Supervisor.ev_ts := Detector.u "2026-01-01T00:20:00+00:00" |}.









(** A legacy [tasks.json]: a top-level [tasks] array whose one task
    carries a numeric [t_number]. *)
Definition legacy_numeric_doc : TasksJson.json :=
  TasksJson.JObj
    [("project", TasksJson.JStr "demo");
     ("tasks",
      TasksJson.JList
        [TasksJson.JObj [("t_number", TasksJson.JStr "123");
                         ("title", TasksJson.JStr "Old task")]])].

(** A normalized [tasks.json] with one known task. *)
Definition normalized_doc : TasksJson.json :=
  TasksJson.JObj
    [("project", TasksJson.JStr "demo");
     ("root_task", TasksJson.JStr "T001");
     ("working_dir", TasksJson.JNull);
     ("gsd_url", TasksJson.JNull);
     ("gsd_project_id", TasksJson.JNull);
     ("known_tasks",
      TasksJson.JObj
        [("T001",
          TasksJson.JObj
            [("title", TasksJson.JStr "Root");
             ("blocked_by", TasksJson.JList []);
             ("status", TasksJson.JStr "orchestrator");
             ("name", TasksJson.JStr "orchestrator");
             ("agent_window", TasksJson.JStr "claw-town-demo:control");
             ("created_by", TasksJson.JStr "human");
             ("last_synced", TasksJson.JStr "2026-01-01T00:00:00+00:00")])]);
     ("last_dag_walk", TasksJson.JNull);
     ("last_gsd_poll", TasksJson.JNull)].

(** [add_task(project, t, title="Other", status="working")]. *)
Definition add_args : TasksJson.AddTaskArgs :=
  {| TasksJson.a_title := Some "Other"; TasksJson.a_status := "working";
     TasksJson.a_blocked_by := None; TasksJson.a_name := Some "other";
     TasksJson.a_agent_window := Some "claw-town-demo:other";
     TasksJson.a_created_by := "claw-town"; TasksJson.a_agent := None;
     TasksJson.a_window := None; TasksJson.a_state := None;
     TasksJson.a_agent_state := None |}.

(** No restart is involved in the samples. *)
Definition no_restart (agents : list Detector.Agent) (tasks : list Detector.TaskView)
    (d : Supervisor.Dashboard) : Supervisor.Dashboard := d.

End Samples.

(* ====================================================================== *)
(** ** Predicates on strings used in the statements *)
(* ====================================================================== *)

Module StrProps.

(** Every character of [s] passes the test [P]. *)
Fixpoint all_chars (P : ascii -> bool) (s : string) : bool :=
  match s with
  | EmptyString => true
  | String c r => P c && all_chars P r
  end.

(** A digit or the minus sign: the characters of a formatted number. *)
Definition is_num_char (c : ascii) : bool :=
  PyStr.is_digit c || Ascii.eqb c "-".

End StrProps.

(* ====================================================================== *)
(** ** claw_town_tasklib.py: the remaining commands *)
(* ====================================================================== *)

Module TasklibCommands.
Import PyStr.
Import Tasklib.

(** The dictionary printed by [cmd_get]. *)
Record Details := mkDetails {
  g_t_number : string;
  g_task_id : string;
  g_title : string;
  g_description : string;
  g_status : string;
  g_priority : string;
  g_owner : option string;
  g_tags : list string;
  g_created_time : string;
  g_updated_time : string;
  g_completed_time : option string;
  g_blocking : list string;
  g_blocked_by : list string
}.

(** One comment as [cmd_comments] prints it. *)
Record CommentRow := mkCommentRow {
  cr_id : nat;
  cr_author : string;
  cr_content : string;
  cr_prefix : string;
  cr_created_time : string
}.

(** One task as the listing commands print it. *)
Record TaskRow := mkTaskRow {
  r_t_number : string;
  r_title : string;
  r_status : string
}.

(** One task as [walk-dag] prints it. *)
Record DagRow := mkDagRow {
  d_t_number : string;
  d_title : string;
  d_status : string;
  d_blocks : list string;
  d_blocked_by : list string
}.

(** What the commands of this part print on stdout. *)
Inductive Report : Type :=
| OutGet (d : Details)
| OutPosted (tn : string) (cid : nat)
| OutComments (tn : string) (cs : list CommentRow)
| OutDag (root direction : string) (tasks : list DagRow)
| OutDependents (tn : string) (rows : list TaskRow)
| OutDependencies (tn : string) (rows : list TaskRow)
| OutAssign (tn user : string)
| OutReopen (tn st : string).

Definition set_assigned_to (x : option string) (t : Task) : Task :=
  {| t_number := t_number t; title := title t; description := description t;
     status := status t; tags := tags t; created_at := created_at t;
     updated_at := updated_at t; blocking := blocking t;
     blocked_by := blocked_by t; assigned_to := x;
     comments := comments t; stage := stage t; owner := owner t;
     completed_at := completed_at t; priority := priority t |}.

Definition cmd_get (raw_task : string) : M Report :=
  tn <- _parse_t_number raw_task ;;
  task_data <- _read_task tn ;;
  ret (OutGet
    {| g_t_number := t_number task_data;
       g_task_id := t_number task_data;
       g_title := title task_data;
       g_description := description task_data;
       g_status := status task_data;
       g_priority := default EmptyString (priority task_data);
       g_owner := assigned_to task_data;
       g_tags := tags task_data;
       g_created_time := created_at task_data;
       g_updated_time := updated_at task_data;
       g_completed_time := completed_at task_data;
       g_blocking := blocking task_data;
       g_blocked_by := blocked_by task_data |}).

(** [args.prefix.upper() if args.prefix else None]. *)
Definition upper_prefix (p : option string) : option string :=
  if truthy p then Some (upper (default EmptyString p)) else None.

(** The row of one existing task, [None] when [_read_task] exits (the
    caller catches [SystemExit] and goes on). *)
Definition task_row (files : gmap string Task) (tn : string) : option TaskRow :=
  match files !! tn with
  | Some t => Some {| r_t_number := tn; r_title := title t; r_status := status t |}
  | None => None
  end.

(** The loop [for dep_tn in l: try: ... append ... except SystemExit: continue]. *)
Definition existing_rows (files : gmap string Task) (l : list string) : list TaskRow :=
  omap (task_row files) l.

Definition dag_entry (tn : string) (t : Task) : DagRow :=
  {| d_t_number := tn; d_title := title t; d_status := status t;
     d_blocks := blocking t; d_blocked_by := blocked_by t |}.

(** The entry of a related task in the [--direct-only] listing. *)
Definition direct_row (files : gmap string Task) (tn : string) : option DagRow :=
  match files !! tn with
  | Some t => Some {| d_t_number := tn; d_title := title t; d_status := status t;
                      d_blocks := []; d_blocked_by := [] |}
  | None => None
  end.

Definition related_of (direction : string) (t : Task) : list string :=
  if String.eqb direction "dependents" then blocking t else blocked_by t.

Definition depth_exceeded (max_depth : option Z) (current_depth : Z) : bool :=
  match max_depth with
  | Some m => (m <? current_depth)%Z
  | None => false
  end.

(** The [for rel_tn in related] loop of [_walk_dag_recursive]; [walk] is
    the recursive call, which shares the [visited] set with the loop. *)
Fixpoint walk_related
    (walk : string -> gset string -> option (list DagRow * gset string))
    (related : list string) (result : list DagRow) (visited : gset string)
    : option (list DagRow * gset string) :=
  match related with
  | [] => Some (result, visited)
  | rel_tn :: rest =>
      if decide (rel_tn ∈ visited) then walk_related walk rest result visited
      else
        match walk rel_tn visited with
        | Some (rows, visited') => walk_related walk rest (result ++ rows) visited'
        | None => None
        end
  end.

(** [_walk_dag_recursive].  The recursion of the source ends because every
    call that recurses has put the T-number of one more existing file into
    [visited]; here it descends on [fuel], and [None] says that the fuel
    ran out. *)
Fixpoint _walk_dag_recursive (fuel : nat) (files : gmap string Task)
    (direction : string) (max_depth : option Z)
    (tn : string) (visited : gset string) (current_depth : Z)
    : option (list DagRow * gset string) :=
  if decide (tn ∈ visited) then Some ([], visited)
  else if depth_exceeded max_depth current_depth then Some ([], visited)
  else
    let visited := {[ tn ]} ∪ visited in
    match files !! tn with
    | None => Some ([], visited)
    | Some task_data =>
        match fuel with
        | O => None
        | S fuel' =>
            walk_related
              (fun rel v => _walk_dag_recursive fuel' files direction max_depth
                              rel v (current_depth + 1)%Z)
              (related_of direction task_data)
              [dag_entry tn task_data] visited
        end
    end.



Record WalkArgs := mkWalkArgs {
  w_root : string;
  w_direction : option string;
  w_direct_only : bool;
  w_max_depth : option Z
}.

Section WithClock.

Variable utcnow : nat -> string.

Definition cmd_comment (raw_task : string) (pfx : option string) (cnt : string)
    : M Report :=
  tn <- _parse_t_number raw_task ;;
  task_data <- _read_task tn ;;
  let cs := comments task_data in
  let cid := List.length cs + 1 in
  ts <- now utcnow ;;
  let entry := {| comment_id := cid; content := cnt;
                  prefix := upper_prefix pfx; comment_created_at := ts |} in
  _write_task utcnow tn (set_comments (cs ++ [entry]) task_data) ;;;
  ret (OutPosted tn cid).

Definition cmd_assign (raw_task user : string) : M Report :=
  tn <- _parse_t_number raw_task ;;
  task_data <- _read_task tn ;;
  _write_task utcnow tn (set_assigned_to (Some user) task_data) ;;;
  ret (OutAssign tn user).

Definition cmd_reopen (raw_task : string) (st : option string) : M Report :=
  tn <- _parse_t_number raw_task ;;
  task_data <- _read_task tn ;;
  let target_status := if truthy st then _normalize_status (default EmptyString st)
                       else "in_progress" in
  _write_task utcnow tn (set_completed_at None (set_status target_status task_data)) ;;;
  ret (OutReopen tn target_status).

End WithClock.

(** Does a stored comment pass the [--prefix] filter of [cmd_comments]? *)
Definition comment_passes (prefix_filter : option string) (c : Comment) : bool :=
  match prefix_filter with
  | Some pf =>
      if nonempty pf then
        negb (negb (String.eqb (default EmptyString (prefix c)) pf)
              && negb (startswith ("[" +:+ pf +:+ "]") (content c)))
      else true
  | None => true
  end.

Definition comment_row (c : Comment) : CommentRow :=
  {| cr_id := comment_id c; cr_author := EmptyString; cr_content := content c;
     cr_prefix := default EmptyString (prefix c);
     cr_created_time := comment_created_at c |}.

Definition cmd_comments (raw_task : string) (pfx : option string) : M Report :=
  tn <- _parse_t_number raw_task ;;
  task_data <- _read_task tn ;;
  let prefix_filter := upper_prefix pfx in
  ret (OutComments tn
         (List.map comment_row
            (List.filter (comment_passes prefix_filter) (comments task_data)))).

Definition cmd_list_dependents (raw_task : string) : M Report :=
  tn <- _parse_t_number raw_task ;;
  task_data <- _read_task tn ;;
  fun w => Done (OutDependents tn (existing_rows (task_files w) (blocking task_data))) w.

Definition cmd_list_dependencies (raw_task : string) : M Report :=
  tn <- _parse_t_number raw_task ;;
  task_data <- _read_task tn ;;
  fun w => Done (OutDependencies tn (existing_rows (task_files w) (blocked_by task_data))) w.

(** [cmd_walk_dag].  The recursive walk gets one unit of fuel per task
    file, which is as deep as it can go. *)
Definition cmd_walk_dag (args : WalkArgs) : M Report :=
  root_tn <- _parse_t_number (w_root args) ;;
  let direction := if truthy (w_direction args)
                   then default EmptyString (w_direction args) else "dependents" in
  if w_direct_only args then
    task_data <- _read_task root_tn ;;
    fun w =>
      Done (OutDag root_tn direction
              (dag_entry root_tn task_data
               :: omap (direct_row (task_files w)) (related_of direction task_data))) w
  else
    fun w =>
      match _walk_dag_recursive (size (task_files w)) (task_files w) direction
              (w_max_depth args) root_tn ∅ 0%Z with
      | Some (tasks, _) => Done (OutDag root_tn direction tasks) w
      | None => Done (OutDag root_tn direction []) w
      end.

(** The files [_read_all_tasks] globs ([T*.json]), in the order of the map. *)
Definition _read_all_tasks (w : World) : list Task :=
  List.map snd
    (List.filter (fun kv => startswith "T" (fst kv)) (map_to_list (task_files w))).

(** The T-numbers that [list-dependents] prints for a task ([[]] when the
    command exits). *)
Definition dependents_of (w : World) (raw_task : string) : list string :=
  match cmd_list_dependents raw_task w with
  | Done (OutDependents _ rows) _ => List.map r_t_number rows
  | _ => []
  end.

(** The T-numbers that [list-dependencies] prints for a task. *)
Definition dependencies_of (w : World) (raw_task : string) : list string :=
  match cmd_list_dependencies raw_task w with
  | Done (OutDependencies _ rows) _ => List.map r_t_number rows
  | _ => []
  end.

(** The store commands, one process each. *)
Inductive Step : Type :=
| StepCreate (args : CreateArgs)
| StepAddBlocking (blocker blocked : string)
| StepUpdate (args : UpdateArgs)
| StepClose (task : string)
| StepComment (task : string) (pfx : option string) (cnt : string)
| StepAssign (task user : string)
| StepReopen (task : string) (st : option string).

Definition step_world (utcnow : nat -> string) (s : Step) (w : World) : World :=
  match s with
  | StepCreate a => world_of (cmd_create utcnow a w)
  | StepAddBlocking b d => world_of (cmd_add_blocking utcnow b d w)
  | StepUpdate a => world_of (cmd_update utcnow a w)
  | StepClose t => world_of (cmd_close utcnow t w)
  | StepComment t p c => world_of (cmd_comment utcnow t p c w)
  | StepAssign t u => world_of (cmd_assign utcnow t u w)
  | StepReopen t s => world_of (cmd_reopen utcnow t s w)
  end.

Definition run_steps (utcnow : nat -> string) (ss : list Step) (w : World) : World :=
  List.fold_left (fun w s => step_world utcnow s w) ss w.

(** Did [add-blocking] return, every time it was run? *)
Fixpoint links_made (utcnow : nat -> string) (ss : list Step) (w : World) : bool :=
  match ss with
  | [] => true
  | s :: r =>
      match s with
      | StepAddBlocking b d =>
          match cmd_add_blocking utcnow b d w with
          | Done _ _ => links_made utcnow r (step_world utcnow s w)
          | Exited _ _ _ => false
          end
      | _ => links_made utcnow r (step_world utcnow s w)
      end
  end.

(** Every file is named by the T-number of an id the counter has passed. *)
Definition ids_below_counter (w : World) : Prop :=
  forall tn, is_Some (task_files w !! tn) ->
    exists k, (1 <= k < next_id_of w)%Z /\ tn = _format_t_number k.

(** Every link names an existing file. *)
Definition links_closed (w : World) : Prop :=
  forall a ta b, task_files w !! a = Some ta ->
    (In b (blocking ta) \/ In b (blocked_by ta)) -> is_Some (task_files w !! b).

(** The two link lists of the file named [k], if there is one. *)
Definition link_view (w : World) (k : string) : option (list string * list string) :=
  option_map (fun t => (blocking t, blocked_by t)) (task_files w !! k).

(** [w'] has the counter, the file names and the links of [w]. *)
Definition same_links (w w' : World) : Prop :=
  next_id_of w' = next_id_of w /\ forall k, link_view w' k = link_view w k.

(** [w'] has the counter and the file names of [w]. *)
Definition same_names (w w' : World) : Prop :=
  next_id_of w' = next_id_of w
  /\ forall k, is_Some (task_files w' !! k) <-> is_Some (task_files w !! k).

(** The counter is ahead of every file name. *)
Definition counter_ahead (w : World) : Prop :=
  (1 <= next_id_of w)%Z /\ ids_below_counter w.

(** The state the store keeps between commands that return. *)
Definition well_linked (w : World) : Prop :=
  (1 <= next_id_of w)%Z /\ ids_below_counter w /\ links_closed w
  /\ links_symmetric w.

End TasklibCommands.

(* ====================================================================== *)
(** ** claw_town_roles.py: the listing commands *)
(* ====================================================================== *)

Module RolesCommands.
Import PyStr.
Import Tasklib.
Import Roles.

(** [sorted(VALID_ROLES)]. *)
Definition sorted_valid_roles : list string :=
  ["code-reviewer"; "design-auditor"; "intern"; "perf-checker"; "pm";
   "qa-tester"; "tech-lead"].

(** One task in the answer of [list-available]. *)
Record AvailRow := mkAvailRow {
  a_t_number : string;
  a_title : string;
  a_stage : option string;
  a_status : string
}.

Definition avail_row (t : Task) : AvailRow :=
  {| a_t_number := t_number t; a_title := title t; a_stage := stage t;
     a_status := status t |}.

(** [t.get("stage") == stage and t.get("owner") is None]. *)
Definition is_available (stg : string) (t : Task) : bool :=
  bool_decide (stage t = Some stg) && negb (is_some (owner t)).

(** [_read_all_tasks_with_stages]: the files [_read_all_tasks] globs;
    [setdefault] of [stage] and [owner] is the identity on a [Task]. *)
Definition _read_all_tasks_with_stages (w : World) : list Task :=
  TasklibCommands._read_all_tasks w.

Inductive ListOutput : Type :=
| OutAvailable (role stg : string) (available : list AvailRow) (count : nat).

Definition cmd_list_available (role : string) : M ListOutput :=
  if negb (mem role VALID_ROLES) then
    exit_with ("Unknown role '" +:+ role +:+ "'")
      (Some ("valid_roles", sorted_valid_roles))
  else
    let stg := assoc_get role ROLE_TO_STAGE in
    if negb (truthy stg) then
      exit_with ("No stage mapped to role '" +:+ role +:+ "'") None
    else
      fun w =>
        let stg := default EmptyString stg in
        let available :=
          List.map avail_row
            (List.filter (is_available stg) (_read_all_tasks_with_stages w)) in
        Done (OutAvailable role stg available (List.length available)) w.

End RolesCommands.

(* ====================================================================== *)
(** ** claw_town_tasks_json.py: the other operations on tasks.json *)
(* ====================================================================== *)

Module TasksJsonOps.
Import PyStr.
Import TasksJson.

Definition VALID_STATES : list string :=
  ["orchestrator"; "working"; "idle"; "stuck"; "pending"; "completed"].

(** [re.match] of [_T_NUMBER_RE] ([^T\d+$]) after the [T]: digits, at
    least one, up to the end of the string or to a newline that ends it
    (the [$] of [re] also matches just before a final newline). *)
Fixpoint digits_to_end (s : string) (seen_digit : bool) : bool :=
  match s with
  | EmptyString => seen_digit
  | String c r =>
      if is_digit c then digits_to_end r true
      else seen_digit && Ascii.eqb c "010"
           && match r with EmptyString => true | _ => false end
  end.

Definition _T_NUMBER_RE_match (value : string) : bool :=
  match value with
  | String "T" r => digits_to_end r false
  | _ => false
  end.

(** [_validate_t_number]: [None] when it returns, the message printed on
    stderr when it leaves through [sys.exit(1)]. *)
Definition _validate_t_number (value : string) : option string :=
  if negb (_T_NUMBER_RE_match value) then
    Some ("Error: Invalid T-number '" +:+ value +:+ "'. "
          +:+ "Must be 'T' followed by digits only (e.g., T254710014)")
  else None.

(** [with locked_update(project) as data: body], for a body that also
    returns a value: the dictionary is written back when the body returns,
    also through a [return] inside the [with]; an exception leaves the
    file as it was. *)
Definition locked_call {R : Type} (project : string)
    (body : dict -> PyResult (dict * R)) (f : TasksFile)
    : PyResult (TasksFile * R) :=
  data <~ load project f ;;
  r <~ body data ;;
  Ok (Some (JObj (fst r)), snd r).

(** [tasks = data.get("known_tasks", {})] and the body that works on it;
    after [load] the value is a [dict], other values leave the model. *)
Definition with_known_tasks {R : Type} (data : dict)
    (k : dict -> PyResult (dict * R)) : PyResult (dict * R) :=
  match dget "known_tasks" data with
  | Some (JObj tasks) => k tasks
  | None => k []
  | Some _ => Unmodelled
  end.

(** The dictionary after its [known_tasks] object was changed in place. *)
Definition put_known_tasks (tasks : dict) (data : dict) : dict :=
  dset "known_tasks" (JObj tasks) data.

Definition remove_task (project t_number : string) (f : TasksFile)
    : PyResult (TasksFile * bool) :=
  locked_call project
    (fun data =>
       with_known_tasks data (fun tasks =>
         if dhas t_number tasks
         then Ok (put_known_tasks (dpop t_number tasks) data, true)
         else Ok (data, false)))
    f.

Record UpdateAgentArgs := mkUpdateAgentArgs {
  ua_agent_window : option string;
  ua_status : option string;
  ua_name : option string;
  ua_agent : option string;
  ua_window : option string;
  ua_state : option string;
  ua_agent_state : option string
}.

Definition resolved_window_of (args : UpdateAgentArgs) : option string :=
  let resolved_window := or_str (ua_agent_window args) (ua_window args) in
  if PyStr.truthy (ua_agent args) && negb (PyStr.truthy resolved_window)
  then ua_agent args else resolved_window.

Definition resolved_status_of (args : UpdateAgentArgs) : option string :=
  or_str (or_str (ua_status args) (ua_agent_state args)) (ua_state args).

(** [if x is not None: entry[k] = x]. *)
Definition set_if_given (k : string) (x : option string) (entry : dict) : dict :=
  match x with
  | Some v => dset k (JStr v) entry
  | None => entry
  end.

Definition update_agent (project t_number : string) (args : UpdateAgentArgs)
    (f : TasksFile) : PyResult (TasksFile * bool) :=
  let resolved_window := resolved_window_of args in
  let resolved_status := resolved_status_of args in
  locked_call project
    (fun data =>
       with_known_tasks data (fun tasks =>
         match dget t_number tasks with
         | None => Ok (data, false)
         | Some (JObj entry) =>
             let entry := set_if_given "agent_window" resolved_window entry in
             let entry := set_if_given "name" (ua_name args) entry in
             entry <~ match resolved_status with
                      | Some st =>
                          if negb (mem st VALID_STATES) then Raises "ValueError"
                          else Ok (dset "status" (JStr st) entry)
                      | None => Ok entry
                      end ;;
             Ok (put_known_tasks (dset t_number (JObj entry) tasks) data, true)
         | Some _ => Unmodelled
         end))
    f.

Definition set_working_dir (project working_dir : string) (f : TasksFile)
    : PyResult TasksFile :=
  locked_update project (fun data => Ok (dset "working_dir" (JStr working_dir) data)) f.

Definition get_working_dir (project : string) (f : TasksFile) : PyResult json :=
  data <~ load project f ;;
  Ok (get_or_none "working_dir" data).

(** Is the JSON value the string [s]? *)
Definition is_str (s : string) (j : json) : bool :=
  match j with JStr s' => String.eqb s s' | _ => false end.

(** [{t: info for t, info in known_tasks.items() if info.get("status") == st}]. *)
Definition tasks_with_status (st : string) (data : dict) : PyResult dict :=
  match dget "known_tasks" data with
  | Some (JObj tasks) =>
      if forallb (fun kv => match snd kv with JObj _ => true | _ => false end) tasks
      then Ok (List.filter
                 (fun kv => match snd kv with
                            | JObj info => is_str st (get_or_none "status" info)
                            | _ => false
                            end) tasks)
      else Raises "AttributeError"
  | None => Ok []
  | Some _ => Raises "AttributeError"
  end.

Definition get_tasks_by_state (project agent_state : string) (f : TasksFile)
    : PyResult dict :=
  if negb (mem agent_state VALID_STATES) then Raises "ValueError"
  else data <~ load project f ;; tasks_with_status agent_state data.

(** The shape [_migrate_data] leaves behind and accepts again: the
    [known_tasks] object holds objects, and [tasks] is no list. *)
Definition entries_are_objects (tasks : dict) : bool :=
  forallb (fun kv => match snd kv with JObj _ => true | _ => false end) tasks.

Definition migrated_shape (data : dict) : bool :=
  match dget "known_tasks" data with
  | Some (JObj tasks) => entries_are_objects tasks
  | _ => false
  end
  && match dget "tasks" data with Some (JList _) => false | _ => true end.

End TasksJsonOps.

(* ====================================================================== *)
(** ** dashboard_data.py: sanitizing, nudge messages, task bookkeeping *)
(* ====================================================================== *)

Module DashboardData.
Import Detector.

(** [s.replace(a, b)] for single characters. *)
Definition replace_cp (a b : N) (s : ustr) : ustr :=
  List.map (fun c => if (c =? a)%N then b else c) s.

(** [sanitize_content]: the curly double quotes (U+201C, U+201D) become
    the ASCII double quote, the curly single quotes (U+2018, U+2019) the
    apostrophe, the em dash and the en dash (U+2014, U+2013) the hyphen. *)
Definition sanitize_content (content : ustr) : ustr :=
  let content := replace_cp 8221 34 (replace_cp 8220 34 content) in
  let content := replace_cp 8217 39 (replace_cp 8216 39 content) in
  let content := replace_cp 8211 45 (replace_cp 8212 45 content) in
  content.

(** The six characters [sanitize_content] replaces. *)
Definition is_fancy (c : N) : bool :=
  ((c =? 8220) || (c =? 8221) || (c =? 8216) || (c =? 8217)
   || (c =? 8212) || (c =? 8211))%N.

Definition _AGENT_NUDGE_MESSAGES : list string :=
  ["If you're waiting for clarification, use your best judgment and continue. Make reasonable assumptions and proceed.";
   "Don't wait for input - you have autonomy to make decisions. Keep working and adjust if needed later.";
   "Continue with your task. If you're stuck, try a different approach rather than waiting.";
   "Make a decision and proceed. You can always course-correct, but don't block on missing info.";
   "Finish your task autonomously. Signal TASK_COMPLETE when done - don't wait for confirmation."].

Definition _SUB_ORCH_NUDGE_MESSAGES : list string :=
  ["Use your best judgment and continue orchestrating. Don't wait for input - make decisions autonomously.";
   "Keep your subtree moving. If you need clarification, make reasonable assumptions and proceed.";
   "Continue coordinating your work. You have autonomy to make decisions - adjust later if needed.";
   "Don't block on missing information. Use your judgment and keep the workflow progressing."].

(** [l[i]] for an index that is not negative; [None] stands for
    [IndexError]. *)
Definition item {A : Type} (l : list A) (i : Z) : option A :=
  if (i <? 0)%Z then None else nth_error l (Z.to_nat i).

(** [build_agent_nudge_message]; [%] is the modulo of Python, whose sign
    is that of the divisor. *)
Definition build_agent_nudge_message (nudge_count : Z) (task_context : string)
    : option string :=
  match item _AGENT_NUDGE_MESSAGES
          (nudge_count mod Z.of_nat (List.length _AGENT_NUDGE_MESSAGES))%Z with
  | Some message =>
      if PyStr.nonempty task_context
      then Some (message +:+ " - " +:+ task_context)
      else Some message
  | None => None
  end.

Definition build_sub_orch_nudge_message (nudge_count : Z) : option string :=
  item _SUB_ORCH_NUDGE_MESSAGES
    (nudge_count mod Z.of_nat (List.length _SUB_ORCH_NUDGE_MESSAGES))%Z.

(** [find_new_task_ids]. *)
Definition find_new_task_ids (current_ids previous_ids : gset string)
    (recently_created_ids : option (gset string)) : gset string :=
  if decide (previous_ids = ∅) then ∅
  else
    let new_ids := current_ids ∖ previous_ids in
    match recently_created_ids with
    | Some r => if decide (r = ∅) then new_ids else new_ids ∖ r
    | None => new_ids
    end.

(** An agent and its nudge state, with the keys [should_nudge_agent]
    reads; [None] is a missing key. *)
Record WorkerAgent := mkWorkerAgent {
  wa_name : option ustr;
  wa_status : option ustr;
  wa_status_detail : option ustr
}.

Record NudgeState := mkNudgeState {
  ns_nudge_count : option Z;
  ns_last_activity : option float;
  ns_last_nudge : option float
}.

Definition should_nudge_agent (agent : WorkerAgent) (nudge_state : NudgeState)
    (agent_max_nudges : Z) (agent_nudge_interval agent_nudge_cooldown : float)
    (completed_agents : list ustr) (now : float) : bool :=
  let agent_name := default [] (wa_name agent) in
  let status := default AgentStatus.UNKNOWN (wa_status agent) in
  if opt_eqb (wa_status_detail agent) (u "completed")
     || existsb (ustr_eqb agent_name) completed_agents then false
  else if negb (ustr_eqb status AgentStatus.FREE || ustr_eqb status AgentStatus.NEEDS_INPUT)
  then false
  else if ustr_eqb status AgentStatus.COMPLETED then false
  else if (agent_max_nudges <=? default 0%Z (ns_nudge_count nudge_state))%Z then false
  else
    let idle_time := PrimFloat.sub now (default now (ns_last_activity nudge_state)) in
    let cooldown_elapsed :=
      PrimFloat.ltb agent_nudge_cooldown
        (PrimFloat.sub now (default 0%float (ns_last_nudge nudge_state))) in
    PrimFloat.leb agent_nudge_interval idle_time && cooldown_elapsed.

(** The [stats] dictionary of [get_task_stats], keys in insertion order. *)
Definition Stats : Type := list (string * Z).

Definition initial_stats (total : nat) : Stats :=
  [("total", Z.of_nat total); ("completed", 0%Z); ("in_progress", 0%Z);
   ("open", 0%Z); ("pending", 0%Z); ("blocked", 0%Z); ("failed", 0%Z)].

(** [stats[k]], [0] for a key that is not there. *)
Fixpoint sget (k : string) (stats : Stats) : Z :=
  match stats with
  | [] => 0%Z
  | (k', v) :: r => if String.eqb k k' then v else sget k r
  end.

(** [if status in stats: stats[status] += 1]. *)
Fixpoint bump (k : string) (stats : Stats) : Stats :=
  match stats with
  | [] => []
  | (k', v) :: r =>
      if String.eqb k k' then (k', (v + 1)%Z) :: r else (k', v) :: bump k r
  end.

(** The loop of [get_task_stats].  [task.get] needs a [dict]; a status
    that is a list or an object cannot be looked up in a [dict]
    ([TypeError]); a number, a boolean or [None] is looked up and is no
    key. *)
Fixpoint count_statuses (tasks : list TasksJson.json) (stats : Stats)
    : TasksJson.PyResult Stats :=
  match tasks with
  | [] => TasksJson.Ok stats
  | task :: r =>
      match task with
      | TasksJson.JObj o =>
          match TasksJson.dget "status" o with
          | None => count_statuses r (bump "open" stats)
          | Some (TasksJson.JStr st) => count_statuses r (bump st stats)
          | Some (TasksJson.JList _) => TasksJson.Raises "TypeError"
          | Some (TasksJson.JObj _) => TasksJson.Raises "TypeError"
          | Some _ => count_statuses r stats
          end
      | _ => TasksJson.Raises "AttributeError"
      end
  end.

Definition get_task_stats (tasks : list TasksJson.json) : TasksJson.PyResult Stats :=
  count_statuses tasks (initial_stats (List.length tasks)).

(** Does the task count under the status [k]: is [task.get("status",
    "open")] the string [k]? *)
Definition has_status (k : string) (task : TasksJson.json) : bool :=
  match task with
  | TasksJson.JObj o =>
      match TasksJson.dget "status" o with
      | None => String.eqb k "open"
      | Some (TasksJson.JStr st) => String.eqb k st
      | Some _ => false
      end
  | _ => false
  end.

Definition count_status (k : string) (tasks : list TasksJson.json) : Z :=
  Z.of_nat (List.length (List.filter (has_status k) tasks)).

(** [k in stats]. *)
Definition shas (k : string) (stats : Stats) : bool :=
  existsb (fun kv => String.eqb k (fst kv)) stats.

Section WithUnicode.

Variable lower_tail : N -> list N.

(** [detect_agent_completion_signal]. *)
Definition detect_agent_completion_signal (last_output : ustr) : bool :=
  match last_output with
  | [] => false
  | _ =>
      let last_output_lower := lower lower_tail last_output in
      existsb (fun signal => contains signal last_output_lower)
        [u "task_complete"; u "task complete"; u "taskcomplete"]
  end.

End WithUnicode.

End DashboardData.

(* ====================================================================== *)
(** ** claw_town_events.py *)
(* ====================================================================== *)

Module Events.
Import PyStr.
Import TasksJson.

Definition _MAX_EVENTS : nat := 500.

(** One line of [events.jsonl] as the readers see it after [strip]:
    nothing, text that is not JSON, or a JSON value. *)
Inductive Line : Type :=
| Blank
| Garbage
| Parsed (ev : json).

(** The line [log_event] appends. *)
Definition record_of (now event_type summary : string) (details : option string)
    : json :=
  JObj ([("ts", JStr now); ("type", JStr event_type); ("summary", JStr summary)]
        ++ match details with
           | Some d => [("details", JStr d)]
           | None => []
           end).

(** [lines[-k:]] for [k > 0]. *)
Definition last_lines {A : Type} (k : nat) (lines : list A) : list A :=
  skipn (List.length lines - k) lines.

Definition _truncate_if_needed (lines : list Line) : list Line :=
  if List.length lines <=? _MAX_EVENTS then lines
  else last_lines _MAX_EVENTS lines.

(** [log_event]: [now] is the time stamp taken for the record. *)
Definition log_event (now event_type summary : string) (details : option string)
    (lines : list Line) : list Line :=
  _truncate_if_needed (lines ++ [Parsed (record_of now event_type summary details)]).

(** [a < b] on [str]: the order of the code points. *)
Fixpoint str_ltb (a b : string) : bool :=
  match a, b with
  | EmptyString, EmptyString => false
  | EmptyString, String _ _ => true
  | String _ _, EmptyString => false
  | String x a', String y b' =>
      if (nat_of_ascii x <? nat_of_ascii y) then true
      else if (nat_of_ascii y <? nat_of_ascii x) then false
      else str_ltb a' b'
  end.

(** [ev.get("type") != event_type]; [None] stands for the exception
    raised when [ev] has no [get]. *)
Definition type_differs (ev : json) (event_type : string) : option bool :=
  match ev with
  | JObj o =>
      Some (match dget "type" o with
            | Some (JStr t) => negb (String.eqb t event_type)
            | _ => true
            end)
  | _ => None
  end.

(** [ev.get("ts", "") < since]; [None] stands for an exception (no [get],
    or a time stamp that is not a string). *)
Definition before_since (ev : json) (since : string) : option bool :=
  match ev with
  | JObj o =>
      match dget "ts" o with
      | Some (JStr ts) => Some (str_ltb ts since)
      | None => Some (str_ltb EmptyString since)
      | Some _ => None
      end
  | _ => None
  end.

(** The loop of [read_events]; [None] when an exception ends it. *)
Fixpoint matching_events (since event_type : option string) (lines : list Line)
    : option (list json) :=
  match lines with
  | [] => Some []
  | Blank :: r => matching_events since event_type r
  | Garbage :: r => matching_events since event_type r
  | Parsed ev :: r =>
      let skip_type :=
        if PyStr.truthy event_type
        then type_differs ev (default EmptyString event_type)
        else Some false in
      match skip_type with
      | None => None
      | Some true => matching_events since event_type r
      | Some false =>
          let skip_since :=
            if PyStr.truthy since
            then before_since ev (default EmptyString since)
            else Some false in
          match skip_since with
          | None => None
          | Some true => matching_events since event_type r
          | Some false =>
              match matching_events since event_type r with
              | Some es => Some (ev :: es)
              | None => None
              end
          end
      end
  end.

(** [events[-limit:]], for a limit of either sign. *)
Definition tail_by (limit : Z) (events : list json) : list json :=
  if (0 <? limit)%Z then last_lines (Z.to_nat limit) events
  else skipn (Z.to_nat (- limit)) events.

(** [read_events]; an exception is reported on stderr and the answer is
    the empty list. *)
Definition read_events (since event_type : option string) (limit : Z)
    (file : option (list Line)) : list json :=
  match file with
  | None => []
  | Some lines =>
      match matching_events since event_type lines with
      | None => []
      | Some events =>
          if negb (limit =? 0)%Z && (limit <? Z.of_nat (List.length events))%Z
          then tail_by limit events
          else events
      end
  end.

(** The walk of [last_event_of_type] over [reversed(lines)]. *)
Fixpoint first_of_type (event_type : string) (reversed_lines : list Line)
    : option json :=
  match reversed_lines with
  | [] => None
  | Blank :: r => first_of_type event_type r
  | Garbage :: r => first_of_type event_type r
  | Parsed ev :: r =>
      match type_differs ev event_type with
      | None => None
      | Some false => Some ev
      | Some true => first_of_type event_type r
      end
  end.

Definition last_event_of_type (event_type : string) (file : option (list Line))
    : option json :=
  match file with
  | None => None
  | Some lines => first_of_type event_type (List.rev lines)
  end.

(** One call of [log_event], and a run of calls. *)
Record LogCall := mkLogCall {
  lc_now : string;
  lc_type : string;
  lc_summary : string;
  lc_details : option string
}.

Definition line_of (c : LogCall) : Line :=
  Parsed (record_of (lc_now c) (lc_type c) (lc_summary c) (lc_details c)).

Definition log_all (calls : list LogCall) (lines : list Line) : list Line :=
  List.fold_left
    (fun ls c => log_event (lc_now c) (lc_type c) (lc_summary c) (lc_details c) ls)
    calls lines.

(** Every JSON line is an object. *)
Definition objects_only (lines : list Line) : bool :=
  forallb (fun l => match l with
                    | Parsed (JObj _) => true
                    | Parsed _ => false
                    | _ => true
                    end) lines.

End Events.

(* ====================================================================== *)
(** ** dashboard_view.py: text utilities *)
(* ====================================================================== *)

Module View.
Import Detector.

(** The class [[0-9;]]. *)
Definition is_param (c : N) : bool :=
  (((48 <=? c) && (c <=? 57)) || (c =? 59))%N.

(** The length of the match of [\033\[[0-9;]*m] at the start of [s], if
    there is one: ESC, the bracket, the longest run of digits and
    semicolons (giving some back cannot help, an [m] has to follow), and
    the letter [m]. *)
Definition match_len (s : ustr) : option nat :=
  match s with
  | 27%N :: 91%N :: r =>
      let params := take_while is_param r in
      match skipn (List.length params) r with
      | 109%N :: _ => Some (List.length params + 3)
      | _ => None
      end
  | _ => None
  end.

(** [re.sub(r"\033\[[0-9;]*m", "", s)]: the matches are found from left
    to right and do not overlap; [skip] counts the characters of the
    current match that are still to be dropped. *)
Fixpoint sub_ansi (skip : nat) (s : ustr) : ustr :=
  match s with
  | [] => []
  | c :: r =>
      match skip with
      | S k => sub_ansi k r
      | O =>
          match match_len s with
          | Some n => sub_ansi (n - 1) r
          | None => c :: sub_ansi 0 r
          end
      end
  end.

(** [strip_ansi]: the display width of a text. *)
Definition strip_ansi (text : ustr) : nat := List.length (sub_ansi 0 text).

(** [ansi_pad]. *)
Definition ansi_pad (text : ustr) (width : Z) : ustr :=
  let visible_len := Z.of_nat (strip_ansi text) in
  if (width <=? visible_len)%Z then text
  else text ++ List.repeat 32%N (Z.to_nat (width - visible_len)).

End View.

(* ====================================================================== *)
(** ** More concrete inputs *)
(* ====================================================================== *)

Module MoreSamples.
Import Tasklib.
Import TasklibCommands.
Import Samples.

(** Two tasks, a link between them, and some bookkeeping. *)
Definition linked_steps : list Step :=
  [StepCreate (create_titled "A"); StepCreate (create_titled "B");
   StepAddBlocking "T001" "2"; StepComment "t1" (Some "findings") "looked at it";
   StepAddBlocking "1" "T002"; StepClose "T001"; StepReopen "T001" None;
   StepAssign "T002" "sam"].

(** Three tasks for the statistics: one whose status is the word
    [total], one open, one without a status. *)
Definition odd_tasks : list TasksJson.json :=
  [TasksJson.JObj [("id", TasksJson.JStr "T001"); ("status", TasksJson.JStr "total")];
   TasksJson.JObj [("id", TasksJson.JStr "T002"); ("status", TasksJson.JStr "open")];
   TasksJson.JObj [("id", TasksJson.JStr "T003")]].

(** Three events logged into an empty file. *)
Definition three_calls : list Events.LogCall :=
  [Events.mkLogCall "2026-01-01T00:00:00+00:00" "nudge_orch" "first" None;
   Events.mkLogCall "2026-01-01T00:05:00+00:00" "learn" "second" (Some "more");
   Events.mkLogCall "2026-01-01T00:10:00+00:00" "nudge_orch" "third" None].

End MoreSamples.

(* ====================================================================== *)
(** * Properties *)
(* ====================================================================== *)

(** ** Task store *)

Module TasklibFacts.
Import PyStr.
Import Tasklib.
Import Samples.

(** [_parse_t_number] reads no file and writes none. *)
Lemma parse_pure (raw : string) :
  (exists tn, forall w' : World, _parse_t_number raw w' = Done tn w')
  \/ (exists e, forall w' : World, _parse_t_number raw w' = Exited 1%Z e w').
Proof.
  unfold _parse_t_number.
  destruct (py_int _); [left | right]; eexists; intros; reflexivity.
Qed.

Lemma parse_done_world raw w tn w' :
  _parse_t_number raw w = Done tn w' ->
  w' = w /\ forall w'', _parse_t_number raw w'' = Done tn w''.
Proof.
  unfold _parse_t_number.
  destruct (py_int _); unfold ret, _error; intros H; inversion H; subst.
  split; [reflexivity | intros; reflexivity].
Qed.

(** [cmd_create] always returns: it takes the next id, writes one file
    under the formatted T-number and bumps the counter by one. *)
Lemma cmd_create_done utcnow args w :
  exists t,
    cmd_create utcnow args w =
      Done (OutCreate (_format_t_number (next_id_of w)) (c_title args))
        {| counter_json := Some (Some (next_id_of w + 1)%Z);
           task_files := <[_format_t_number (next_id_of w) := t]> (task_files w);
           clock_reads := S (S (clock_reads w)) |}
    /\ t_number t = _format_t_number (next_id_of w)
    /\ title t = c_title args
    /\ blocking t = [] /\ blocked_by t = []
    /\ (PyStr.truthy (c_progress args) = false -> status t = "open")
    /\ (PyStr.truthy (c_progress args) = true ->
        status t = _normalize_status (default EmptyString (c_progress args))).
Proof.
  unfold cmd_create, bind, _next_id, now, _write_task, ret, next_id_of.
  destruct w as [cj tf cr]; simpl.
  eexists; split; [reflexivity|].
  destruct (PyStr.truthy (c_progress args)); simpl;
    repeat split; intros; congruence.
Qed.

(** C1. From an empty [.tasks/] directory, two [create] commands run one
    after the other (in either order, whatever their arguments) leave
    exactly the files [T001.json] and [T002.json], the first holding the
    first title and the second the second, and [counter.json] holds
    [next_id = 3]. *)
Theorem create_twice_allocates_T001_T002 (utcnow : nat -> string) (a b : CreateArgs) :
  let w := run_all utcnow [Create a; Create b] empty_dir in
  dom (task_files w) = {[ "T001"; "T002" ]}
  /\ (exists ta tb,
         task_files w !! "T001" = Some ta /\ task_files w !! "T002" = Some tb
         /\ t_number ta = "T001" /\ title ta = c_title a
         /\ t_number tb = "T002" /\ title tb = c_title b)
  /\ counter_json w = Some (Some 3%Z).
Proof.
  cbv zeta. unfold run_all, run_command.
  destruct (cmd_create_done utcnow a empty_dir) as (ta & Ea & Hna & Hta & _).
  rewrite Ea. cbn [world_of].
  match goal with |- context [cmd_create utcnow b ?w] =>
    destruct (cmd_create_done utcnow b w) as (tb & Eb & Hnb & Htb & _) end.
  rewrite Eb. clear Ea Eb.
  unfold next_id_of, empty_dir in *. cbn [world_of task_files counter_json] in *.
  change (_format_t_number 1) with "T001" in *.
  change (_format_t_number (1 + 1)) with "T002" in *.
  split; [| split].
  - rewrite !dom_insert_L, dom_empty_L. set_solver.
  - exists ta, tb. rewrite lookup_insert_ne by done.
    rewrite !lookup_insert_eq. auto 10.
  - reflexivity.
Qed.

(** C2, at the failing input.  After [create --title A], the command
    [add-blocking --blocker T001 --blocked T002] exits with code 1 because
    T002 does not exist, but it has already rewritten T001 with T002 in its
    [blocking] list; the next [create] makes T002 with an empty
    [blocked_by] list, and the two link lists disagree. *)
Theorem add_blocking_missing_blocked_breaks_symmetry :
  let cmds := [Create (create_titled "A"); AddBlocking "T001" "T002";
               Create (create_titled "B")] in
  let w := run_all fixed_clock cmds empty_dir in
  exit_code (run_command fixed_clock (AddBlocking "T001" "T002") one_task) = Some 1%Z
  /\ option_map blocking (task_files w !! "T001") = Some ["T002"]
  /\ option_map blocked_by (task_files w !! "T002") = Some []
  /\ ~ links_symmetric w.
Proof.
  cbv zeta.
  assert (H1 : option_map blocking
                 (task_files (run_all fixed_clock
                    [Create (create_titled "A"); AddBlocking "T001" "T002";
                     Create (create_titled "B")] empty_dir) !! "T001")
               = Some ["T002"]) by (vm_compute; reflexivity).
  assert (H2 : option_map blocked_by
                 (task_files (run_all fixed_clock
                    [Create (create_titled "A"); AddBlocking "T001" "T002";
                     Create (create_titled "B")] empty_dir) !! "T002")
               = Some []) by (vm_compute; reflexivity).
  split; [vm_compute; reflexivity |].
  split; [exact H1 |]. split; [exact H2 |].
  intros Hsym.
  destruct (task_files _ !! "T001") as [ta|] eqn:Ea; [| discriminate].
  destruct (task_files _ !! "T002") as [tb|] eqn:Eb; [| discriminate].
  simpl in H1, H2. inversion H1 as [Hb]. inversion H2 as [Hbb].
  pose proof (Hsym "T001" "T002" ta tb Ea Eb) as [Hfwd _].
  rewrite Hb, Hbb in Hfwd. apply Hfwd. left; reflexivity.
Qed.






End TasklibFacts.

(** ** Pipeline *)

Module RolesFacts.
Import PyStr.
Import Tasklib.
Import Roles.
Import Samples.
Import TasklibFacts.

Lemma append_assoc (a b c : string) : (a +:+ b) +:+ c = a +:+ (b +:+ c).
Proof.
  induction a as [| x a IH]; [reflexivity |].
  change (String x ((a +:+ b) +:+ c) = String x (a +:+ (b +:+ c))).
  now rewrite IH.
Qed.

Lemma append_empty_r (a : string) : a +:+ EmptyString = a.
Proof.
  induction a as [| x a IH]; [reflexivity |].
  change (String x (a +:+ EmptyString) = String x a).
  now rewrite IH.
Qed.

Ltac split_eqb :=
  repeat match goal with
         | |- context [String.eqb ?a ?b] =>
             destruct (String.eqb_spec a b); subst; try congruence;
             cbn -[String.eqb]
         end.

(** The three checks of [cmd_reject] accept exactly the pairs of the
    allow-list whose target lies strictly before the current stage. *)
Lemma reject_checks (c : option string) (s : string) :
  reject_legal c s =
  mem s VALID_STAGES && mem s (allowed_get c REJECT_ALLOWED)
  && match index_of s PIPELINE_STAGES with
     | Some ti => negb (current_index c <=? Z.of_nat ti)%Z
     | None => false
     end.
Proof.
  destruct c as [c|].
  2:{ unfold reject_legal, in_allow_list. cbn. now rewrite andb_false_r. }
  unfold reject_legal, in_allow_list, strictly_before, current_index,
    reject_allow_list, REJECT_ALLOWED, VALID_STAGES, PIPELINE_STAGES, mem.
  cbn [existsb allowed_get fst snd index_of].
  split_eqb; reflexivity.
Qed.

Lemma reason_occurs c tgt o reason :
  occurs_in reason (reject_comment c tgt o reason).
Proof.
  unfold occurs_in, reject_comment.
  eexists _, EmptyString. rewrite append_empty_r.
  rewrite <- !append_assoc. reflexivity.
Qed.

(** C3. For a task that exists, at current stage [c]: [reject] to [s]
    returns exactly when [(c, s)] is in the allow-list and [s] comes
    strictly before [c] in the pipeline order.  When it returns, the task
    file has stage [s], no owner, status [open] and one more comment, with
    prefix [REJECTED] and a content in which the reason occurs, and no
    other file has changed; otherwise the command exits with code 1 and
    an error, and nothing has changed. *)
Theorem reject_legality (utcnow : nat -> string) (w : World)
    (raw tn : string) (task : Task) (target reason : string) :
  _parse_t_number raw w = Done tn w ->
  task_files w !! tn = Some task ->
  (reject_legal (stage task) target = true ->
   exists cid w' t' cm,
     cmd_reject utcnow raw target reason w
       = Done (OutReject tn (owner task) (stage task) target reason cid) w'
     /\ task_files w' !! tn = Some t'
     /\ stage t' = Some target /\ owner t' = None /\ status t' = "open"
     /\ comments t' = comments task ++ [cm]
     /\ prefix cm = Some "REJECTED"
     /\ occurs_in reason (content cm)
     /\ (forall other, other <> tn -> task_files w' !! other = task_files w !! other))
  /\ (reject_legal (stage task) target = false ->
      exists e, cmd_reject utcnow raw target reason w = Exited 1%Z e w).
Proof.
  intros Hp Ht. apply parse_done_world in Hp as [_ Hp].
  rewrite reject_checks.
  unfold cmd_reject, bind. rewrite Hp.
  destruct (mem target VALID_STAGES) eqn:Hv; cbn [negb andb].
  2:{ split; [discriminate |]. intros _. eexists. reflexivity. }
  unfold Roles._read_task. rewrite Ht.
  destruct (mem target (allowed_get (stage task) REJECT_ALLOWED)) eqn:Ha;
    cbn [negb andb].
  2:{ split; [discriminate |]. intros _. eexists. reflexivity. }
  destruct (index_of target PIPELINE_STAGES) as [ti|] eqn:Hi.
  2:{ split; [discriminate |]. intros _. eexists. reflexivity. }
  destruct (current_index (stage task) <=? Z.of_nat ti)%Z eqn:Hle; cbn [negb].
  { split; [discriminate |]. intros _. eexists. reflexivity. }
  split; [intros _ | discriminate].
  unfold _write_task, bind, now, ret. cbn.
  do 4 eexists. split; [reflexivity |].
  cbn [task_files]. rewrite lookup_insert_eq.
  split; [reflexivity |]. cbn.
  repeat (split; [reflexivity |]).
  split; [apply reason_occurs |].
  intros other Hne. rewrite !lookup_insert_ne by congruence. reflexivity.
Qed.

(** The rejection scenario: a task at [code-review] is rejected to
    [intern] with the reason "tests missing". *)
Lemma reject_legality_witness :
  exists cid w' t' cm,
    cmd_reject fixed_clock "T001" "intern" "tests missing"
        (dir_with (task_at (Some "code-review") None))
      = Done (OutReject "T001" None (Some "code-review") "intern"
                "tests missing" cid) w'
    /\ task_files w' !! "T001" = Some t'
    /\ stage t' = Some "intern" /\ owner t' = None /\ status t' = "open"
    /\ comments t' = [] ++ [cm]
    /\ prefix cm = Some "REJECTED"
    /\ occurs_in "tests missing" (content cm)
    /\ (forall other, other <> "T001" ->
        task_files w' !! other
        = task_files (dir_with (task_at (Some "code-review") None)) !! other).
Proof.
  apply (proj1 (reject_legality fixed_clock
                  (dir_with (task_at (Some "code-review") None))
                  "T001" "T001" (task_at (Some "code-review") None)
                  "intern" "tests missing" eq_refl eq_refl)).
  reflexivity.
Defined.


(** Each pipeline stage sits at one index only. *)
Lemma index_of_nth (i : nat) (s : string) :
  nth_error PIPELINE_STAGES i = Some s -> index_of s PIPELINE_STAGES = Some i.
Proof.
  intros H.
  do 8 (destruct i as [| i]; [inversion H; subst; reflexivity |]).
  destruct i; discriminate.
Qed.

Lemma next_stage_nth (i : nat) (s s' : string) :
  nth_error PIPELINE_STAGES i = Some s ->
  nth_error PIPELINE_STAGES (S i) = Some s' ->
  next_stage s = Some s' /\ nonempty s = true /\ nonempty s' = true.
Proof.
  intros H H'. unfold next_stage. rewrite (index_of_nth i s H).
  do 7 (destruct i as [| i];
        [inversion H; inversion H'; subst; repeat split; reflexivity |]).
  destruct i as [| i]; [discriminate H' |]. destruct i; discriminate.
Qed.

(** [release] of an owned task at a stage that has a successor. *)
Lemma release_next utcnow w (raw tn : string) task o i s s' :
  (forall w'', _parse_t_number raw w'' = Done tn w'') ->
  task_files w !! tn = Some task ->
  owner task = Some o -> stage task = Some s ->
  nth_error PIPELINE_STAGES i = Some s ->
  nth_error PIPELINE_STAGES (S i) = Some s' ->
  exists w' t',
    cmd_release utcnow raw w
      = Done (OutRelease tn (Some o) (Some s) s'
                (if String.eqb s' "done" then "closed" else "open")) w'
    /\ task_files w' !! tn = Some t'
    /\ owner t' = None /\ stage t' = Some s'
    /\ status t' = (if String.eqb s' "done" then "closed" else "open")
    /\ (forall other, other <> tn -> task_files w' !! other = task_files w !! other).
Proof.
  intros Hp Ht Ho Hs Hi Hi'.
  destruct (next_stage_nth i s s' Hi Hi') as (Hn & Hne & Hne').
  unfold cmd_release, bind. rewrite Hp.
  unfold Roles._read_task. rewrite Ht, Ho, Hs. cbn [is_some negb].
  rewrite Hne, Hn. cbn [is_some negb andb PyStr.truthy default].
  rewrite Hne'.
  unfold _write_task, bind, now, ret. cbn.
  assert (Est : (if bool_decide (Some s' = Some "done") || false
                 then "closed" else "open")
                = (if String.eqb s' "done" then "closed" else "open")).
  { rewrite orb_false_r. destruct (String.eqb_spec s' "done") as [-> | Hd].
    - rewrite bool_decide_eq_true_2; reflexivity.
    - rewrite bool_decide_eq_false_2; [reflexivity | congruence]. }
  rewrite Est.
  do 2 eexists. split; [reflexivity |].
  cbn [task_files]. rewrite lookup_insert_eq. split; [reflexivity |]. cbn.
  split; [reflexivity |]. split; [reflexivity |]. split; [reflexivity |].
  intros other Hne2. rewrite lookup_insert_ne by congruence. reflexivity.
Qed.

(** [update <task> --owner <o>] sets the owner and nothing else of what
    [release] reads. *)
Lemma update_owner utcnow w (raw tn : string) task o :
  (forall w'', _parse_t_number raw w'' = Done tn w'') ->
  task_files w !! tn = Some task ->
  String.eqb o "none" = false ->
  exists w' t',
    world_of (cmd_update utcnow
                {| u_task := raw; u_status := None; u_title := None;
                   u_description := None; u_priority := None; u_tags := None;
                   u_stage := None; u_owner := Some o |} w) = w'
    /\ task_files w' !! tn = Some t'
    /\ owner t' = Some o /\ stage t' = stage task.
Proof.
  intros Hp Ht Ho.
  unfold cmd_update, bind. rewrite Hp. unfold Tasklib._read_task. rewrite Ht.
  cbn. rewrite Ho.
  unfold _write_task, bind, now, ret. cbn.
  do 2 eexists. split; [reflexivity |].
  cbn [task_files]. rewrite lookup_insert_eq. repeat split; reflexivity.
Qed.

Lemma skipn_nth_cons {A} (l : list A) (n : nat) (x : A) :
  nth_error l n = Some x -> skipn n l = x :: skipn (S n) l.
Proof.
  revert l. induction n as [| n IH]; intros [| y l] H; try discriminate.
  - inversion H; reflexivity.
  - cbn in H. rewrite skipn_cons. rewrite (IH l H). reflexivity.
Qed.

(** Rounds of [update --owner] and [release] walk the pipeline in order. *)
Lemma release_rounds_walk utcnow (raw tn o : string) (k : nat) :
  (forall w'', _parse_t_number raw w'' = Done tn w'') ->
  String.eqb o "none" = false ->
  forall w task i s,
    task_files w !! tn = Some task ->
    stage task = Some s ->
    nth_error PIPELINE_STAGES i = Some s ->
    i + k <= 7 ->
    release_rounds utcnow k raw tn o w
    = List.map Some (firstn k (skipn (S i) PIPELINE_STAGES)).
Proof.
  intros Hp Ho. induction k as [| k IH]; intros w task i s Ht Hs Hi Hk.
  - reflexivity.
  - cbn [release_rounds].
    destruct (update_owner utcnow w raw tn task o Hp Ht Ho)
      as (w1 & t1 & E1 & Ht1 & Ho1 & Hs1).
    rewrite E1.
    assert (Hex : exists s', nth_error PIPELINE_STAGES (S i) = Some s').
    { destruct (nth_error PIPELINE_STAGES (S i)) eqn:E; [eauto |].
      apply nth_error_None in E. cbn in E. lia. }
    destruct Hex as [s' Hi'].
    rewrite Hs in Hs1.
    destruct (release_next utcnow w1 raw tn t1 o i s s' Hp Ht1 Ho1 Hs1 Hi Hi')
      as (w2 & t2 & E2 & Ht2 & _ & Hs2 & _).
    rewrite E2. cbn [world_of]. rewrite Ht2, Hs2.
    rewrite (skipn_nth_cons _ _ _ Hi'). cbn [firstn List.map]. f_equal.
    apply (IH w2 t2 (S i) s' Ht2 Hs2 Hi'). lia.
Qed.


(** C4, as the code has it.  [release] exits with code 1 on a task with no
    owner.  On a task with an owner: at a pipeline stage that has a
    successor it returns, clears the owner and moves the task to the
    immediate next stage, with status [closed] when that stage is [done]
    and [open] otherwise; at [done] it returns, clears the owner, keeps
    [done] and sets [closed]; at a missing stage or one outside the
    pipeline it exits with code 1 and changes nothing.  So rounds of
    [update --owner] and [release] from the stage of index [i], as long
    as [done] is not passed, produce the stages that follow it in the
    canonical order, one by one (a prefix of the order when the task
    starts at [pm]). *)
Theorem release_advances_known_stage (utcnow : nat -> string) (w : World)
    (raw tn : string) (task : Task) :
  _parse_t_number raw w = Done tn w ->
  task_files w !! tn = Some task ->
  (owner task = None -> exists e, cmd_release utcnow raw w = Exited 1%Z e w)
  /\ (forall o i s s',
        owner task = Some o -> stage task = Some s ->
        nth_error PIPELINE_STAGES i = Some s ->
        nth_error PIPELINE_STAGES (S i) = Some s' ->
        exists w' t',
          cmd_release utcnow raw w
            = Done (OutRelease tn (Some o) (Some s) s'
                      (if String.eqb s' "done" then "closed" else "open")) w'
          /\ task_files w' !! tn = Some t'
          /\ owner t' = None /\ stage t' = Some s'
          /\ status t' = (if String.eqb s' "done" then "closed" else "open")
          /\ (forall other, other <> tn ->
              task_files w' !! other = task_files w !! other))
  /\ (forall o,
        owner task = Some o -> stage task = Some "done" ->
        exists w' t',
          cmd_release utcnow raw w
            = Done (OutRelease tn (Some o) (Some "done") "done" "closed") w'
          /\ task_files w' !! tn = Some t'
          /\ owner t' = None /\ stage t' = Some "done" /\ status t' = "closed")
  /\ (forall o,
        owner task = Some o -> current_index (stage task) = (-1)%Z ->
        exists e, cmd_release utcnow raw w = Exited 1%Z e w)
  /\ (forall o i s k,
        String.eqb o "none" = false -> stage task = Some s ->
        nth_error PIPELINE_STAGES i = Some s -> i + k <= 7 ->
        release_rounds utcnow k raw tn o w
        = List.map Some (firstn k (skipn (S i) PIPELINE_STAGES))).
Proof.
  intros Hp Ht. apply parse_done_world in Hp as [_ Hp].
  split; [| split; [| split; [| split]]].
  - intros Ho. unfold cmd_release, bind. rewrite Hp.
    unfold Roles._read_task. rewrite Ht, Ho. eexists. reflexivity.
  - intros o i s s' Ho Hs Hi Hi'.
    exact (release_next utcnow w raw tn task o i s s' Hp Ht Ho Hs Hi Hi').
  - intros o Ho Hs. unfold cmd_release, bind. rewrite Hp.
    unfold Roles._read_task. rewrite Ht, Ho, Hs.
    unfold _write_task, bind, now, ret. cbn.
    do 2 eexists. split; [reflexivity |]. cbn [task_files].
    rewrite lookup_insert_eq. repeat split; reflexivity.
  - intros o Ho Hidx. unfold cmd_release, bind. rewrite Hp.
    unfold Roles._read_task. rewrite Ht, Ho. cbn [is_some negb].
    unfold current_index in Hidx.
    destruct (stage task) as [s|] eqn:Hs.
    + destruct (index_of s PIPELINE_STAGES) as [j|] eqn:Hj; [lia |].
      assert (Hn : (if nonempty s then next_stage s else None) = None).
      { unfold next_stage. rewrite Hj. destruct (nonempty s); reflexivity. }
      rewrite Hn. cbn [is_some negb andb].
      rewrite bool_decide_eq_false_2.
      * eexists. reflexivity.
      * intros E. inversion E; subst. discriminate Hj.
    + eexists. reflexivity.
  - intros o i s k Ho Hs Hi Hk.
    exact (release_rounds_walk utcnow raw tn o k Hp Ho w task i s Ht Hs Hi Hk).
Qed.

(** An owned task at [intern] is released to [code-review]. *)
Lemma release_advances_known_stage_witness :
  exists w' t',
    cmd_release fixed_clock "T001"
        (dir_with (task_at (Some "intern") (Some "intern")))
      = Done (OutRelease "T001" (Some "intern") (Some "intern") "code-review"
                "open") w'
    /\ task_files w' !! "T001" = Some t'
    /\ owner t' = None /\ stage t' = Some "code-review"
    /\ status t' = "open"
    /\ (forall other, other <> "T001" ->
        task_files w' !! other
        = task_files (dir_with (task_at (Some "intern") (Some "intern"))) !! other).
Proof.
  exact (proj1 (proj2 (release_advances_known_stage fixed_clock
                         (dir_with (task_at (Some "intern") (Some "intern")))
                         "T001" "T001" (task_at (Some "intern") (Some "intern"))
                         eq_refl eq_refl))
           "intern" 2 "intern" "code-review" eq_refl eq_refl eq_refl eq_refl).
Defined.

(** C4 as stated fails on owned tasks that are not at a stage with a
    successor.  A task with an owner and no stage (what [create --owner pm]
    makes): [release] exits with code 1 and changes nothing.  A task with
    an owner at [done]: [release] returns and the stage stays [done],
    which has no next stage. *)
Lemma release_of_unstaged_task_fails :
  let w := dir_with (task_at None (Some "pm")) in
  let w_done := dir_with (task_at (Some "done") (Some "pm")) in
  owner (task_at None (Some "pm")) = Some "pm"
  /\ exit_code (cmd_release fixed_clock "T001" w) = Some 1%Z
  /\ world_of (cmd_release fixed_clock "T001" w) = w
  /\ ~ (exists out w' t' s',
          cmd_release fixed_clock "T001" w = Done out w'
          /\ task_files w' !! "T001" = Some t'
          /\ owner t' = None /\ stage t' = Some s')
  /\ next_stage "done" = None
  /\ exit_code (cmd_release fixed_clock "T001" w_done) = None
  /\ option_map stage
       (task_files (world_of (cmd_release fixed_clock "T001" w_done)) !! "T001")
     = Some (Some "done").
Proof.
  cbv zeta.
  assert (E : exit_code (cmd_release fixed_clock "T001"
                           (dir_with (task_at None (Some "pm")))) = Some 1%Z)
    by (vm_compute; reflexivity).
  repeat split; try (vm_compute; reflexivity).
  intros (out & w' & t' & s' & H & _). rewrite H in E. discriminate.
Qed.

End RolesFacts.

(** ** Agent detector and nudge decision *)

Module DetectorFacts.
Import Detector.
Import Samples.

Lemma is_prefix_app (p s : ustr) : is_prefix p (p ++ s) = true.
Proof.
  induction p as [| a p IH]; [reflexivity |].
  cbn. rewrite N.eqb_refl. exact IH.
Qed.

Lemma is_prefix_elim (p s : ustr) :
  is_prefix p s = true -> exists r, s = p ++ r.
Proof.
  revert s. induction p as [| a p IH]; intros s H.
  - exists s. reflexivity.
  - destruct s as [| b s]; [discriminate |].
    cbn in H. apply andb_true_iff in H as [Hab Hr].
    apply N.eqb_eq in Hab. subst b.
    destruct (IH s Hr) as [r ->]. exists r. reflexivity.
Qed.

Lemma contains_intro (p a b : ustr) : contains p (a ++ p ++ b) = true.
Proof.
  induction a as [| x a IH].
  - cbn [app]. destruct (p ++ b) eqn:E; cbn [contains];
      rewrite <- E, is_prefix_app; reflexivity.
  - cbn [app contains]. rewrite IH. apply orb_true_r.
Qed.

Lemma contains_elim (p s : ustr) :
  contains p s = true -> exists a b, s = a ++ p ++ b.
Proof.
  induction s as [| x s IH]; cbn [contains]; intros H.
  - rewrite orb_false_r in H. apply is_prefix_elim in H as [r ->].
    exists [], r. reflexivity.
  - apply orb_true_iff in H as [H | H].
    + apply is_prefix_elim in H as [r ->]. exists [], r. reflexivity.
    + destruct (IH H) as (a & b & ->). exists (x :: a), b. reflexivity.
Qed.

(** A part of a part is a part. *)
Lemma contains_trans (q p s : ustr) :
  contains q p = true -> contains p s = true -> contains q s = true.
Proof.
  intros Hq Hp.
  apply contains_elim in Hq as (a & b & ->).
  apply contains_elim in Hp as (c & d & ->).
  replace (c ++ (a ++ q ++ b) ++ d) with ((c ++ a) ++ q ++ (b ++ d))
    by (rewrite <- !app_assoc; reflexivity).
  apply contains_intro.
Qed.

Lemma lower_app lower_tail (a b : ustr) :
  lower lower_tail (a ++ b) = lower lower_tail a ++ lower lower_tail b.
Proof. unfold lower. apply flat_map_app. Qed.

(** Lowercasing keeps what is written where it is. *)
Lemma contains_lower lower_tail (p s : ustr) :
  contains p s = true ->
  contains (lower lower_tail p) (lower lower_tail s) = true.
Proof.
  intros H. apply contains_elim in H as (a & b & ->).
  rewrite !lower_app. apply contains_intro.
Qed.

(** C6. When the lowercased last 800 characters of the pane output
    contain one of [task_complete], [task complete], [taskcomplete] (as
    they do when the last 800 characters contain the literal
    [Task complete.]), [detect_agent_status] returns
    [("completed", "completed")], whatever else the output contains. *)
Theorem completion_signal_wins (lower_tail : N -> list N) (pane_output : ustr) :
  existsb (fun signal => contains signal
                           (lower lower_tail (last_chars 800 pane_output)))
    completion_signals = true
  \/ contains (u "Task complete.") (last_chars 800 pane_output) = true ->
  detect_agent_status lower_tail pane_output
  = (AgentStatus.COMPLETED, u "completed").
Proof.
  intros H.
  assert (Hsig : existsb (fun signal => contains signal
                            (lower lower_tail (last_chars 800 pane_output)))
                   completion_signals = true).
  { destruct H as [H | H]; [exact H |].
    apply (contains_lower lower_tail) in H.
    unfold completion_signals. cbn [existsb].
    rewrite (contains_trans (u "task complete")
               (lower lower_tail (u "Task complete.")) _ eq_refl H).
    rewrite orb_true_r. reflexivity. }
  destruct pane_output as [| c r].
  - vm_compute in Hsig. discriminate.
  - unfold detect_agent_status. rewrite Hsig. reflexivity.
Qed.

(** A pane that also asks a question, mentions waiting and shows the
    prompt. *)
Lemma completion_signal_wins_witness :
  detect_agent_status plain_lower pane_with_completion
  = (AgentStatus.COMPLETED, u "completed").
Proof.
  apply (completion_signal_wins plain_lower pane_with_completion).
  right. vm_compute. reflexivity.
Defined.

(** The decision function of the data layer never asks for a nudge while
    the orchestrator waits for the human. *)
Lemma should_nudge_waiting_for_human
    (idle_time nudge_interval last_nudge_time nudge_cooldown : float)
    (nudge_count : Z) (now : float) (agents : list Agent) (tasks : list TaskView) :
  should_nudge idle_time nudge_interval last_nudge_time nudge_cooldown
    nudge_count now agents tasks OrchestratorStatus.WAITING_FOR_HUMAN = false.
Proof. reflexivity. Qed.

End DetectorFacts.

(** ** Supervisor: orchestrator nudge *)

Module SupervisorFacts.
Import Detector.
Import Supervisor.
Import Samples.

(** C7, at the failing input.  The orchestrator pane shows two numbered
    options and the prompt, so its status is [waiting_for_human]; it has
    been idle for twenty minutes and one agent needs input.  The nudge
    step of the tick uses the dashboard's own [should_nudge], which is
    given the agents and the tasks only: it queues the nudge and logs a
    [nudge_orch] event. *)
Theorem nudge_fires_while_waiting_for_human :
  let agents := [worker_needing_input] in
  let r := nudge_all_stalled no_restart tick_after_20_minutes agents []
             idle_dashboard in
  fst (get_orchestrator_status plain_lower no_word pane_with_options agents [])
    = OrchestratorStatus.WAITING_FOR_HUMAN
  /\ fst r = 1
  /\ List.map event_type (events (snd r)) = [u "nudge_orch"]
  /\ nudge_count (snd r) = 1%Z
  /\ List.length (sorted_pending (snd r)) = 1.
Proof.
  cbv zeta. repeat split; vm_compute; reflexivity.
Qed.

End SupervisorFacts.

(** ** Supervisor: outbox broker *)

Module BrokerFacts.
Import Detector.
Import Supervisor.
Import Samples.





Lemma same_view_refl (n : ustr) (d : Dashboard) : same_view n d d.
Proof. repeat split. Qed.































(** *** Files the broker cannot deliver *)












End BrokerFacts.

(** ** Task graph document *)

Module TasksJsonFacts.
Import PyStr.
Import TasksJson.
Import Samples.

Lemma dget_dset_eq (k : string) (v : json) (d : dict) :
  dget k (dset k v d) = Some v.
Proof.
  induction d as [| [k' v'] d IH]; cbn [dset dget].
  - rewrite String.eqb_refl. reflexivity.
  - destruct (String.eqb k k') eqn:E; cbn [dget]; rewrite E; auto.
Qed.

Lemma dhas_of_dget (k : string) (d : dict) (v : json) :
  dget k d = Some v -> dhas k d = true.
Proof. unfold dhas. intros ->. reflexivity. Qed.

Lemma dpop_absent (k : string) (d : dict) : dhas k d = false -> dpop k d = d.
Proof.
  unfold dhas, dpop. induction d as [| [k' v'] d IH]; [reflexivity |].
  cbn [dget List.filter fst]. destruct (String.eqb k k'); [discriminate |].
  intros H. cbn [negb]. rewrite (IH H). reflexivity.
Qed.

Lemma dsetdefault_present (k : string) (v : json) (d : dict) :
  dhas k d = true -> dsetdefault k v d = d.
Proof. unfold dsetdefault. intros ->. reflexivity. Qed.

Lemma dget_app_l (k : string) (d d' : dict) (v : json) :
  dget k d = Some v -> dget k (d ++ d') = Some v.
Proof.
  induction d as [| [k' v'] d IH]; cbn [dget app]; [discriminate |].
  destruct (String.eqb k k'); auto.
Qed.

Lemma dget_dsetdefault (k k' : string) (v x : json) (d : dict) :
  dget k d = Some x -> dget k (dsetdefault k' v d) = Some x.
Proof.
  intros H. unfold dsetdefault. destruct (dhas k' d); [exact H |].
  apply dget_app_l. exact H.
Qed.

Lemma dset_same (k : string) (v : json) (d : dict) :
  dget k d = Some v -> dset k v d = d.
Proof.
  induction d as [| [k' v'] d IH]; cbn [dget dset]; [discriminate |].
  destruct (String.eqb k k') eqn:E.
  - intros H. inversion H. reflexivity.
  - intros H. rewrite (IH H). reflexivity.
Qed.

Lemma dset_fresh (k : string) (v : json) (d : dict) :
  dhas k d = false -> dset k v d = d ++ [(k, v)].
Proof.
  unfold dhas. induction d as [| [k' v'] d IH]; cbn [dget dset app];
    [reflexivity |].
  destruct (String.eqb k k'); [discriminate |].
  intros H. rewrite (IH H). reflexivity.
Qed.

Lemma dhas_snoc (k k' : string) (v : json) (d : dict) :
  dhas k (d ++ [(k', v)]) = dhas k d || String.eqb k k'.
Proof.
  unfold dhas. induction d as [| [k2 v2] d IH]; cbn [dget app].
  - destruct (String.eqb k k'); reflexivity.
  - destruct (String.eqb k k2); [reflexivity | exact IH].
Qed.

(** After migration the document has its [known_tasks] dictionary. *)
Lemma migrated_has_known_tasks (D : json) (d : dict) :
  _migrate_data D = Ok d -> exists kt, dget "known_tasks" d = Some (JObj kt).
Proof.
  unfold _migrate_data, pbind.
  destruct (as_dict D) as [d0 | |]; try discriminate.
  destruct (as_dict _) as [kt0 | |]; try discriminate.
  destruct (migrate_known kt0 []) as [m | |]; try discriminate.
  destruct (match dget "tasks" d0 with
            | Some (JList tasks) =>
                match migrate_legacy tasks m with
                | Ok a => Ok (a, dpop "tasks" d0)
                | Raises e => Raises e
                | Unmodelled => Unmodelled
                end
            | _ => Ok (m, d0)
            end) as [r | |]; try discriminate.
  intros H. inversion H. exists (fst r).
  repeat apply dget_dsetdefault. apply dget_dset_eq.
Qed.


(** A normalized entry is left as it is. *)
Lemma migrate_entry_normalized (e : json) :
  normalized_entry e = true -> exists o, e = JObj o /\ _migrate_task_entry e = Ok o.
Proof.
  destruct e as [| | | | | o]; try discriminate.
  unfold normalized_entry, legacy_entry_keys, entry_keys. cbn [forallb].
  rewrite !andb_true_iff, !negb_true_iff.
  intros ((Hw & Hs & Has & Ha & _) & (H1 & H2 & H3 & H4 & H5 & H6 & H7 & _)).
  exists o. split; [reflexivity |].
  unfold _migrate_task_entry. cbn [py_dict pbind].
  rewrite Hw. cbn [andb]. rewrite Hs, Has. rewrite (dpop_absent "agent" o Ha).
  rewrite (dsetdefault_present "title" _ o H1),
    (dsetdefault_present "blocked_by" _ o H2),
    (dsetdefault_present "status" _ o H3),
    (dsetdefault_present "name" _ o H4),
    (dsetdefault_present "agent_window" _ o H5),
    (dsetdefault_present "created_by" _ o H6),
    (dsetdefault_present "last_synced" _ o H7).
  reflexivity.
Qed.

Lemma t_number_starts_with_T (k : string) :
  is_t_number k = true -> startswith "T" k = true.
Proof.
  destruct k as [| c k]; [discriminate |]. cbn [is_t_number].
  destruct (Ascii.eqb_spec c "T") as [-> | Hne].
  - intros _. unfold startswith. cbn. destruct k; reflexivity.
  - intros H. exfalso.
    destruct c as [[|] [|] [|] [|] [|] [|] [|] [|]]; try discriminate;
      apply Hne; reflexivity.
Qed.

(** The loop over normalized [known_tasks] rebuilds the same dictionary. *)
Lemma migrate_known_normalized (items acc : dict) :
  forallb is_t_number (keys items) = true ->
  forallb normalized_entry (List.map snd items) = true ->
  nodup_keys (keys items) = true ->
  forallb (fun k => negb (dhas k acc)) (keys items) = true ->
  migrate_known items acc = Ok (acc ++ items).
Proof.
  revert acc. induction items as [| [k e] items IH]; intros acc Ht Hn Hd Hf.
  - cbn. rewrite app_nil_r. reflexivity.
  - cbn [keys List.map fst snd forallb nodup_keys] in *.
    apply andb_true_iff in Ht as [Ht1 Ht2].
    apply andb_true_iff in Hn as [Hn1 Hn2].
    apply andb_true_iff in Hd as [Hd1 Hd2].
    apply andb_true_iff in Hf as [Hf1 Hf2].
    apply negb_true_iff in Hd1, Hf1.
    cbn [migrate_known]. rewrite (t_number_starts_with_T k Ht1).
    destruct (migrate_entry_normalized e Hn1) as (o & -> & ->).
    cbn [pbind]. rewrite (dset_fresh k (JObj o) acc Hf1).
    rewrite (IH (acc ++ [(k, JObj o)]) Ht2 Hn2 Hd2).
    + rewrite <- app_assoc. reflexivity.
    + clear IH Ht2 Hn2 Hd2. fold (keys items) in *.
      induction (keys items) as [| k' ks IHk]; [reflexivity |].
      cbn [forallb PyStr.mem existsb] in *.
      apply andb_true_iff in Hf2 as [Hf2 Hf3].
      apply orb_false_iff in Hd1 as [Hd1 Hd3].
      rewrite dhas_snoc. apply negb_true_iff in Hf2. rewrite Hf2.
      rewrite String.eqb_sym, Hd1. cbn [orb negb andb].
      apply IHk; assumption.
Qed.

(** Migrating a document that is already in normalized form is a
    no-op. *)
Lemma migrate_normalized_noop (D : json) :
  normalized D = true -> exists d, D = JObj d /\ _migrate_data D = Ok d.
Proof.
  destruct D as [| | | | | d]; try discriminate.
  unfold normalized, top_level_keys. cbn [forallb].
  rewrite !andb_true_iff.
  intros (((H1 & H2 & H3 & H4 & H5 & H6 & H7 & H8 & _) & Htasks) & Hkt).
  exists d. split; [reflexivity |].
  destruct (dget "known_tasks" d) as [[| | | | | kt] |] eqn:Ek; try discriminate.
  apply andb_true_iff in Hkt as [Hkt Hnd].
  apply andb_true_iff in Hkt as [Hkeys Hentries].
  unfold _migrate_data. cbn [as_dict pbind]. rewrite Ek. cbn [as_dict pbind].
  rewrite (migrate_known_normalized kt [] Hkeys Hentries Hnd).
  2:{ clear. induction (keys kt); [reflexivity | cbn; assumption]. }
  cbn [app pbind].
  revert Htasks.
  destruct (dget "tasks" d) as [[| | | | | ] |]; intros Htasks;
    try discriminate Htasks; cbn [pbind fst snd];
    rewrite (dset_same "known_tasks" (JObj kt) d Ek);
    rewrite (dsetdefault_present "project" _ d H1),
      (dsetdefault_present "root_task" _ d H2),
      (dsetdefault_present "working_dir" _ d H3),
      (dsetdefault_present "gsd_url" _ d H4),
      (dsetdefault_present "gsd_project_id" _ d H5),
      (dsetdefault_present "last_dag_walk" _ d H7),
      (dsetdefault_present "last_gsd_poll" _ d H8);
    reflexivity.
Qed.

(** C9, at the failing input.  A legacy document whose [tasks] array holds
    a task with the numeric [t_number] "123": the first load keys the task
    under "123" in [known_tasks]; saved and loaded again, the entry is
    dropped, because its key does not start with T.  One load-save cycle
    is not a fixed point, and the first migration does not yield a
    normalized document. *)
Theorem legacy_numeric_task_is_lost_on_second_load :
  exists d1 d2,
    load "demo" (Some legacy_numeric_doc) = Ok d1
    /\ load "demo" (save d1 (Some legacy_numeric_doc)) = Ok d2
    /\ option_map (fun kt => match kt with JObj o => keys o | _ => [] end)
         (dget "known_tasks" d1) = Some ["123"]
    /\ dget "known_tasks" d2 = Some (JObj [])
    /\ d1 <> d2
    /\ normalized (JObj d1) = false.
Proof.
  do 2 eexists.
  split; [vm_compute; reflexivity |].
  split; [vm_compute; reflexivity |].
  split; [vm_compute; reflexivity |].
  split; [vm_compute; reflexivity |].
  split; [intros E; discriminate E | vm_compute; reflexivity].
Qed.

(** C10. When the loaded document already has the T-number in
    [known_tasks], [add_task] adds nothing: the document it writes back
    is the loaded document itself, so the entry of that T-number and
    every other part are as they were loaded; and when the file was
    already in normalized form, the file is left exactly as it was. *)
Theorem add_task_existing_is_noop (project t_number : string) (args : AddTaskArgs)
    (D : json) (d kt : dict) :
  load project (Some D) = Ok d ->
  dget "known_tasks" d = Some (JObj kt) ->
  dhas t_number kt = true ->
  add_task project t_number args (Some D) = Ok (Some (JObj d))
  /\ (normalized D = true -> add_task project t_number args (Some D) = Ok (Some D)).
Proof.
  intros Hl Hk Ht.
  assert (E : add_task project t_number args (Some D) = Ok (Some (JObj d))).
  { unfold add_task, locked_update. rewrite Hl. cbn [pbind].
    rewrite (dsetdefault_present "known_tasks" (JObj []) d (dhas_of_dget _ _ _ Hk)).
    unfold get_or_none. rewrite Hk. cbn [as_dict pbind]. rewrite Ht.
    reflexivity. }
  split; [exact E |].
  intros Hn. destruct (migrate_normalized_noop D Hn) as (d0 & -> & Hm).
  cbn [load] in Hl. rewrite Hm in Hl. inversion Hl; subst. exact E.
Qed.

(** Re-adding the root task of a normalized document. *)
Lemma add_task_existing_is_noop_witness :
  add_task "demo" "T001" add_args (Some normalized_doc) = Ok (Some normalized_doc).
Proof.
  destruct (load "demo" (Some normalized_doc)) as [d | |] eqn:Hl;
    try (vm_compute in Hl; discriminate).
  destruct (dget "known_tasks" d) as [[| | | | | kt] |] eqn:Hk;
    try (vm_compute in Hl; inversion Hl; subst; vm_compute in Hk; discriminate).
  assert (Ht : dhas "T001" kt = true).
  { vm_compute in Hl. inversion Hl; subst. vm_compute in Hk.
    inversion Hk; subst. reflexivity. }
  exact (proj2 (add_task_existing_is_noop "demo" "T001" add_args normalized_doc
                  d kt Hl Hk Ht) eq_refl).
Defined.

End TasksJsonFacts.

(* ====================================================================== *)
(** * Further properties of the scripts *)
(* ====================================================================== *)

(** ** Strings and numbers *)

Module PyStrFacts.
Import PyStr.
Import StrProps.

Lemma append_cons (c : ascii) (s t : string) :
  String c s +:+ t = String c (s +:+ t).
Proof. reflexivity. Qed.

Lemma append_nil_l (t : string) : EmptyString +:+ t = t.
Proof. reflexivity. Qed.

Lemma rev_onto_twice (s a b : string) :
  rev_onto (rev_onto s a) b = rev_onto a (s +:+ b).
Proof.
  revert a b. induction s as [|c r IH]; intros a b.
  - reflexivity.
  - cbn [rev_onto]. rewrite IH. reflexivity.
Qed.

Lemma append_empty (s : string) : s +:+ EmptyString = s.
Proof.
  induction s as [|c r IH]; [reflexivity|].
  rewrite append_cons, IH. reflexivity.
Qed.

Lemma rev_involutive (s : string) : rev (rev s) = s.
Proof.
  unfold rev. rewrite rev_onto_twice. cbn [rev_onto]. apply append_empty.
Qed.

Lemma all_chars_rev_onto P (s acc : string) :
  all_chars P s = true -> all_chars P acc = true ->
  all_chars P (rev_onto s acc) = true.
Proof.
  revert acc. induction s as [|c r IH]; intros acc Hs Ha; [exact Ha|].
  cbn [all_chars] in Hs. apply andb_prop in Hs as [Hc Hr].
  cbn [rev_onto]. apply IH; [exact Hr|].
  cbn [all_chars]. rewrite Hc, Ha. reflexivity.
Qed.

Lemma lstrip_by_none f (s : string) :
  all_chars (fun c => negb (f c)) s = true -> lstrip_by f s = s.
Proof.
  destruct s as [|c r]; [reflexivity|].
  cbn [all_chars lstrip_by]. intros H. apply andb_prop in H as [Hc _].
  apply negb_true_iff in Hc. rewrite Hc. reflexivity.
Qed.

(** Stripping leaves a string without the stripped characters alone. *)
Lemma strip_by_none f (s : string) :
  all_chars (fun c => negb (f c)) s = true -> strip_by f s = s.
Proof.
  intros H. unfold strip_by.
  rewrite (lstrip_by_none f s H).
  rewrite lstrip_by_none; [apply rev_involutive|].
  unfold rev. apply all_chars_rev_onto; [exact H | reflexivity].
Qed.

Lemma map_chars_fixed g (s : string) :
  all_chars (fun c => Ascii.eqb (g c) c) s = true -> map_chars g s = s.
Proof.
  induction s as [|c r IH]; [reflexivity|].
  cbn [all_chars map_chars]. intros H. apply andb_prop in H as [Hc Hr].
  apply Ascii.eqb_eq in Hc. rewrite Hc, (IH Hr). reflexivity.
Qed.

Lemma all_chars_impl (P Q : ascii -> bool) (s : string) :
  (forall c, P c = true -> Q c = true) ->
  all_chars P s = true -> all_chars Q s = true.
Proof.
  intros HPQ. induction s as [|c r IH]; [reflexivity|].
  cbn [all_chars]. intros H. apply andb_prop in H as [Hc Hr].
  rewrite (HPQ c Hc), (IH Hr). reflexivity.
Qed.

Lemma all_chars_app P (s t : string) :
  all_chars P s = true -> all_chars P t = true -> all_chars P (s +:+ t) = true.
Proof.
  induction s as [|c r IH]; intros Hs Ht; [exact Ht|].
  cbn [all_chars] in Hs. apply andb_prop in Hs as [Hc Hr].
  rewrite append_cons. cbn [all_chars]. rewrite Hc, (IH Hr Ht). reflexivity.
Qed.

Lemma digit_chars_num (s : string) :
  all_chars is_digit s = true -> all_chars is_num_char s = true.
Proof.
  apply all_chars_impl. intros c H. unfold is_num_char. rewrite H. reflexivity.
Qed.

Lemma all_chars_zeros P (k : nat) : P "0"%char = true -> all_chars P (zeros k) = true.
Proof.
  intros H. induction k as [|k IH]; [reflexivity|].
  cbn [zeros all_chars]. rewrite H, IH. reflexivity.
Qed.

(** The decimal digits of an unsigned number are digits. *)
Lemma string_of_uint_digits (d : Decimal.uint) :
  all_chars is_digit (NilEmpty.string_of_uint d) = true.
Proof.
  induction d; cbn [NilEmpty.string_of_uint all_chars]; try rewrite IHd;
    reflexivity.
Qed.

Lemma dec_digits (n : N) : all_chars is_digit (dec n) = true.
Proof.
  unfold dec, NilZero.string_of_uint.
  destruct (N.to_uint n); try apply string_of_uint_digits. reflexivity.
Qed.

Lemma dec_nonempty (n : N) : exists c r, dec n = String c r /\ is_digit c = true.
Proof.
  pose proof (dec_digits n) as H.
  destruct (dec n) as [|c r] eqn:E.
  - exfalso. unfold dec, NilZero.string_of_uint in E.
    destruct (N.to_uint n); discriminate E.
  - cbn [all_chars] in H. apply andb_prop in H as [Hc _]. eauto.
Qed.

(** Reading digits after a non-zero accumulator. *)
Lemma digits_value_acc (d : Decimal.uint) (acc : positive) :
  digits_value (NilEmpty.string_of_uint d) (Npos acc) true
  = Some (Npos (Pos.of_uint_acc d acc)).
Proof.
  revert acc. induction d; intros acc;
    cbn [NilEmpty.string_of_uint digits_value Pos.of_uint_acc];
    try reflexivity;
    match goal with
    | |- context [is_digit ?c] => change (is_digit c) with true; cbv iota
    end;
    match goal with
    | |- digits_value _ ?a true = _ =>
        match goal with
        | |- _ = Some (N.pos (Pos.of_uint_acc _ ?p)) =>
            replace a with (N.pos p) by (simpl (N.of_nat _); lia)
        end
    end; apply IHd.
Qed.

(** Reading the digits of an unsigned number from zero, leading zeros
    included. *)
Lemma digits_value_uint (d : Decimal.uint) :
  digits_value (NilEmpty.string_of_uint d) 0%N true = Some (Pos.of_uint d).
Proof.
  induction d;
    cbn [NilEmpty.string_of_uint digits_value Pos.of_uint];
    try reflexivity;
    match goal with
    | |- context [is_digit ?c] => change (is_digit c) with true; cbv iota
    end;
    [ exact IHd | .. ];
    match goal with
    | |- digits_value _ ?a true = Some (N.pos (Pos.of_uint_acc _ ?p)) =>
        change a with (N.pos p)
    end; apply digits_value_acc.
Qed.

Lemma digits_value_flag (c : ascii) (r : string) (acc : N) (b : bool) :
  is_digit c = true ->
  digits_value (String c r) acc b = digits_value (String c r) acc true.
Proof. intros H. cbn [digits_value]. rewrite H. reflexivity. Qed.

Lemma digits_value_dec (n : N) (b : bool) :
  digits_value (dec n) 0%N b = Some n.
Proof.
  destruct (dec_nonempty n) as (c & r & E & Hc).
  rewrite E, (digits_value_flag c r 0 b Hc), <- E.
  unfold dec, NilZero.string_of_uint.
  destruct (N.to_uint n) eqn:En;
    try (rewrite <- En at 1);
    try (rewrite digits_value_uint; f_equal;
         change (Pos.of_uint (N.to_uint n)) with (N.of_uint (N.to_uint n));
         apply DecimalN.Unsigned.of_to).
  cbn. f_equal. 
  pose proof (DecimalN.Unsigned.of_to n) as H. rewrite En in H. exact H.
Qed.

Lemma digits_value_zeros (k : nat) (c : ascii) (r : string) (b : bool) :
  is_digit c = true ->
  digits_value (zeros k +:+ String c r) 0%N b = digits_value (String c r) 0%N true.
Proof.
  intros Hc. revert b. induction k as [|k IH]; intros b.
  - apply digits_value_flag, Hc.
  - cbn [zeros]. rewrite append_cons. cbn [digits_value].
    change (is_digit "0") with true. cbv iota.
    change (0 * 10 + N.of_nat (nat_of_ascii "0" - 48))%N with 0%N.
    apply IH.
Qed.

Lemma digits_value_zfill (w : nat) (n : N) (b : bool) :
  digits_value (zfill w (dec n)) 0%N b = Some n.
Proof.
  unfold zfill. destruct (dec_nonempty n) as (c & r & E & Hc).
  rewrite E, (digits_value_zeros _ c r b Hc), <- E. apply digits_value_dec.
Qed.

Lemma zfill_digits (w : nat) (n : N) : all_chars is_digit (zfill w (dec n)) = true.
Proof.
  unfold zfill. apply all_chars_app; [apply all_chars_zeros; reflexivity | apply dec_digits].
Qed.

Lemma zfill_nonempty (w : nat) (n : N) :
  exists c r, zfill w (dec n) = String c r /\ is_digit c = true.
Proof.
  pose proof (zfill_digits w n) as H.
  destruct (zfill w (dec n)) as [|c r] eqn:E.
  - exfalso. unfold zfill in E. destruct (dec_nonempty n) as (c & r & En & _).
    rewrite En in E. destruct (zeros _); discriminate E.
  - cbn [all_chars] in H. apply andb_prop in H as [Hc _]. eauto.
Qed.

Lemma format_03d_chars (n : Z) : all_chars is_num_char (format_03d n) = true.
Proof.
  unfold format_03d. destruct (n <? 0)%Z.
  - rewrite append_cons. cbn [all_chars]. rewrite append_nil_l.
    rewrite digit_chars_num by apply zfill_digits. reflexivity.
  - apply digit_chars_num, zfill_digits.
Qed.

Lemma num_char_facts (c : ascii) :
  is_num_char c = true ->
  negb (is_space c) = true /\ negb (is_int_space c) = true
  /\ Ascii.eqb (upper_char c) c = true.
Proof.
  intros H. destruct c as [[] [] [] [] [] [] [] []];
    vm_compute in H |- *; try discriminate H; repeat split.
Qed.

Lemma py_int_digit_head (c : ascii) (r : string) :
  is_digit c = true ->
  strip_by is_int_space (String c r) = String c r ->
  py_int (String c r) = option_map Z.of_N (digits_value (String c r) 0%N false).
Proof.
  intros Hc Hs. unfold py_int. rewrite Hs.
  destruct c as [[] [] [] [] [] [] [] []]; try discriminate Hc; reflexivity.
Qed.

(** [int(f"{n:03d}") == n]. *)
Lemma py_int_format_03d (n : Z) : py_int (format_03d n) = Some n.
Proof.
  pose proof (format_03d_chars n) as Hch.
  assert (Hs : strip_by is_int_space (format_03d n) = format_03d n).
  { apply strip_by_none. revert Hch. apply all_chars_impl.
    intros c Hc. apply (num_char_facts c Hc). }
  revert Hch Hs. unfold format_03d. destruct (n <? 0)%Z eqn:En; intros Hch Hs.
  - rewrite append_cons, append_nil_l in *. unfold py_int. rewrite Hs.
    rewrite digits_value_zfill. cbn [option_map]. f_equal.
    apply Z.ltb_lt in En. lia.
  - destruct (zfill_nonempty 3 (Z.abs_N n)) as (c & r & E & Hc).
    rewrite E in Hs. rewrite E at 1. rewrite (py_int_digit_head c r Hc Hs), <- E.
    rewrite digits_value_zfill. cbn [option_map]. f_equal.
    apply Z.ltb_ge in En. lia.
Qed.

Lemma substring_all (s : string) : String.substring 0 (String.length s) s = s.
Proof.
  induction s as [|c r IH]; [reflexivity|].
  cbn [String.length String.substring]. rewrite IH. reflexivity.
Qed.

End PyStrFacts.

(** ** Task store: the remaining commands *)

Module StoreFacts.
Import PyStr.
Import StrProps.
Import Tasklib.
Import TasklibCommands.
Import PyStrFacts.
Import Samples.

Lemma format_t_number_chars (n : Z) :
  all_chars (fun c => is_num_char c || Ascii.eqb c "T") (_format_t_number n) = true.
Proof.
  unfold _format_t_number. rewrite append_cons, append_nil_l. cbn [all_chars].
  change (is_num_char "T" || Ascii.eqb "T" "T") with true. cbn [andb].
  generalize (format_03d_chars n). apply all_chars_impl.
  intros c Hc. rewrite Hc. reflexivity.
Qed.

Lemma t_char_facts (c : ascii) :
  is_num_char c || Ascii.eqb c "T" = true ->
  negb (is_space c) = true /\ Ascii.eqb (upper_char c) c = true.
Proof.
  intros H. destruct c as [[] [] [] [] [] [] [] []];
    vm_compute in H |- *; try discriminate H; repeat split.
Qed.

(** A formatted T-number parses to itself. *)
Lemma parse_format (n : Z) (w : World) :
  _parse_t_number (_format_t_number n) w = Done (_format_t_number n) w.
Proof.
  pose proof (format_t_number_chars n) as Hch.
  unfold _parse_t_number.
  assert (Hstrip : strip (_format_t_number n) = _format_t_number n).
  { apply strip_by_none. revert Hch. apply all_chars_impl.
    intros c Hc. apply (t_char_facts c Hc). }
  assert (Hup : upper (_format_t_number n) = _format_t_number n).
  { apply map_chars_fixed. revert Hch. apply all_chars_impl.
    intros c Hc. apply (t_char_facts c Hc). }
  rewrite Hstrip, Hup.
  unfold _format_t_number at 1 2 3 4. rewrite append_cons, append_nil_l.
  assert (Hp : startswith "T" (String "T" (format_03d n)) = true)
    by (unfold startswith; cbn; destruct (format_03d n); reflexivity).
  rewrite Hp.
  cbn [String.length]. rewrite Nat.sub_1_r. cbn [Nat.pred String.substring].
  rewrite substring_all, py_int_format_03d. reflexivity.
Qed.

Lemma format_t_number_inj (n m : Z) :
  _format_t_number n = _format_t_number m -> n = m.
Proof.
  unfold _format_t_number. rewrite !append_cons, !append_nil_l.
  intros H. injection H as H.
  pose proof (py_int_format_03d n) as Hn. rewrite H, py_int_format_03d in Hn.
  congruence.
Qed.

Lemma parse_done raw w tn w' :
  _parse_t_number raw w = Done tn w' ->
  w' = w /\ exists num, tn = _format_t_number num.
Proof.
  unfold _parse_t_number.
  destruct (py_int _) as [num|]; unfold ret, _error; intros H; inversion H; subst.
  eauto.
Qed.

Lemma parse_exit raw w c e w' :
  _parse_t_number raw w = Exited c e w' -> w' = w /\ c = 1%Z.
Proof.
  unfold _parse_t_number.
  destruct (py_int _) as [num|]; unfold ret, _error; intros H; inversion H; subst.
  auto.
Qed.

Lemma mem_In (x : string) (l : list string) : mem x l = true <-> In x l.
Proof.
  unfold mem. rewrite existsb_exists. split.
  - intros (y & Hy & E). apply String.eqb_eq in E. subst. exact Hy.
  - intros H. exists x. split; [exact H | apply String.eqb_refl].
Qed.

Lemma link_view_some w k bl bb :
  link_view w k = Some (bl, bb) <->
  exists t, task_files w !! k = Some t /\ blocking t = bl /\ blocked_by t = bb.
Proof.
  unfold link_view. destruct (task_files w !! k) as [t|]; cbn [option_map]; split.
  - intros H. inversion H. eauto.
  - intros (t' & E & <- & <-). inversion E. reflexivity.
  - discriminate.
  - intros (t' & E & _). discriminate.
Qed.

Lemma link_view_lookup w k t :
  task_files w !! k = Some t -> link_view w k = Some (blocking t, blocked_by t).
Proof. intros H. unfold link_view. rewrite H. reflexivity. Qed.

Lemma link_view_none w k : link_view w k = None <-> task_files w !! k = None.
Proof.
  unfold link_view. destruct (task_files w !! k); cbn [option_map]; split;
    congruence.
Qed.

Lemma same_links_refl w : same_links w w.
Proof. split; [reflexivity | intros; reflexivity]. Qed.

Lemma same_links_trans w1 w2 w3 :
  same_links w1 w2 -> same_links w2 w3 -> same_links w1 w3.
Proof.
  intros [H1 H2] [H3 H4]. split; [congruence | intros k; rewrite H4; apply H2].
Qed.

Lemma same_links_rewrite w tn t t' n :
  task_files w !! tn = Some t ->
  blocking t' = blocking t -> blocked_by t' = blocked_by t ->
  same_links w {| counter_json := counter_json w;
                  task_files := <[tn := t']> (task_files w);
                  clock_reads := n |}.
Proof.
  intros Ht Hb Hbb. split; [reflexivity|].
  intros k. unfold link_view. cbn [task_files].
  destruct (decide (k = tn)) as [->|Hne].
  - rewrite lookup_insert_eq, Ht. cbn [option_map]. rewrite Hb, Hbb. reflexivity.
  - rewrite lookup_insert_ne by congruence. reflexivity.
Qed.

Lemma same_links_clock w n :
  same_links w {| counter_json := counter_json w; task_files := task_files w;
                  clock_reads := n |}.
Proof. split; [reflexivity | intros; reflexivity]. Qed.

(** The invariant reads the counter and the links only. *)
Lemma well_linked_same_links w w' :
  same_links w w' -> well_linked w -> well_linked w'.
Proof.
  intros [Hn Hv] (H1 & Hids & Hcl & Hsym).
  assert (Hlk : forall k t', task_files w' !! k = Some t' ->
            exists t, task_files w !! k = Some t /\ blocking t = blocking t'
                      /\ blocked_by t = blocked_by t').
  { intros k t' E. apply link_view_lookup in E. rewrite Hv in E.
    apply link_view_some in E. exact E. }
  assert (Hdom : forall k, is_Some (task_files w' !! k) <-> is_Some (task_files w !! k)).
  { intros k. rewrite <- !not_eq_None_Some, <- !link_view_none, Hv. reflexivity. }
  repeat split.
  - rewrite Hn. exact H1.
  - intros tn Htn. rewrite Hn. apply Hids, Hdom, Htn.
  - intros a ta b Ea Hin. apply Hlk in Ea as (t & Et & Eb & Ebb).
    apply Hdom. apply (Hcl a t b Et). rewrite Eb, Ebb. exact Hin.
  - intros Hin. apply Hlk in H as (t & Et & Eb & Ebb).
    apply Hlk in H0 as (t0 & Et0 & Eb0 & Ebb0).
    rewrite <- Ebb0. apply (Hsym a b t t0 Et Et0). rewrite Eb. exact Hin.
  - intros Hin. apply Hlk in H as (t & Et & Eb & Ebb).
    apply Hlk in H0 as (t0 & Et0 & Eb0 & Ebb0).
    rewrite <- Eb. apply (Hsym a b t t0 Et Et0). rewrite Ebb0. exact Hin.
Qed.

(** Opening of a command: parse the T-number, read the file. *)
Ltac parse_read raw w :=
  unfold bind;
  let Ep := fresh "Ep" in
  let num := fresh "num" in
  destruct (_parse_t_number raw w) as [?tn ?w0 | ?c ?e ?w0] eqn:Ep;
  [ apply parse_done in Ep as (-> & num & ->);
    unfold _read_task;
    let Et := fresh "Et" in
    destruct (task_files w !! _format_t_number num) as [?t|] eqn:Et
  | apply parse_exit in Ep as (-> & ->) ].

Lemma close_same_links utcnow raw w :
  same_links w (world_of (cmd_close utcnow raw w)).
Proof.
  unfold cmd_close. parse_read raw w; try apply same_links_refl.
  cbn. eapply same_links_rewrite; [exact Et | reflexivity | reflexivity].
Qed.

Lemma comment_same_links utcnow raw p cnt w :
  same_links w (world_of (cmd_comment utcnow raw p cnt w)).
Proof.
  unfold cmd_comment. parse_read raw w; try apply same_links_refl.
  cbn. eapply same_links_rewrite; [exact Et | reflexivity | reflexivity].
Qed.

Lemma assign_same_links utcnow raw user w :
  same_links w (world_of (cmd_assign utcnow raw user w)).
Proof.
  unfold cmd_assign. parse_read raw w; try apply same_links_refl.
  cbn. eapply same_links_rewrite; [exact Et | reflexivity | reflexivity].
Qed.

Lemma reopen_same_links utcnow raw st w :
  same_links w (world_of (cmd_reopen utcnow raw st w)).
Proof.
  unfold cmd_reopen. parse_read raw w; try apply same_links_refl.
  cbn. eapply same_links_rewrite; [exact Et | reflexivity | reflexivity].
Qed.

Lemma upd_if_links c name f (st : Task * list string) :
  (forall t, blocking (f t) = blocking t /\ blocked_by (f t) = blocked_by t) ->
  blocking (fst (upd_if c name f st)) = blocking (fst st)
  /\ blocked_by (fst (upd_if c name f st)) = blocked_by (fst st).
Proof.
  intros Hf. unfold upd_if. destruct c; [apply Hf | split; reflexivity].
Qed.

Lemma update_same_links utcnow args w :
  same_links w (world_of (cmd_update utcnow args w)).
Proof.
  unfold cmd_update. parse_read (u_task args) w; try apply same_links_refl.
  match goal with
  | |- context [match snd ?st with _ => _ end] =>
      assert (Hl : blocking (fst st) = blocking t /\ blocked_by (fst st) = blocked_by t);
      [| destruct Hl as [Hb Hbb]; destruct (snd st);
         [ apply same_links_refl
         | cbn; eapply same_links_rewrite; [exact Et | exact Hb | exact Hbb] ] ]
  end.
  repeat match goal with
  | |- blocking (fst (upd_if ?c ?n ?f ?st)) = _ /\ _ =>
      let H := fresh in
      destruct (upd_if_links c n f st) as [H ?];
      [ intros; split; reflexivity | rewrite H; clear H ];
      match goal with
      | E : blocked_by (fst (upd_if c n f st)) = _ |- _ => rewrite E; clear E
      end
  end.
  split; reflexivity.
Qed.

Lemma parse_anywhere raw w tn w' :
  _parse_t_number raw w = Done tn w' ->
  forall w'', _parse_t_number raw w'' = Done tn w''.
Proof. intros H. apply (TasklibFacts.parse_done_world raw w tn w' H). Qed.

Lemma in_add_once (d x : string) (l : list string) :
  In x (if mem d l then l else l ++ [d]) <-> In x l \/ x = d.
Proof.
  destruct (mem d l) eqn:E.
  - apply mem_In in E. split; [auto | intros [H | ->]; assumption].
  - rewrite in_app_iff. cbn [In]. split; intros [H | H]; auto.
    + destruct H as [<- | []]. auto.
Qed.

(** What a returning [add-blocking] has done to the links. *)
Lemma add_blocking_done utcnow rb rd w o w' :
  cmd_add_blocking utcnow rb rd w = Done o w' ->
  exists nb nd,
    is_Some (task_files w !! _format_t_number nb)
    /\ is_Some (task_files w !! _format_t_number nd)
    /\ next_id_of w' = next_id_of w
    /\ (forall w0, _parse_t_number rb w0 = Done (_format_t_number nb) w0)
    /\ (forall w0, _parse_t_number rd w0 = Done (_format_t_number nd) w0)
    /\ o = OutBlocks rb rd
    /\ forall k,
         match link_view w k with
         | None => link_view w' k = None
         | Some (bl, bb) =>
             exists bl' bb',
               link_view w' k = Some (bl', bb')
               /\ (forall x, In x bl' <->
                     In x bl \/ (k = _format_t_number nb /\ x = _format_t_number nd))
               /\ (forall x, In x bb' <->
                     In x bb \/ (k = _format_t_number nd /\ x = _format_t_number nb))
         end.
Proof.
  unfold cmd_add_blocking, bind.
  destruct (_parse_t_number rb w) as [bt w0 | c e w0] eqn:Eb; [| discriminate].
  pose proof (parse_anywhere _ _ _ _ Eb) as Pb.
  apply parse_done in Eb as (-> & nb & ->).
  destruct (_parse_t_number rd w) as [dt w0 | c e w0] eqn:Ed; [| discriminate].
  pose proof (parse_anywhere _ _ _ _ Ed) as Pd.
  apply parse_done in Ed as (-> & nd & ->).
  set (bt := _format_t_number nb) in *. set (dt := _format_t_number nd) in *.
  unfold _read_task at 1.
  destruct (task_files w !! bt) as [tb|] eqn:Etb; [| discriminate].
  cbn [_write_task bind now ret clock_reads task_files counter_json].
  unfold _read_task. cbn [task_files].
  destruct (decide (dt = bt)) as [Heq | Hne].
  - rewrite Heq, lookup_insert_eq.
    cbn [_write_task bind now ret clock_reads task_files counter_json].
    intros H. inversion H; subst o w'; clear H.
    exists nb, nd. fold bt dt. rewrite Heq in *.
    split; [eauto|]. split; [eauto|]. split; [reflexivity|].
    split; [exact Pb|]. split; [exact Pd|]. split; [reflexivity|].
    intros k. unfold link_view. cbn [task_files].
    destruct (decide (k = bt)) as [-> | Hk].
    + rewrite lookup_insert_eq, Etb. cbn [option_map].
      eexists _, _. split; [reflexivity|].
      cbn [blocking blocked_by set_updated_at set_blocking set_blocked_by].
      split; intros x; rewrite in_add_once; tauto.
    + rewrite !lookup_insert_ne by congruence.
      destruct (task_files w !! k) as [t|]; cbn [option_map]; [| reflexivity].
      eexists _, _. split; [reflexivity|]. split; intros x; tauto.
  - rewrite lookup_insert_ne by congruence.
    destruct (task_files w !! dt) as [td|] eqn:Etd; [| discriminate].
    cbn [_write_task bind now ret clock_reads task_files counter_json].
    intros H. inversion H; subst o w'; clear H.
    exists nb, nd. fold bt dt.
    split; [eauto|]. split; [eauto|]. split; [reflexivity|].
    split; [exact Pb|]. split; [exact Pd|]. split; [reflexivity|].
    intros k. unfold link_view. cbn [task_files].
    destruct (decide (k = dt)) as [-> | Hkd].
    + rewrite lookup_insert_eq, Etd. cbn [option_map].
      eexists _, _. split; [reflexivity|].
      cbn [blocking blocked_by set_updated_at set_blocking set_blocked_by].
      split; intros x; [tauto | rewrite in_add_once; tauto].
    + rewrite lookup_insert_ne by congruence.
      destruct (decide (k = bt)) as [-> | Hkb].
      * rewrite lookup_insert_eq, Etb. cbn [option_map].
        eexists _, _. split; [reflexivity|].
        cbn [blocking blocked_by set_updated_at set_blocking set_blocked_by].
        split; intros x; [rewrite in_add_once; tauto | tauto].
      * rewrite lookup_insert_ne by congruence.
        destruct (task_files w !! k) as [t|]; cbn [option_map]; [| reflexivity].
        eexists _, _. split; [reflexivity|]. split; intros x; tauto.
Qed.

Lemma add_blocking_well_linked utcnow rb rd w o w' :
  cmd_add_blocking utcnow rb rd w = Done o w' ->
  well_linked w -> well_linked w'.
Proof.
  intros Hd (H1 & Hids & Hcl & Hsym).
  destruct (add_blocking_done _ _ _ _ _ _ Hd)
    as (nb & nd & Hb & Hdd & Hn & _ & _ & _ & Hv).
  set (bt := _format_t_number nb) in *. set (dt := _format_t_number nd) in *.
  assert (Hback : forall k t', task_files w' !! k = Some t' ->
    exists t, task_files w !! k = Some t
      /\ (forall x, In x (blocking t') <-> In x (blocking t) \/ (k = bt /\ x = dt))
      /\ (forall x, In x (blocked_by t') <-> In x (blocked_by t) \/ (k = dt /\ x = bt))).
  { intros k t' E. specialize (Hv k). apply link_view_lookup in E.
    destruct (link_view w k) as [[bl bb]|] eqn:Ek; [| congruence].
    destruct Hv as (bl' & bb' & Ev & Hbl & Hbb). rewrite Ev in E.
    inversion E; subst bl' bb'.
    apply link_view_some in Ek as (t & Et & <- & <-). exists t. auto. }
  assert (Hfwd : forall k, is_Some (task_files w !! k) -> is_Some (task_files w' !! k)).
  { intros k [t Et]. specialize (Hv k). rewrite (link_view_lookup _ _ _ Et) in Hv.
    destruct Hv as (bl' & bb' & Ev & _).
    apply link_view_some in Ev as (t' & E' & _). eauto. }
  split; [rewrite Hn; exact H1|]. split; [| split].
  - intros tn [t' E]. rewrite Hn. apply Hids.
    apply Hback in E as (t & Et & _). eauto.
  - intros a ta' b Ea Hin. apply Hback in Ea as (ta & Eta & Hbl & Hbb).
    rewrite Hbl, Hbb in Hin. apply Hfwd.
    destruct Hin as [[Hin | [_ ->]] | [Hin | [_ ->]]];
      try exact Hdd; try exact Hb; apply (Hcl a ta b Eta); auto.
  - intros a b ta' tb' Ea Eb.
    apply Hback in Ea as (ta & Eta & Hbl & _).
    apply Hback in Eb as (tb & Etb & _ & Hbb).
    rewrite Hbl, Hbb, (Hsym a b ta tb Eta Etb). tauto.
Qed.

(** A new task enters the store without links. *)
Lemma create_well_linked utcnow args w :
  well_linked w -> well_linked (world_of (cmd_create utcnow args w)).
Proof.
  intros (H1 & Hids & Hcl & Hsym).
  destruct (TasklibFacts.cmd_create_done utcnow args w)
    as (t & E & _ & _ & Hbl & Hbb & _).
  rewrite E. cbn [world_of]. set (new := _format_t_number (next_id_of w)).
  assert (Hfresh : task_files w !! new = None).
  { destruct (task_files w !! new) as [t0|] eqn:E0; [| reflexivity].
    destruct (Hids new) as (k & Hk & Ek); [eauto|].
    apply format_t_number_inj in Ek. lia. }
  split; [| split; [| split]].
  - unfold next_id_of. cbn [counter_json]. fold (next_id_of w). lia.
  - intros tn. cbn [task_files]. unfold next_id_of at 1. cbn [counter_json].
    rewrite lookup_insert_is_Some. intros [<- | [_ Hs]].
    + exists (next_id_of w). split; [lia | reflexivity].
    + destruct (Hids tn Hs) as (k & Hk & ->). exists k. split; [lia | reflexivity].
  - intros a ta b. cbn [task_files]. intros Ea Hin.
    rewrite lookup_insert_is_Some'. right.
    destruct (decide (a = new)) as [-> | Hne].
    + rewrite lookup_insert_eq in Ea. inversion Ea; subst ta.
      rewrite Hbl, Hbb in Hin. destruct Hin as [[] | []].
    + rewrite lookup_insert_ne in Ea by congruence. apply (Hcl a ta b Ea Hin).
  - intros a b ta tb. cbn [task_files]. intros Ea Eb.
    destruct (decide (a = new)) as [-> | Ha]; destruct (decide (b = new)) as [-> | Hb'].
    + rewrite lookup_insert_eq in Ea, Eb. inversion Ea; inversion Eb; subst.
      rewrite Hbl, Hbb. reflexivity.
    + rewrite lookup_insert_eq in Ea. rewrite lookup_insert_ne in Eb by congruence.
      inversion Ea; subst ta. rewrite Hbl. split; [intros [] |].
      intros Hin. destruct (Hcl b tb new Eb) as [x Hx]; [auto | congruence].
    + rewrite lookup_insert_eq in Eb. rewrite lookup_insert_ne in Ea by congruence.
      inversion Eb; subst tb. rewrite Hbb. split; [| intros []].
      intros Hin. destruct (Hcl a ta new Ea) as [x Hx]; [auto | congruence].
    + rewrite lookup_insert_ne in Ea, Eb by congruence. apply (Hsym a b ta tb Ea Eb).
Qed.

Lemma empty_dir_well_linked : well_linked empty_dir.
Proof.
  split; [unfold next_id_of; cbn; lia|]. split; [| split].
  - intros tn [t E]. cbn in E. rewrite lookup_empty in E. discriminate.
  - intros a ta b E. cbn in E. rewrite lookup_empty in E. discriminate.
  - intros a b ta tb E. cbn in E. rewrite lookup_empty in E. discriminate.
Qed.

Lemma run_steps_cons utcnow s ss w :
  run_steps utcnow (s :: ss) w = run_steps utcnow ss (step_world utcnow s w).
Proof. reflexivity. Qed.

Lemma run_well_linked utcnow ss w :
  well_linked w -> links_made utcnow ss w = true ->
  well_linked (run_steps utcnow ss w).
Proof.
  revert w. induction ss as [|s ss IH]; intros w Hw Hm; [exact Hw|].
  rewrite run_steps_cons.
  destruct s; cbn [links_made] in Hm.
  - apply IH; [apply create_well_linked, Hw | exact Hm].
  - destruct (cmd_add_blocking utcnow blocker blocked w) as [o w'|] eqn:E;
      [| discriminate].
    apply IH; [| exact Hm]. cbn [step_world]. rewrite E. cbn [world_of].
    apply (add_blocking_well_linked _ _ _ _ _ _ E Hw).
  - apply IH; [| exact Hm]. eapply well_linked_same_links; [| exact Hw].
    apply update_same_links.
  - apply IH; [| exact Hm]. eapply well_linked_same_links; [| exact Hw].
    apply close_same_links.
  - apply IH; [| exact Hm]. eapply well_linked_same_links; [| exact Hw].
    apply comment_same_links.
  - apply IH; [| exact Hm]. eapply well_linked_same_links; [| exact Hw].
    apply assign_same_links.
  - apply IH; [| exact Hm]. eapply well_linked_same_links; [| exact Hw].
    apply reopen_same_links.
Qed.

Lemma same_names_of_links w w' : same_links w w' -> same_names w w'.
Proof.
  intros [Hn Hv]. split; [exact Hn|].
  intros k. rewrite <- !not_eq_None_Some, <- !link_view_none, Hv. reflexivity.
Qed.

Lemma same_names_insert w tn t' n :
  is_Some (task_files w !! tn) ->
  same_names w {| counter_json := counter_json w;
                  task_files := <[tn := t']> (task_files w);
                  clock_reads := n |}.
Proof.
  intros Hs. split; [reflexivity|]. intros k. cbn [task_files].
  rewrite lookup_insert_is_Some. split.
  - intros [<- | [_ H]]; assumption.
  - intros H. destruct (decide (tn = k)); auto.
Qed.

Lemma same_names_trans w1 w2 w3 :
  same_names w1 w2 -> same_names w2 w3 -> same_names w1 w3.
Proof.
  intros [H1 H2] [H3 H4]. split; [congruence|].
  intros k. rewrite H4. apply H2.
Qed.

(** [add-blocking] writes existing files only, also when it exits. *)
Lemma add_blocking_same_names utcnow rb rd w :
  same_names w (world_of (cmd_add_blocking utcnow rb rd w)).
Proof.
  assert (Hrefl : same_names w w) by (apply same_names_of_links, same_links_refl).
  unfold cmd_add_blocking, bind.
  destruct (_parse_t_number rb w) as [bt w0 | c e w0] eqn:Eb;
    [| apply parse_exit in Eb as (-> & ->); exact Hrefl].
  apply parse_done in Eb as (-> & nb & ->).
  destruct (_parse_t_number rd w) as [dt w0 | c e w0] eqn:Ed;
    [| apply parse_exit in Ed as (-> & ->); exact Hrefl].
  apply parse_done in Ed as (-> & nd & ->).
  unfold _read_task at 1.
  destruct (task_files w !! _format_t_number nb) as [tb|] eqn:Etb; [| exact Hrefl].
  cbn [_write_task bind now ret clock_reads task_files counter_json].
  match goal with
  | |- context [_read_task _ ?w1] =>
      assert (H1 : same_names w w1) by (apply same_names_insert; eauto);
      set (w1' := w1) in *
  end.
  unfold _read_task.
  destruct (task_files w1' !! _format_t_number nd) as [td|] eqn:Etd; [| exact H1].
  cbn [_write_task bind now ret clock_reads task_files counter_json world_of].
  eapply same_names_trans; [exact H1|].
  apply (same_names_insert w1'). eauto.
Qed.

Lemma counter_ahead_same_names w w' :
  same_names w w' -> counter_ahead w -> counter_ahead w'.
Proof.
  intros [Hn Hd] [H1 Hids]. split; [rewrite Hn; exact H1|].
  intros tn Hs. rewrite Hn. apply Hids, Hd, Hs.
Qed.

Lemma counter_ahead_fresh w :
  counter_ahead w -> task_files w !! _format_t_number (next_id_of w) = None.
Proof.
  intros [_ Hids].
  destruct (task_files w !! _) as [t0|] eqn:E0; [| reflexivity].
  destruct (Hids _ (ex_intro _ t0 E0)) as (k & Hk & Ek).
  apply format_t_number_inj in Ek. lia.
Qed.

Lemma create_counter_ahead utcnow args w :
  counter_ahead w -> counter_ahead (world_of (cmd_create utcnow args w)).
Proof.
  intros [H1 Hids].
  destruct (TasklibFacts.cmd_create_done utcnow args w) as (t & E & _).
  rewrite E. cbn [world_of]. set (new := _format_t_number (next_id_of w)). split.
  - unfold next_id_of. cbn [counter_json]. fold (next_id_of w). lia.
  - intros tn. cbn [task_files]. unfold next_id_of at 1. cbn [counter_json].
    rewrite lookup_insert_is_Some. intros [<- | [_ Hs]].
    + exists (next_id_of w). split; [lia | reflexivity].
    + destruct (Hids tn Hs) as (k & Hk & ->). exists k. split; [lia | reflexivity].
Qed.

Lemma step_counter_ahead utcnow s w :
  counter_ahead w -> counter_ahead (step_world utcnow s w).
Proof.
  intros Hw. destruct s; cbn [step_world];
    [ apply create_counter_ahead, Hw | ..];
    (eapply counter_ahead_same_names; [| exact Hw]);
    [ apply add_blocking_same_names | .. ]; apply same_names_of_links.
  - apply update_same_links.
  - apply close_same_links.
  - apply comment_same_links.
  - apply assign_same_links.
  - apply reopen_same_links.
Qed.

Lemma run_counter_ahead utcnow ss w :
  counter_ahead w -> counter_ahead (run_steps utcnow ss w).
Proof.
  revert w. induction ss as [|s ss IH]; intros w Hw; [exact Hw|].
  rewrite run_steps_cons. apply IH, step_counter_ahead, Hw.
Qed.

(** Parsing is the inverse of formatting: the T-number made from an
    integer [n] parses, in any directory and without an error, to itself;
    and the T-numbers of two different integers differ. *)
Theorem t_number_round_trip (n : Z) :
  (forall w, _parse_t_number (_format_t_number n) w = Done (_format_t_number n) w)
  /\ (forall m, _format_t_number n = _format_t_number m -> n = m).
Proof.
  split; [apply parse_format | apply format_t_number_inj].
Qed.

(** In a directory that the commands have built from nothing, whatever
    they were and whether they failed, [create] takes a T-number that
    names no file yet: it adds that one file and leaves every other file
    as it was. *)
Theorem create_takes_a_fresh_t_number (utcnow : nat -> string)
    (ss : list Step) (args : CreateArgs) :
  let w := run_steps utcnow ss empty_dir in
  let w' := world_of (cmd_create utcnow args w) in
  let tn := _format_t_number (next_id_of w) in
  task_files w !! tn = None
  /\ option_map title (task_files w' !! tn) = Some (c_title args)
  /\ forall k, k <> tn -> task_files w' !! k = task_files w !! k.
Proof.
  cbv zeta.
  assert (Hw : counter_ahead (run_steps utcnow ss empty_dir)).
  { apply run_counter_ahead. destruct empty_dir_well_linked as (H1 & H2 & _).
    split; assumption. }
  split; [apply counter_ahead_fresh, Hw|].
  destruct (TasklibFacts.cmd_create_done utcnow args (run_steps utcnow ss empty_dir))
    as (t & E & _ & Ht & _).
  rewrite E. cbn [world_of task_files]. split.
  - rewrite lookup_insert_eq. cbn [option_map]. rewrite Ht. reflexivity.
  - intros k Hk. rewrite lookup_insert_ne by congruence. reflexivity.
Qed.

(** A run from an empty directory in which every [add-blocking] returned
    leaves the links symmetric, and every link names an existing task. *)
Theorem links_symmetric_when_every_link_was_made (utcnow : nat -> string)
    (ss : list Step) :
  links_made utcnow ss empty_dir = true ->
  links_symmetric (run_steps utcnow ss empty_dir)
  /\ links_closed (run_steps utcnow ss empty_dir).
Proof.
  intros Hm.
  destruct (run_well_linked utcnow ss empty_dir empty_dir_well_linked Hm)
    as (_ & _ & Hcl & Hsym).
  split; assumption.
Qed.

Lemma links_symmetric_when_every_link_was_made_witness :
  links_made fixed_clock MoreSamples.linked_steps empty_dir = true
  /\ links_symmetric (run_steps fixed_clock MoreSamples.linked_steps empty_dir).
Proof.
  split; [vm_compute; reflexivity|].
  apply (links_symmetric_when_every_link_was_made fixed_clock MoreSamples.linked_steps).
  vm_compute; reflexivity.
Defined.

(** A command that names a task without a file prints [Task <T> not
    found], exits with code 1 and has written nothing.  This holds for
    [get], [update], [close], [comment], [comments], [assign], [reopen],
    the two listings and [walk-dag --direct-only], and for [add-blocking]
    when the blocker is the missing one. *)
Theorem missing_task_fails_without_writing (utcnow : nat -> string)
    (raw tn : string) (w : World) :
  _parse_t_number raw w = Done tn w ->
  task_files w !! tn = None ->
  let failed A : Outcome A :=
    Exited 1%Z {| error := "Task " +:+ tn +:+ " not found"; listing := None |} w in
  cmd_get raw w = failed _
  /\ (forall args, u_task args = raw -> cmd_update utcnow args w = failed _)
  /\ cmd_close utcnow raw w = failed _
  /\ (forall p c, cmd_comment utcnow raw p c w = failed _)
  /\ (forall p, cmd_comments raw p w = failed _)
  /\ (forall user, cmd_assign utcnow raw user w = failed _)
  /\ (forall st, cmd_reopen utcnow raw st w = failed _)
  /\ cmd_list_dependents raw w = failed _
  /\ cmd_list_dependencies raw w = failed _
  /\ (forall d m, cmd_walk_dag {| w_root := raw; w_direction := d;
                                  w_direct_only := true; w_max_depth := m |} w
                  = failed _)
  /\ (forall rd tn', _parse_t_number rd w = Done tn' w ->
        cmd_add_blocking utcnow raw rd w = failed _).
Proof.
  intros Hp Hnone. cbv zeta.
  repeat split; intros;
    unfold cmd_get, cmd_update, cmd_close, cmd_comment, cmd_comments, cmd_assign,
      cmd_reopen, cmd_list_dependents, cmd_list_dependencies, cmd_walk_dag,
      cmd_add_blocking, bind;
    cbn [w_root w_direct_only]; subst;
    repeat match goal with
           | H : _parse_t_number _ _ = Done _ _ |- _ => rewrite H; clear H
           end;
    unfold _read_task; rewrite Hnone; reflexivity.
Qed.

Lemma missing_task_fails_without_writing_witness :
  exit_code (cmd_close fixed_clock "T009" one_task) = Some 1%Z.
Proof.
  pose proof (missing_task_fails_without_writing fixed_clock "T009" "T009" one_task
                eq_refl eq_refl) as H.
  cbv zeta in H. destruct H as (_ & _ & H & _). rewrite H. reflexivity.
Defined.

(** [add-blocking] adds a link once: run again after it returned, it
    returns again and every link list is what it was. *)
Theorem add_blocking_again_adds_nothing (utcnow : nat -> string)
    (rb rd : string) (w w' : World) (o : Output) :
  cmd_add_blocking utcnow rb rd w = Done o w' ->
  exists w'', cmd_add_blocking utcnow rb rd w' = Done o w'' /\ same_links w' w''.
Proof.
  intros Hd.
  destruct (add_blocking_done _ _ _ _ _ _ Hd)
    as (nb & nd & [tb Etb] & [td Etd] & _ & Pb & Pd & -> & Hv).
  set (bt := _format_t_number nb) in *. set (dt := _format_t_number nd) in *.
  assert (Hb' : exists tb', task_files w' !! bt = Some tb' /\ In dt (blocking tb')).
  { pose proof (Hv bt) as H. rewrite (link_view_lookup _ _ _ Etb) in H.
    destruct H as (bl' & bb' & Ev & Hbl & _).
    apply link_view_some in Ev as (t' & E' & <- & _).
    exists t'. split; [exact E' | apply Hbl; auto]. }
  assert (Hd' : exists td', task_files w' !! dt = Some td' /\ In bt (blocked_by td')).
  { pose proof (Hv dt) as H. rewrite (link_view_lookup _ _ _ Etd) in H.
    destruct H as (bl' & bb' & Ev & _ & Hbb).
    apply link_view_some in Ev as (t' & E' & _ & <-).
    exists t'. split; [exact E' | apply Hbb; auto]. }
  destruct Hb' as (tb' & Etb' & Hinb). destruct Hd' as (td' & Etd' & Hind).
  apply mem_In in Hinb. apply mem_In in Hind.
  unfold cmd_add_blocking, bind. rewrite (Pb w'), (Pd w'). fold bt dt.
  unfold _read_task at 1. rewrite Etb', Hinb.
  cbn [_write_task bind now ret clock_reads task_files counter_json].
  match goal with
  | |- context [_read_task _ ?w1] =>
      assert (H1 : same_links w' w1)
        by (eapply same_links_rewrite; [exact Etb' | reflexivity | reflexivity]);
      assert (H2 : exists t1, task_files w1 !! dt = Some t1
                              /\ blocked_by t1 = blocked_by td');
      [| set (w1' := w1) in * ]
  end.
  { cbn [task_files]. destruct (decide (dt = bt)) as [Heq | Hne].
    - rewrite Heq in *. rewrite lookup_insert_eq. eexists. split; [reflexivity|].
      cbn. congruence.
    - rewrite lookup_insert_ne by congruence. eauto. }
  destruct H2 as (t1 & Et1 & Ebb).
  unfold _read_task. rewrite Et1, Ebb, Hind.
  cbn [_write_task bind now ret clock_reads task_files counter_json].
  eexists. split; [reflexivity|].
  eapply same_links_trans; [exact H1|].
  eapply (same_links_rewrite w1'); [exact Et1 | reflexivity | cbn; congruence].
Qed.

Lemma add_blocking_again_adds_nothing_witness :
  let w := run_steps fixed_clock (firstn 2 MoreSamples.linked_steps) empty_dir in
  let w' := world_of (cmd_add_blocking fixed_clock "T001" "T002" w) in
  exit_code (cmd_add_blocking fixed_clock "T001" "T002" w') = None.
Proof.
  cbv zeta.
  assert (H : cmd_add_blocking fixed_clock "T001" "T002"
                (run_steps fixed_clock (firstn 2 MoreSamples.linked_steps) empty_dir)
              = Done (OutBlocks "T001" "T002")
                  (world_of (cmd_add_blocking fixed_clock "T001" "T002"
                     (run_steps fixed_clock (firstn 2 MoreSamples.linked_steps)
                        empty_dir))))
    by (vm_compute; reflexivity).
  destruct (add_blocking_again_adds_nothing fixed_clock "T001" "T002" _ _ _ H)
    as (w'' & E & _).
  rewrite E. reflexivity.
Defined.




(** [close] followed by [reopen] gives the task back with the reopening
    status (the normalized [--status], [in_progress] without one), without
    [completed_at], and with nothing else changed but [updated_at]; no
    other file is touched. *)
Theorem reopen_undoes_close (utcnow : nat -> string)
    (raw : string) (st : option string) (w w1 : World) (o : Output) :
  cmd_close utcnow raw w = Done o w1 ->
  exists tn t t1 w2,
    task_files w !! tn = Some t
    /\ task_files w1 !! tn = Some t1
    /\ status t1 = "closed" /\ completed_at t1 = Some (utcnow (clock_reads w))
    /\ cmd_reopen utcnow raw st w1
       = Done (OutReopen tn (if truthy st then _normalize_status (default EmptyString st)
                             else "in_progress")) w2
    /\ task_files w2 !! tn
       = Some (set_updated_at (utcnow (clock_reads w1))
                 (set_completed_at None
                    (set_status (if truthy st
                                 then _normalize_status (default EmptyString st)
                                 else "in_progress") t)))
    /\ forall k, k <> tn -> task_files w2 !! k = task_files w !! k.
Proof.
  unfold cmd_close, cmd_reopen, bind.
  destruct (_parse_t_number raw w) as [tn0 w0 | c e w0] eqn:Ep; [| discriminate].
  pose proof (parse_anywhere _ _ _ _ Ep) as Pa.
  apply parse_done in Ep as (-> & num & ->).
  unfold _read_task at 1.
  destruct (task_files w !! _format_t_number num) as [t|] eqn:Et; [| discriminate].
  cbn [_write_task bind now ret clock_reads task_files counter_json].
  intros H. inversion H; subst o w1; clear H.
  exists (_format_t_number num), t. eexists. eexists.
  split; [exact Et|]. cbn [task_files].
  split; [apply lookup_insert_eq|].
  split; [reflexivity|]. split; [reflexivity|].
  rewrite Pa. unfold _read_task. cbn [task_files]. rewrite lookup_insert_eq.
  cbn [_write_task bind now ret clock_reads task_files counter_json].
  split; [reflexivity|]. cbn [task_files]. split.
  - rewrite lookup_insert_eq. reflexivity.
  - intros k Hk. rewrite !lookup_insert_ne by congruence. reflexivity.
Qed.

Lemma reopen_undoes_close_witness :
  exit_code (cmd_reopen fixed_clock "T001" None
               (world_of (cmd_close fixed_clock "T001" one_task))) = None.
Proof.
  destruct (reopen_undoes_close fixed_clock "T001" None one_task
              (world_of (cmd_close fixed_clock "T001" one_task)) (OutClose "T001"))
    as (tn & t & t1 & w2 & _ & _ & _ & _ & E & _); [vm_compute; reflexivity|].
  rewrite E. reflexivity.
Defined.

Lemma lower_char_twice (c : ascii) : lower_char (lower_char c) = lower_char c.
Proof. destruct c as [[] [] [] [] [] [] [] []]; reflexivity. Qed.

Lemma map_chars_map_chars f g (s : string) :
  map_chars f (map_chars g s) = map_chars (fun c => f (g c)) s.
Proof.
  induction s as [|c r IH]; [reflexivity|]. cbn [map_chars]. rewrite IH. reflexivity.
Qed.

Lemma map_chars_ext f g (s : string) :
  (forall c, f c = g c) -> map_chars f s = map_chars g s.
Proof.
  intros H. induction s as [|c r IH]; [reflexivity|].
  cbn [map_chars]. rewrite H, IH. reflexivity.
Qed.

(** The key [_normalize_status] looks up is stable under the cleaning. *)
Lemma normalized_key_twice (s : string) :
  normalized_key (normalized_key s) = normalized_key s.
Proof.
  unfold normalized_key, replace_char, lower.
  rewrite !map_chars_map_chars. apply map_chars_ext.
  intros c. destruct c as [[] [] [] [] [] [] [] []]; reflexivity.
Qed.

(** [_normalize_status] is idempotent: a status that the store has
    written is stored unchanged when it is given again. *)
Theorem normalize_status_idempotent (raw : string) :
  _normalize_status (_normalize_status raw) = _normalize_status raw.
Proof.
  unfold _normalize_status at 2 3.
  destruct (assoc_get (normalized_key raw) status_map) as [v|] eqn:E.
  - revert E. unfold status_map. cbn [assoc_get].
    repeat match goal with
           | |- context [String.eqb ?a ?b] => destruct (String.eqb a b)
           end; intros H; inversion H; reflexivity.
  - unfold _normalize_status. rewrite normalized_key_twice, E. reflexivity.
Qed.

Lemma in_existing_rows (files : gmap string Task) (l : list string) (b : string) :
  In b (List.map r_t_number (existing_rows files l)) <->
  In b l /\ is_Some (files !! b).
Proof.
  unfold existing_rows. induction l as [|x r IH]; [cbn; tauto|].
  cbn [omap list_omap]. unfold task_row at 1.
  destruct (files !! x) as [t|] eqn:Ex.
  - cbn [List.map r_t_number In]. rewrite IH. split.
    + intros [<- | [H1 H2]]; [split; [auto | eauto] | auto].
    + intros [[<- | H1] H2]; auto.
  - rewrite IH. cbn [In]. split; [intros [H1 H2]; auto|].
    intros [[<- | H1] [t Ht]]; [congruence | eauto].
Qed.

(** The two listings mirror each other.  In a directory built from
    nothing by a run in which every [add-blocking] returned,
    [list-dependents] of task [a] prints task [b] exactly when
    [list-dependencies] of [b] prints [a]. *)
Theorem dependents_mirror_dependencies (utcnow : nat -> string) (ss : list Step)
    (na nb : Z) :
  links_made utcnow ss empty_dir = true ->
  let w := run_steps utcnow ss empty_dir in
  In (_format_t_number nb) (dependents_of w (_format_t_number na))
  <-> In (_format_t_number na) (dependencies_of w (_format_t_number nb)).
Proof.
  intros Hm. cbv zeta.
  destruct (run_well_linked utcnow ss empty_dir empty_dir_well_linked Hm)
    as (_ & _ & _ & Hsym).
  set (w := run_steps utcnow ss empty_dir) in *.
  unfold dependents_of, dependencies_of, cmd_list_dependents,
    cmd_list_dependencies, bind.
  rewrite !parse_format. unfold _read_task.
  destruct (task_files w !! _format_t_number na) as [ta|] eqn:Ea;
    destruct (task_files w !! _format_t_number nb) as [tb|] eqn:Eb;
    cbn [In _error].
  - rewrite !in_existing_rows, (Hsym _ _ ta tb Ea Eb), Ea, Eb.
    split; intros [H _]; split; eauto.
  - rewrite in_existing_rows, Eb. split; [intros [_ [t Ht]]; discriminate | tauto].
  - rewrite in_existing_rows, Ea. split; [tauto | intros [_ [t Ht]]; discriminate].
  - tauto.
Qed.

Lemma dependents_mirror_dependencies_witness :
  In "T002" (dependents_of (run_steps fixed_clock MoreSamples.linked_steps empty_dir)
               "T001")
  <-> In "T001" (dependencies_of
                   (run_steps fixed_clock MoreSamples.linked_steps empty_dir) "T002").
Proof.
  apply (dependents_mirror_dependencies fixed_clock MoreSamples.linked_steps 1 2).
  vm_compute; reflexivity.
Defined.

Lemma add_tags_spec (new existing : list string) :
  (exists suffix, add_tags new existing = existing ++ suffix)
  /\ (List.NoDup existing -> List.NoDup (add_tags new existing))
  /\ (forall x, In x (add_tags new existing) <-> In x existing \/ In x new).
Proof.
  revert existing. induction new as [|tag r IH]; intros existing.
  - cbn [add_tags]. split; [exists []; symmetry; apply app_nil_r|].
    split; [auto|]. intros x. cbn [In]. tauto.
  - cbn [add_tags]. destruct (mem tag existing) eqn:E.
    + destruct (IH existing) as (Hs & Hn & Hi). split; [exact Hs|].
      split; [exact Hn|]. intros x. rewrite Hi. cbn [In].
      apply mem_In in E. split; [tauto|]. intros [H | [<- | H]]; auto.
    + destruct (IH (existing ++ [tag])) as ((sfx & Hs) & Hn & Hi).
      split; [exists (tag :: sfx); rewrite Hs, <- app_assoc; reflexivity|].
      split.
      * intros Hnd. apply Hn. apply List.NoDup_app; [exact Hnd | | ].
        -- constructor; [intros [] | constructor].
        -- intros x Hx [<- | []]. apply mem_In in Hx. congruence.
      * intros x. rewrite Hi, in_app_iff. cbn [In]. tauto.
Qed.

Lemma upd_if_tags c name f (st : Task * list string) :
  (forall t, tags (f t) = tags t) ->
  tags (fst (upd_if c name f st)) = tags (fst st).
Proof. intros Hf. unfold upd_if. destruct c; [apply Hf | reflexivity]. Qed.

(** [update --tags] merges: the stored tag list keeps its entries in
    their order and gets the new tags that it did not have appended, so a
    list without duplicates stays without duplicates. *)
Theorem update_merges_tags (utcnow : nat -> string) (args : UpdateArgs)
    (w w' : World) (o : Output) :
  cmd_update utcnow args w = Done o w' ->
  truthy (u_tags args) = true ->
  exists tn t t',
    task_files w !! tn = Some t /\ task_files w' !! tn = Some t'
    /\ (exists suffix, tags t' = tags t ++ suffix)
    /\ (List.NoDup (tags t) -> List.NoDup (tags t'))
    /\ (forall x, In x (tags t') <->
          In x (tags t) \/ In x (parse_tags (default EmptyString (u_tags args)))).
Proof.
  intros Hd Htags. revert Hd. unfold cmd_update.
  parse_read (u_task args) w; try discriminate.
  rewrite Htags.
  match goal with
  | |- context [match snd ?st with _ => _ end] =>
      assert (Ht : tags (fst st)
                   = add_tags (parse_tags (default EmptyString (u_tags args))) (tags t));
      [| destruct (snd st); [discriminate|]; generalize dependent (fst st) ]
  end.
  { do 2 (rewrite upd_if_tags by (intros; reflexivity)).
    unfold upd_if at 1. cbn [fst tags set_tags].
    do 4 (rewrite upd_if_tags by (intros; reflexivity)). reflexivity. }
  intros t1 Ht.
  cbn [_write_task bind now ret clock_reads task_files counter_json].
  intros H. inversion H; subst o w'; clear H.
  eexists _, t, _. split; [exact Et|]. cbn [task_files].
  split; [apply lookup_insert_eq|].
  cbn [tags set_updated_at]. rewrite Ht. apply add_tags_spec.
Qed.

Lemma update_merges_tags_witness :
  exists t', task_files (world_of (cmd_update fixed_clock
                            {| u_task := "1"; u_status := None; u_title := None;
                               u_description := None; u_priority := None;
                               u_tags := Some "ui, claw-town"; u_stage := None;
                               u_owner := None |} one_task)) !! "T001" = Some t'
             /\ tags t' = ["claw-town"; "ui"].
Proof.
  destruct (update_merges_tags fixed_clock
              {| u_task := "1"; u_status := None; u_title := None;
                 u_description := None; u_priority := None;
                 u_tags := Some "ui, claw-town"; u_stage := None; u_owner := None |}
              one_task
              (world_of (cmd_update fixed_clock
                 {| u_task := "1"; u_status := None; u_title := None;
                    u_description := None; u_priority := None;
                    u_tags := Some "ui, claw-town"; u_stage := None;
                    u_owner := None |} one_task))
              (OutUpdate "T001" ["tags"]))
    as (tn & t & t' & _ & _ & _); [vm_compute; reflexivity | reflexivity |].
  eexists. split; vm_compute; reflexivity.
Defined.

End StoreFacts.

(** ** Walking the dependency graph *)

Module WalkFacts.
Import PyStr.
Import Tasklib.
Import TasklibCommands.
Import Samples.

Section Walk.

Variable files : gmap string Task.
Variable direction : string.
Variable max_depth : option Z.

#[local] Set Warnings "-clear-no-such-hyp".







End Walk.



End WalkFacts.

(** ** Pipeline: claim, release, set-stage, list-available *)

Module PipelineFacts.
Import PyStr.
Import Tasklib.
Import Roles.
Import RolesCommands.
Import StoreFacts.
Import Samples.

(** A valid role handles a stage of the pipeline that has a successor. *)
Lemma role_stage (role : string) :
  mem role VALID_ROLES = true ->
  exists i s s',
    assoc_get role ROLE_TO_STAGE = Some s
    /\ nth_error PIPELINE_STAGES i = Some s
    /\ nth_error PIPELINE_STAGES (S i) = Some s'.
Proof.
  unfold mem, VALID_ROLES, ROLE_TO_STAGE, STAGE_TO_ROLE.
  cbn [List.map existsb snd fst assoc_get].
  intros H.
  repeat match type of H with
         | (String.eqb ?a ?b || _) = true =>
             destruct (String.eqb_spec a b);
             [ subst; clear H | cbn [orb] in H ]
         end; try discriminate H.
  - exists 0. eexists _, _. repeat split; reflexivity.
  - exists 1. eexists _, _. repeat split; reflexivity.
  - exists 2. eexists _, _. repeat split; reflexivity.
  - exists 3. eexists _, _. repeat split; reflexivity.
  - exists 4. eexists _, _. repeat split; reflexivity.
  - exists 5. eexists _, _. repeat split; reflexivity.
  - exists 6. eexists _, _. repeat split; reflexivity.
Qed.

(** What a returning [claim] has checked and written. *)
Lemma claim_done utcnow raw role w o w1 :
  cmd_claim utcnow raw role w = Done o w1 ->
  exists tn t,
    (forall w0, _parse_t_number raw w0 = Done tn w0)
    /\ mem role VALID_ROLES = true
    /\ task_files w !! tn = Some t
    /\ stage t = assoc_get role ROLE_TO_STAGE
    /\ owner t = None
    /\ o = OutClaim tn role (stage t)
    /\ w1 = {| counter_json := counter_json w;
               task_files := <[tn := set_updated_at (utcnow (clock_reads w))
                                       (set_status "in_progress"
                                          (set_owner (Some role) t))]>
                               (task_files w);
               clock_reads := S (clock_reads w) |}.
Proof.
  unfold cmd_claim, bind.
  destruct (_parse_t_number raw w) as [tn w0 | c e w0] eqn:Ep; [| discriminate].
  pose proof (parse_anywhere _ _ _ _ Ep) as Pa.
  apply parse_done in Ep as (-> & num & ->).
  destruct (mem role VALID_ROLES) eqn:Er; cbn [negb]; [| discriminate].
  unfold Roles._read_task.
  destruct (task_files w !! _format_t_number num) as [t|] eqn:Et; [| discriminate].
  destruct (bool_decide (stage t = assoc_get role ROLE_TO_STAGE)) eqn:Es;
    cbn [negb]; [| discriminate].
  apply bool_decide_eq_true_1 in Es.
  destruct (owner t) as [ow|] eqn:Eo; cbn [is_some]; [discriminate|].
  cbn [_write_task bind now ret clock_reads task_files counter_json].
  intros H. inversion H; subst o w1; clear H.
  exists (_format_t_number num), t. repeat split; auto.
Qed.

(** A claimed task cannot be claimed again: after a [claim] that
    returned, every further [claim] of the same task, by any role, exits
    with code 1 and writes nothing. *)
Theorem claim_is_exclusive (utcnow : nat -> string) (raw role : string)
    (w w1 : World) (o : RoleOutput) :
  cmd_claim utcnow raw role w = Done o w1 ->
  forall role', exists e, cmd_claim utcnow raw role' w1 = Exited 1%Z e w1.
Proof.
  intros Hd role'.
  destruct (claim_done _ _ _ _ _ _ Hd) as (tn & t & Pa & _ & Et & _ & _ & _ & ->).
  unfold cmd_claim, bind. rewrite Pa.
  destruct (mem role' VALID_ROLES); cbn [negb]; [| eexists; reflexivity].
  unfold Roles._read_task. cbn [task_files]. rewrite lookup_insert_eq.
  destruct (bool_decide _); cbn [negb]; [| eexists; reflexivity].
  cbn [owner set_updated_at set_status set_owner is_some].
  eexists; reflexivity.
Qed.

Lemma claim_is_exclusive_witness :
  exit_code (cmd_claim fixed_clock "T001" "pm"
               (world_of (cmd_claim fixed_clock "T001" "pm"
                            (dir_with (task_at (Some "pm") None)))))
  = Some 1%Z.
Proof.
  destruct (claim_is_exclusive fixed_clock "T001" "pm"
              (dir_with (task_at (Some "pm") None))
              (world_of (cmd_claim fixed_clock "T001" "pm"
                           (dir_with (task_at (Some "pm") None))))
              (OutClaim "T001" "pm" (Some "pm")))
    with (role' := "pm") as (e & E); [vm_compute; reflexivity|].
  rewrite E. reflexivity.
Defined.

(** A claimed task can always be released, and the release moves it to
    the stage after the one the claiming role handles, without an owner;
    it is closed exactly when that next stage is [done]. *)
Theorem claim_then_release_advances (utcnow : nat -> string) (raw role : string)
    (w w1 : World) (o : RoleOutput) :
  cmd_claim utcnow raw role w = Done o w1 ->
  exists tn s s' w2 t2,
    assoc_get role ROLE_TO_STAGE = Some s
    /\ next_stage s = Some s'
    /\ cmd_release utcnow raw w1
       = Done (OutRelease tn (Some role) (Some s) s'
                 (if String.eqb s' "done" then "closed" else "open")) w2
    /\ task_files w2 !! tn = Some t2
    /\ stage t2 = Some s' /\ owner t2 = None
    /\ status t2 = (if String.eqb s' "done" then "closed" else "open").
Proof.
  intros Hd.
  destruct (claim_done _ _ _ _ _ _ Hd) as (tn & t & Pa & Hr & Et & Es & _ & _ & ->).
  destruct (role_stage role Hr) as (i & s & s' & Ea & Hi & Hi').
  match goal with
  | |- context [cmd_release utcnow raw ?w1] =>
      destruct (RolesFacts.release_next utcnow w1 raw tn
                  (set_updated_at (utcnow (clock_reads w))
                     (set_status "in_progress" (set_owner (Some role) t)))
                  role i s s' Pa)
        as (w2 & t2 & E & Et2 & Ho & Hs & Hst & _)
  end.
  - cbn [task_files]. apply lookup_insert_eq.
  - reflexivity.
  - cbn. congruence.
  - exact Hi.
  - exact Hi'.
  - exists tn, s, s', w2, t2.
    destruct (RolesFacts.next_stage_nth i s s' Hi Hi') as (Hn & _).
    repeat split; assumption.
Qed.

Lemma claim_then_release_advances_witness :
  exit_code (cmd_release fixed_clock "T001"
               (world_of (cmd_claim fixed_clock "T001" "pm"
                            (dir_with (task_at (Some "pm") None)))))
  = None.
Proof.
  destruct (claim_then_release_advances fixed_clock "T001" "pm"
              (dir_with (task_at (Some "pm") None))
              (world_of (cmd_claim fixed_clock "T001" "pm"
                           (dir_with (task_at (Some "pm") None))))
              (OutClaim "T001" "pm" (Some "pm")))
    as (tn & s & s' & w2 & t2 & _ & _ & E & _); [vm_compute; reflexivity|].
  rewrite E. reflexivity.
Defined.

(** The stage of a role is mapped back to the role. *)
Lemma stage_role (stg role : string) :
  assoc_get stg STAGE_TO_ROLE = Some role ->
  mem role VALID_ROLES = true /\ assoc_get role ROLE_TO_STAGE = Some stg.
Proof.
  unfold STAGE_TO_ROLE. cbn [assoc_get].
  repeat match goal with
         | |- context [String.eqb stg ?b] =>
             destruct (String.eqb_spec stg b);
             [ subst; intros H; inversion H; subst; split; reflexivity |]
         end.
  discriminate.
Qed.

(** [set-stage] puts the task at the stage, without an owner and with its
    status as it was; the role that handles the stage can then claim it. *)
Theorem set_stage_makes_claimable (utcnow : nat -> string) (raw stg : string)
    (w w1 : World) (o : RoleOutput) :
  cmd_set_stage utcnow raw stg w = Done o w1 ->
  exists tn t t1,
    task_files w !! tn = Some t /\ task_files w1 !! tn = Some t1
    /\ stage t1 = Some stg /\ owner t1 = None /\ status t1 = status t
    /\ forall role, assoc_get stg STAGE_TO_ROLE = Some role ->
         exists w2, cmd_claim utcnow raw role w1 = Done (OutClaim tn role (Some stg)) w2.
Proof.
  unfold cmd_set_stage, bind.
  destruct (_parse_t_number raw w) as [tn w0 | c e w0] eqn:Ep; [| discriminate].
  pose proof (parse_anywhere _ _ _ _ Ep) as Pa.
  apply parse_done in Ep as (-> & num & ->).
  destruct (mem stg VALID_STAGES); cbn [negb]; [| discriminate].
  unfold Roles._read_task at 1.
  destruct (task_files w !! _format_t_number num) as [t|] eqn:Et; [| discriminate].
  cbn [_write_task bind now ret clock_reads task_files counter_json].
  intros H. inversion H; subst o w1; clear H.
  eexists _, t, _. split; [exact Et|]. cbn [task_files].
  split; [apply lookup_insert_eq|].
  split; [reflexivity|]. split; [reflexivity|]. split; [reflexivity|].
  intros role Hrole. apply stage_role in Hrole as [Hv Hs].
  unfold cmd_claim, bind. rewrite Pa, Hv. cbn [negb].
  unfold Roles._read_task. cbn [task_files]. rewrite lookup_insert_eq.
  cbn [stage owner set_updated_at set_owner set_stage is_some].
  rewrite Hs, bool_decide_eq_true_2 by reflexivity. cbn [negb].
  cbn [_write_task bind now ret clock_reads task_files counter_json stage
       set_status set_owner set_updated_at set_stage].
  eexists. reflexivity.
Qed.

Lemma set_stage_makes_claimable_witness :
  exit_code (cmd_claim fixed_clock "T001" "qa-tester"
               (world_of (cmd_set_stage fixed_clock "T001" "qa-test"
                            (dir_with (task_at (Some "pm") (Some "pm"))))))
  = None.
Proof.
  destruct (set_stage_makes_claimable fixed_clock "T001" "qa-test"
              (dir_with (task_at (Some "pm") (Some "pm")))
              (world_of (cmd_set_stage fixed_clock "T001" "qa-test"
                           (dir_with (task_at (Some "pm") (Some "pm")))))
              (OutSetStage "T001" (Some "pm") "qa-test"))
    as (tn & t & t1 & _ & _ & _ & _ & _ & H); [vm_compute; reflexivity|].
  destruct (H "qa-tester" eq_refl) as (w2 & E).
  rewrite E. reflexivity.
Defined.

Lemma in_read_all_tasks (w : World) (t : Task) :
  In t (TasklibCommands._read_all_tasks w) <->
  exists k, task_files w !! k = Some t /\ startswith "T" k = true.
Proof.
  unfold TasklibCommands._read_all_tasks. rewrite in_map_iff. split.
  - intros ([k t'] & E & Hin). cbn in E. subst t'.
    apply filter_In in Hin as [Hin Hk]. cbn in Hk.
    apply list_elem_of_In, elem_of_map_to_list in Hin. eauto.
  - intros (k & Ek & Hk). exists (k, t). split; [reflexivity|].
    apply filter_In. split; [| exact Hk].
    apply list_elem_of_In, elem_of_map_to_list. exact Ek.
Qed.

Lemma t_number_globbed (n : Z) : startswith "T" (_format_t_number n) = true.
Proof.
  unfold startswith, _format_t_number. cbn. destruct (format_03d n); reflexivity.
Qed.

(** [list-available] and [claim] agree.  For a valid role, the listing
    returns; each of its rows is the row of a task file at the stage of
    the role and without an owner; and a task file with a T-number as its
    name is listed exactly when [claim] of it by this role returns. *)
Theorem list_available_agrees_with_claim (utcnow : nat -> string)
    (role : string) (w : World) :
  mem role VALID_ROLES = true ->
  exists stg rows,
    cmd_list_available role w = Done (OutAvailable role stg rows (List.length rows)) w
    /\ (forall row, In row rows ->
          exists k t, task_files w !! k = Some t /\ row = avail_row t
                      /\ stage t = Some stg /\ owner t = None)
    /\ (forall n t, task_files w !! _format_t_number n = Some t ->
          (exit_code (cmd_claim utcnow (_format_t_number n) role w) = None
           <-> stage t = Some stg /\ owner t = None)
          /\ (stage t = Some stg /\ owner t = None -> In (avail_row t) rows)).
Proof.
  intros Hr. destruct (role_stage role Hr) as (i & s & s' & Ea & Hi & Hi').
  destruct (RolesFacts.next_stage_nth i s s' Hi Hi') as (_ & Hne & _).
  unfold cmd_list_available. rewrite Hr, Ea. cbn [negb truthy default]. rewrite Hne.
  cbn [negb]. eexists s, _. split; [reflexivity|]. split.
  - intros row Hin. apply in_map_iff in Hin as (t & <- & Hin).
    apply filter_In in Hin as [Hin Hav].
    apply in_read_all_tasks in Hin as (k & Ek & _).
    unfold is_available in Hav. apply andb_prop in Hav as [H1 H2].
    apply bool_decide_eq_true_1 in H1. exists k, t.
    repeat split; [exact Ek | exact H1 |].
    destruct (owner t); [discriminate | reflexivity].
  - intros n t Et. split.
    + unfold cmd_claim, bind. rewrite parse_format, Hr. cbn [negb].
      unfold Roles._read_task. rewrite Et, Ea.
      destruct (decide (stage t = Some s)) as [Hs | Hs].
      * rewrite bool_decide_eq_true_2 by exact Hs. cbn [negb].
        destruct (owner t) as [ow|]; cbn [is_some exit_code exit_with].
        -- split; [discriminate | intros [_ H]; discriminate].
        -- split; [auto | reflexivity].
      * rewrite bool_decide_eq_false_2 by exact Hs. cbn [negb exit_code exit_with].
        split; [discriminate | intros [H _]; contradiction].
    + intros [Hs Ho]. apply in_map_iff. exists t. split; [reflexivity|].
      apply filter_In. split.
      * apply in_read_all_tasks. exists (_format_t_number n).
        split; [exact Et | apply t_number_globbed].
      * unfold is_available. rewrite bool_decide_eq_true_2 by exact Hs.
        rewrite Ho. reflexivity.
Qed.

Lemma list_available_agrees_with_claim_witness :
  exit_code (cmd_list_available "pm" (dir_with (task_at (Some "pm") None))) = None.
Proof.
  destruct (list_available_agrees_with_claim fixed_clock "pm"
              (dir_with (task_at (Some "pm") None)) eq_refl)
    as (stg & rows & E & _).
  rewrite E. reflexivity.
Defined.

End PipelineFacts.

(** ** tasks.json: validation, removal, settings *)

Module TasksFileFacts.
Import PyStr.
Import StrProps.
Import TasksJson.
Import TasksJsonOps.
Import TasksJsonFacts.
Import PyStrFacts.
Import Samples.

Lemma digits_to_end_digits (s : string) (b : bool) :
  s <> EmptyString -> all_chars is_digit s = true -> digits_to_end s b = true.
Proof.
  revert b. induction s as [|c r IH]; intros b Hne Hd; [congruence|].
  cbn [all_chars] in Hd. apply andb_prop in Hd as [Hc Hr].
  cbn [digits_to_end]. rewrite Hc.
  destruct r as [|c' r']; [reflexivity|]. apply IH; [discriminate | exact Hr].
Qed.

Lemma forallb_digits (s : string) :
  forallb is_digit (list_ascii_of_string s) = all_chars is_digit s.
Proof.
  induction s as [|c r IH]; [reflexivity|].
  cbn [list_ascii_of_string forallb all_chars]. rewrite IH. reflexivity.
Qed.

(** The digits that [digits_to_end] accepts, with the newline it may
    have skipped at the end. *)
Lemma digits_to_end_inv (s : string) (b : bool) :
  digits_to_end s b = true ->
  exists ds nl,
    s = ds +:+ nl /\ all_chars is_digit ds = true
    /\ (nl = EmptyString \/ nl = String "010" EmptyString)
    /\ (b = true \/ ds <> EmptyString).
Proof.
  revert b. induction s as [|c r IH]; intros b.
  - cbn [digits_to_end]. intros ->. exists EmptyString, EmptyString. auto.
  - cbn [digits_to_end]. destruct (is_digit c) eqn:Hc.
    + intros H. apply IH in H as (ds & nl & -> & Hd & Hnl & _).
      exists (String c ds), nl. rewrite append_cons. cbn [all_chars].
      rewrite Hc, Hd. repeat split; auto; right; discriminate.
    + intros H. apply andb_prop in H as [H Hr]. apply andb_prop in H as [Hb Hn].
      apply Ascii.eqb_eq in Hn. destruct r; [| discriminate]. subst c b.
      exists EmptyString, (String "010" EmptyString). auto.
Qed.

Lemma digits_to_end_newline (ds : string) (b : bool) :
  ds <> EmptyString -> all_chars is_digit ds = true ->
  digits_to_end (ds +:+ String "010" EmptyString) b = true.
Proof.
  revert b. induction ds as [|c r IH]; intros b Hne Hd; [congruence|].
  cbn [all_chars] in Hd. apply andb_prop in Hd as [Hc Hr].
  rewrite append_cons. cbn [digits_to_end]. rewrite Hc.
  destruct r as [|c' r']; [reflexivity|]. apply IH; [discriminate | exact Hr].
Qed.

(** [_validate_t_number] accepts exactly the letter T followed by one or
    more digits and, optionally, one final newline.  So it accepts the
    T-number that the task store makes from an id that is not negative,
    and rejects the one made from a negative id. *)
Theorem validate_t_number_accepts (value : string) :
  (_validate_t_number value = None <->
   is_t_number value = true
   \/ exists v, value = v +:+ String "010" EmptyString /\ is_t_number v = true)
  /\ (forall n : Z, (0 <= n)%Z ->
        _validate_t_number (Tasklib._format_t_number n) = None)
  /\ (forall n : Z, (n < 0)%Z ->
        _validate_t_number (Tasklib._format_t_number n) <> None).
Proof.
  assert (Hacc : forall v, _validate_t_number v = None <-> _T_NUMBER_RE_match v = true).
  { intros v. unfold _validate_t_number.
    destruct (_T_NUMBER_RE_match v); cbn [negb]; split; congruence. }
  assert (Ht : forall ds, ds <> EmptyString -> all_chars is_digit ds = true ->
                 is_t_number (String "T" ds) = true).
  { intros [|c r] Hne Hd; [congruence|]. cbn [is_t_number].
    cbn [all_chars] in Hd. apply andb_prop in Hd as [Hc Hr].
    rewrite Hc, forallb_digits, Hr. reflexivity. }
  assert (Ht' : forall v, is_t_number v = true ->
                  exists ds, v = String "T" ds /\ ds <> EmptyString
                             /\ all_chars is_digit ds = true).
  { intros [|c [|c' r]]; try discriminate.
    - cbn [is_t_number]. destruct c as [[] [] [] [] [] [] [] []]; discriminate.
    - intros H. assert (c = "T"%char) as ->.
      { revert H. cbn [is_t_number].
        destruct c as [[] [] [] [] [] [] [] []]; try discriminate. reflexivity. }
      cbn [is_t_number] in H. apply andb_prop in H as [Hc Hr].
      exists (String c' r). split; [reflexivity|]. split; [discriminate|].
      cbn [all_chars]. rewrite Hc, <- forallb_digits, Hr. reflexivity. }
  split; [| split].
  - rewrite Hacc. split.
    + destruct value as [|c r]; [discriminate|].
      intros H. assert (c = "T"%char) as ->.
      { revert H. cbn [_T_NUMBER_RE_match].
        destruct c as [[] [] [] [] [] [] [] []]; try discriminate. reflexivity. }
      cbn [_T_NUMBER_RE_match] in H.
      apply digits_to_end_inv in H as (ds & nl & -> & Hd & [-> | ->] & [Hb | Hne]);
        try discriminate.
      * left. rewrite append_empty. apply Ht; assumption.
      * right. exists (String "T" ds). split; [reflexivity | apply Ht; assumption].
    + intros [H | (v & -> & H)]; apply Ht' in H as (ds & -> & Hne & Hd).
      * cbn [_T_NUMBER_RE_match]. apply digits_to_end_digits; assumption.
      * rewrite append_cons. cbn [_T_NUMBER_RE_match].
        apply digits_to_end_newline; assumption.
  - intros n Hn. rewrite Hacc. unfold Tasklib._format_t_number, format_03d.
    destruct (Z.ltb_spec n 0); [lia|].
    rewrite append_cons, append_nil_l. cbn [_T_NUMBER_RE_match].
    destruct (zfill_nonempty 3 (Z.abs_N n)) as (c & r & E & Hc).
    apply digits_to_end_digits; [rewrite E; discriminate | apply zfill_digits].
  - intros n Hn. rewrite Hacc. unfold Tasklib._format_t_number, format_03d.
    destruct (Z.ltb_spec n 0); [| lia].
    rewrite !append_cons, !append_nil_l. cbn [_T_NUMBER_RE_match digits_to_end].
    change (is_digit "-") with false. cbn. congruence.
Qed.

Lemma dget_dset_ne (k k' : string) (v : json) (d : dict) :
  String.eqb k k' = false -> dget k (dset k' v d) = dget k d.
Proof.
  intros Hne. induction d as [| [k2 v2] d IH]; cbn [dset dget].
  - rewrite Hne. reflexivity.
  - destruct (String.eqb k' k2) eqn:E; cbn [dget].
    + apply String.eqb_eq in E. subst k2. rewrite Hne. reflexivity.
    + destruct (String.eqb k k2); [reflexivity | exact IH].
Qed.

Lemma dset_dset (k : string) (v v' : json) (d : dict) :
  dset k v (dset k v' d) = dset k v d.
Proof.
  induction d as [| [k2 v2] d IH]; cbn [dset].
  - rewrite String.eqb_refl. reflexivity.
  - destruct (String.eqb k k2) eqn:E; cbn [dset]; rewrite E; [reflexivity|].
    rewrite IH. reflexivity.
Qed.

Lemma dget_dsetdefault_ne (k k' : string) (v : json) (d : dict) :
  String.eqb k k' = false -> dget k (dsetdefault k' v d) = dget k d.
Proof.
  intros Hne. unfold dsetdefault. destruct (dhas k' d); [reflexivity|].
  induction d as [| [k2 v2] d IH]; cbn [dget app].
  - rewrite Hne. reflexivity.
  - destruct (String.eqb k k2); [reflexivity | exact IH].
Qed.

Lemma dget_dpop_eq (k : string) (d : dict) : dget k (dpop k d) = None.
Proof.
  unfold dpop. induction d as [| [k2 v2] d IH]; [reflexivity|].
  cbn [List.filter fst]. destruct (String.eqb k k2) eqn:E; cbn [negb]; [exact IH|].
  cbn [dget]. rewrite E. exact IH.
Qed.

Lemma dget_dpop_ne (k k' : string) (d : dict) :
  String.eqb k k' = false -> dget k (dpop k' d) = dget k d.
Proof.
  intros Hne. unfold dpop. induction d as [| [k2 v2] d IH]; [reflexivity|].
  cbn [List.filter fst dget]. destruct (String.eqb k' k2) eqn:E; cbn [negb].
  - apply String.eqb_eq in E. subst k2. rewrite Hne. exact IH.
  - cbn [dget]. destruct (String.eqb k k2); [reflexivity | exact IH].
Qed.

Lemma dpop_snoc (k : string) (v : json) (d : dict) :
  dhas k d = false -> dpop k (d ++ [(k, v)]) = d.
Proof.
  intros H. unfold dpop. rewrite List.filter_app. cbn [List.filter fst].
  rewrite String.eqb_refl. cbn [negb]. rewrite app_nil_r.
  apply (dpop_absent k d H).
Qed.

Lemma entries_are_objects_dset (k : string) (o : dict) (d : dict) :
  entries_are_objects d = true -> entries_are_objects (dset k (JObj o) d) = true.
Proof.
  unfold entries_are_objects. induction d as [| [k2 v2] d IH]; [reflexivity|].
  cbn [dset forallb snd]. intros H. apply andb_prop in H as [H1 H2].
  destruct (String.eqb k k2); cbn [forallb snd]; [exact H2|].
  rewrite H1, (IH H2). reflexivity.
Qed.

Lemma migrate_entry_object (o : dict) : exists e, _migrate_task_entry (JObj o) = Ok e.
Proof. eexists. reflexivity. Qed.

(** Whatever [_migrate_data] puts into [known_tasks] is an object. *)
Lemma migrate_known_objects (items acc r : dict) :
  migrate_known items acc = Ok r ->
  entries_are_objects acc = true -> entries_are_objects r = true.
Proof.
  revert acc. induction items as [| [key entry] items IH]; intros acc.
  - cbn [migrate_known]. intros H. inversion H. auto.
  - cbn [migrate_known]. destruct (startswith "T" key).
    + unfold pbind at 1. destruct (_migrate_task_entry entry) as [e| |]; try discriminate.
      intros H Ha. apply (IH _ H). apply entries_are_objects_dset, Ha.
    + unfold pbind at 1. destruct (as_dict entry) as [o| |]; try discriminate.
      destruct (truthy _ && is_t_string _); [| apply IH].
      destruct (por _ _); try apply IH.
      unfold pbind at 1. destruct (_migrate_task_entry entry) as [e| |]; try discriminate.
      intros H Ha. apply (IH _ H). apply entries_are_objects_dset, Ha.
Qed.

Lemma migrate_legacy_objects (tasks : list json) (acc r : dict) :
  migrate_legacy tasks acc = Ok r ->
  entries_are_objects acc = true -> entries_are_objects r = true.
Proof.
  revert acc. induction tasks as [| task tasks IH]; intros acc.
  - cbn [migrate_legacy]. intros H. inversion H. auto.
  - cbn [migrate_legacy]. unfold pbind at 1.
    destruct (as_dict task) as [o| |]; try discriminate.
    match goal with
    | |- context [if truthy ?tn then match ?tn with _ => _ end else _] =>
        destruct (truthy tn); [destruct tn; try discriminate | apply IH]
    end.
    destruct (negb _); [| apply IH].
    unfold pbind at 1. destruct (_migrate_task_entry task) as [e| |]; try discriminate.
    intros H Ha. apply (IH _ H). apply entries_are_objects_dset, Ha.
Qed.

(** A [known_tasks] object that holds objects migrates without an
    exception. *)
Lemma migrate_known_total (items acc : dict) :
  entries_are_objects items = true -> exists r, migrate_known items acc = Ok r.
Proof.
  revert acc. unfold entries_are_objects.
  induction items as [| [key entry] items IH]; intros acc.
  - eexists. reflexivity.
  - cbn [forallb snd]. intros H. apply andb_prop in H as [H1 H2].
    destruct entry as [| | | | | o]; try discriminate.
    cbn [migrate_known]. destruct (startswith "T" key).
    + destruct (migrate_entry_object o) as (e & ->). cbn [pbind]. apply IH, H2.
    + cbn [as_dict pbind]. destruct (truthy _ && is_t_string _); [| apply IH, H2].
      destruct (por _ _); apply IH, H2.
Qed.

(** The last steps of [_migrate_data] leave a key that is there alone. *)
Lemma dget_defaults (k : string) (x : json) (d : dict) :
  dget k d = Some x ->
  dget k
    (dsetdefault "last_gsd_poll" JNull
       (dsetdefault "last_dag_walk" JNull
          (dsetdefault "gsd_project_id" JNull
             (dsetdefault "gsd_url" JNull
                (dsetdefault "working_dir" JNull
                   (dsetdefault "root_task" JNull
                      (dsetdefault "project" (JStr "unknown") d)))))))
  = Some x.
Proof. intros H. repeat apply dget_dsetdefault. exact H. Qed.

Lemma dget_tasks_defaults (d : dict) :
  dget "tasks"
    (dsetdefault "last_gsd_poll" JNull
       (dsetdefault "last_dag_walk" JNull
          (dsetdefault "gsd_project_id" JNull
             (dsetdefault "gsd_url" JNull
                (dsetdefault "working_dir" JNull
                   (dsetdefault "root_task" JNull
                      (dsetdefault "project" (JStr "unknown") d)))))))
  = dget "tasks" d.
Proof. rewrite !dget_dsetdefault_ne by reflexivity. reflexivity. Qed.

(** What [load] returns has the migrated shape. *)
Lemma load_shape (project : string) (f : TasksFile) (data : dict) :
  load project f = Ok data -> migrated_shape data = true.
Proof.
  destruct f as [D|]; cbn [load].
  2:{ intros H. inversion H. reflexivity. }
  unfold _migrate_data, pbind.
  destruct (as_dict D) as [d0| |]; try discriminate.
  destruct (as_dict _) as [kt0| |]; try discriminate.
  destruct (migrate_known kt0 []) as [m| |] eqn:Em; try discriminate.
  pose proof (migrate_known_objects _ _ _ Em eq_refl) as Hm.
  destruct (dget "tasks" d0) as [[| | | | tasks |]|] eqn:Et;
    try (intros H; inversion H; subst data; clear H; cbn [fst snd];
         unfold migrated_shape;
         rewrite (dget_defaults "known_tasks" (JObj m))
           by apply dget_dset_eq;
         rewrite Hm, dget_tasks_defaults, dget_dset_ne, Et by reflexivity;
         reflexivity).
  destruct (migrate_legacy tasks m) as [m'| |] eqn:El; try discriminate.
  pose proof (migrate_legacy_objects _ _ _ El Hm) as Hm'.
  intros H; inversion H; subst data; clear H; cbn [fst snd].
  unfold migrated_shape.
  rewrite (dget_defaults "known_tasks" (JObj m')) by apply dget_dset_eq.
  rewrite Hm', dget_tasks_defaults, dget_dset_ne, dget_dpop_eq by reflexivity.
  reflexivity.
Qed.

(** A document of the migrated shape loads again, and the load keeps
    every top-level value other than [known_tasks]. *)
Lemma migrate_shape_ok (d : dict) :
  migrated_shape d = true ->
  exists r,
    _migrate_data (JObj d) = Ok r
    /\ forall k x, String.eqb k "known_tasks" = false ->
         dget k d = Some x -> dget k r = Some x.
Proof.
  unfold migrated_shape. intros H. apply andb_prop in H as [Hk Ht].
  destruct (dget "known_tasks" d) as [[| | | | | kt]|] eqn:Ek; try discriminate.
  destruct (migrate_known_total kt [] Hk) as (m & Em).
  unfold _migrate_data. cbn [as_dict pbind]. rewrite Ek. cbn [as_dict pbind].
  rewrite Em. cbn [pbind].
  assert (Hr : (match dget "tasks" d with
                | Some (JList tasks) =>
                    pbind (migrate_legacy tasks m) (fun m0 => Ok (m0, dpop "tasks" d))
                | _ => Ok (m, d)
                end) = Ok (m, d)).
  { destruct (dget "tasks" d) as [[| | | | tasks |]|]; try reflexivity. discriminate. }
  rewrite Hr. cbn [pbind fst snd]. eexists. split; [reflexivity|].
  intros k x Hne Hx. apply dget_defaults. rewrite dget_dset_ne by exact Hne. exact Hx.
Qed.

Lemma migrated_shape_dset (k : string) (v : json) (d : dict) :
  String.eqb "known_tasks" k = false -> String.eqb "tasks" k = false ->
  migrated_shape d = true -> migrated_shape (dset k v d) = true.
Proof.
  intros H1 H2. unfold migrated_shape. rewrite !dget_dset_ne by assumption. auto.
Qed.

(** The working directory that was set is the one that is read: after
    [set_working_dir] returned, [get_working_dir] returns its argument. *)
Theorem working_dir_is_read_back (project dir : string) (f f1 : TasksFile) :
  set_working_dir project dir f = Ok f1 ->
  get_working_dir project f1 = Ok (JStr dir).
Proof.
  unfold set_working_dir, locked_update, pbind.
  destruct (load project f) as [d| |] eqn:El; try discriminate.
  intros H. inversion H; subst f1; clear H.
  apply load_shape in El.
  destruct (migrate_shape_ok (dset "working_dir" (JStr dir) d)) as (r & Er & Hr).
  { apply migrated_shape_dset; [reflexivity | reflexivity | exact El]. }
  unfold get_working_dir. cbn [load]. rewrite Er. cbn [pbind].
  unfold get_or_none.
  rewrite (Hr "working_dir" (JStr dir) eq_refl (dget_dset_eq _ _ _)). reflexivity.
Qed.

Lemma working_dir_is_read_back_witness :
  exists f1, set_working_dir "demo" "/srv/demo" (Some legacy_numeric_doc) = Ok f1
             /\ get_working_dir "demo" f1 = Ok (JStr "/srv/demo").
Proof.
  eexists. split; [vm_compute; reflexivity|].
  apply (working_dir_is_read_back "demo" "/srv/demo" (Some legacy_numeric_doc)).
  vm_compute; reflexivity.
Defined.

Lemma dhas_dset_present (k k' : string) (v : json) (d : dict) :
  dhas k' d = true -> dhas k (dset k' v d) = dhas k d.
Proof.
  intros H. unfold dhas. destruct (String.eqb k k') eqn:E.
  - apply String.eqb_eq in E. subst k'. rewrite dget_dset_eq.
    unfold dhas in H. destruct (dget k d); [reflexivity | discriminate].
  - rewrite dget_dset_ne by exact E. reflexivity.
Qed.

Lemma mem_keys (k : string) (d : dict) : mem k (keys d) = dhas k d.
Proof.
  unfold mem, keys, dhas. induction d as [| [k2 v2] d IH]; [reflexivity|].
  cbn [List.map existsb fst dget]. destruct (String.eqb k k2); [reflexivity | exact IH].
Qed.

Lemma nodup_keys_snoc (ks : list string) (k : string) :
  nodup_keys ks = true -> mem k ks = false -> nodup_keys (ks ++ [k]) = true.
Proof.
  induction ks as [|x r IH]; [reflexivity|].
  cbn [nodup_keys app]. unfold mem. cbn [existsb]. intros H Hk.
  apply andb_prop in H as [Hx Hr]. apply orb_false_elim in Hk as [Hkx Hkr].
  rewrite (IH Hr Hkr), andb_true_r. rewrite existsb_app. cbn [existsb].
  apply negb_true_iff in Hx. unfold mem in Hx. rewrite Hx.
  rewrite String.eqb_sym, Hkx. reflexivity.
Qed.

(** The entry [add_task] writes is in the normalized form. *)
Lemma added_entry_normalized (t st n aw : json) (cb : string) (ls : json) (bb : list json) :
  normalized_entry
    (JObj [("title", t); ("blocked_by", JList bb); ("status", st); ("name", n);
           ("agent_window", aw); ("created_by", JStr cb); ("last_synced", ls)]) = true.
Proof. reflexivity. Qed.

(** [remove_task] undoes [add_task].  On a normalized file that does not
    know the T-number, [add_task] followed by [remove_task] gives the file
    back and [remove_task] answers [True]; [remove_task] alone answers
    [False] and rewrites the file with the same content. *)
Theorem remove_undoes_add (project tn : string) (args : AddTaskArgs)
    (d kt : dict) :
  normalized (JObj d) = true ->
  dget "known_tasks" d = Some (JObj kt) ->
  dhas tn kt = false ->
  is_t_number tn = true ->
  (exists f1,
      add_task project tn args (Some (JObj d)) = Ok f1
      /\ f1 <> Some (JObj d)
      /\ remove_task project tn f1 = Ok (Some (JObj d), true))
  /\ remove_task project tn (Some (JObj d)) = Ok (Some (JObj d), false).
Proof.
  intros Hn Hk Hfresh Htn.
  destruct (migrate_normalized_noop _ Hn) as (d' & Ed & Hm). inversion Ed; subst d'.
  split.
  - unfold add_task, locked_update. cbn [load]. rewrite Hm. cbn [pbind].
    rewrite (dsetdefault_present "known_tasks" _ d (dhas_of_dget _ _ _ Hk)).
    unfold get_or_none. rewrite Hk. cbn [as_dict pbind]. rewrite Hfresh. cbn [negb].
    eexists. split; [reflexivity|].
    match goal with
    | |- Some (JObj (dset "known_tasks" (JObj (dset tn ?e kt)) d)) <> _ /\ _ =>
        set (entry := e)
    end.
    rewrite (dset_fresh tn entry kt Hfresh).
    assert (Hn1 : normalized
                    (JObj (dset "known_tasks" (JObj (kt ++ [(tn, entry)])) d)) = true).
    { revert Hn. unfold normalized. rewrite dget_dset_eq, Hk.
      rewrite dget_dset_ne by reflexivity.
      rewrite !andb_true_iff. intros [[Htop Htasks] [[Hkeys Hent] Hnd]].
      repeat split.
      - rewrite forallb_forall in *. intros k Hin.
        rewrite dhas_dset_present by apply (dhas_of_dget _ _ _ Hk). auto.
      - exact Htasks.
      - unfold keys. rewrite List.map_app, forallb_app. cbn [List.map forallb fst].
        fold (keys kt). rewrite Hkeys, Htn. reflexivity.
      - rewrite List.map_app, forallb_app. cbn [List.map forallb snd].
        rewrite Hent. subst entry. rewrite added_entry_normalized. reflexivity.
      - unfold keys. rewrite List.map_app. cbn [List.map fst].
        apply nodup_keys_snoc; [exact Hnd | rewrite mem_keys; exact Hfresh]. }
    split.
    + intros H. inversion H as [H1].
      assert (Hx : dget "known_tasks"
                     (dset "known_tasks" (JObj (kt ++ [(tn, entry)])) d)
                   = Some (JObj kt)) by (rewrite H1; exact Hk).
      rewrite dget_dset_eq in Hx. inversion Hx as [Hy].
      apply (f_equal (@List.length _)) in Hy. rewrite length_app in Hy.
      cbn [List.length] in Hy. lia.
    + destruct (migrate_normalized_noop _ Hn1) as (d1 & Ed1 & Hm1).
      inversion Ed1; subst d1.
      unfold remove_task, locked_call. cbn [load]. rewrite Hm1. cbn [pbind].
      unfold with_known_tasks. rewrite dget_dset_eq.
      assert (Hh : dhas tn (kt ++ [(tn, entry)]) = true)
        by (rewrite dhas_snoc, String.eqb_refl; apply orb_true_r).
      rewrite Hh. cbn [pbind fst snd]. unfold put_known_tasks.
      rewrite dpop_snoc by exact Hfresh.
      rewrite dset_dset, (dset_same _ _ _ Hk). reflexivity.
  - unfold remove_task, locked_call. cbn [load]. rewrite Hm. cbn [pbind].
    unfold with_known_tasks. rewrite Hk, Hfresh. reflexivity.
Qed.

Lemma remove_undoes_add_witness :
  remove_task "demo" "T777" (Some normalized_doc) = Ok (Some normalized_doc, false).
Proof.
  destruct (dget "known_tasks"
              (match normalized_doc with JObj d => d | _ => [] end))
    as [[| | | | | kt]|] eqn:Hk; try (vm_compute in Hk; discriminate).
  refine (proj2 (remove_undoes_add "demo" "T777" add_args
                   (match normalized_doc with JObj d => d | _ => [] end) kt
                   _ Hk _ _)).
  - vm_compute; reflexivity.
  - vm_compute in Hk. inversion Hk. vm_compute; reflexivity.
  - vm_compute; reflexivity.
Defined.

(** [update_agent] looks the task up before it checks the status.  For
    an unknown T-number it answers [False] (and rewrites the file as
    loaded) whatever the status is; for a known one, a status that is not
    in [VALID_STATES] raises [ValueError], so nothing is written, and a
    valid one is stored in the entry. *)
Theorem update_agent_checks_status_after_lookup (project tn : string)
    (args : UpdateAgentArgs) (f : TasksFile) (data : dict) :
  load project f = Ok data ->
  exists tasks,
    dget "known_tasks" data = Some (JObj tasks)
    /\ (dget tn tasks = None ->
        update_agent project tn args f = Ok (Some (JObj data), false))
    /\ (forall entry st,
          dget tn tasks = Some (JObj entry) ->
          resolved_status_of args = Some st ->
          mem st VALID_STATES = false ->
          update_agent project tn args f = Raises "ValueError")
    /\ (forall entry st,
          dget tn tasks = Some (JObj entry) ->
          resolved_status_of args = Some st ->
          mem st VALID_STATES = true ->
          exists entry',
            update_agent project tn args f
            = Ok (Some (JObj (put_known_tasks (dset tn (JObj entry') tasks) data)), true)
            /\ dget "status" entry' = Some (JStr st)).
Proof.
  intros Hl.
  assert (Hs := load_shape _ _ _ Hl). unfold migrated_shape in Hs.
  destruct (dget "known_tasks" data) as [[| | | | | tasks]|] eqn:Ek; try discriminate.
  exists tasks. split; [reflexivity|].
  unfold update_agent, locked_call. rewrite Hl. cbn [pbind].
  unfold with_known_tasks. rewrite Ek.
  split; [| split].
  - intros ->. reflexivity.
  - intros entry st -> -> ->. reflexivity.
  - intros entry st -> -> ->. cbn [negb pbind fst snd].
    eexists. split; [reflexivity | apply dget_dset_eq].
Qed.

Lemma update_agent_checks_status_after_lookup_witness :
  update_agent "demo" "T777"
    {| ua_agent_window := None; ua_status := Some "bogus"; ua_name := None;
       ua_agent := None; ua_window := None; ua_state := None;
       ua_agent_state := None |} None
  = Ok (Some (JObj (_empty_state "demo")), false).
Proof.
  destruct (update_agent_checks_status_after_lookup "demo" "T777"
              {| ua_agent_window := None; ua_status := Some "bogus"; ua_name := None;
                 ua_agent := None; ua_window := None; ua_state := None;
                 ua_agent_state := None |} None (_empty_state "demo") eq_refl)
    as (tasks & Hk & H & _).
  apply H. vm_compute in Hk. inversion Hk. reflexivity.
Defined.

(** The status queries never fail on a file that loads.  For a state of
    [VALID_STATES] the query returns the entries of the loaded
    [known_tasks] whose [status] is that state, and only those, so no entry
    is returned for two different states; a state outside [VALID_STATES]
    raises [ValueError] without the file being read. *)
Theorem status_query_selects_by_status (project st : string) (f : TasksFile)
    (data : dict) :
  load project f = Ok data ->
  (mem st VALID_STATES = false -> get_tasks_by_state project st f = Raises "ValueError")
  /\ (mem st VALID_STATES = true ->
      exists tasks r,
        dget "known_tasks" data = Some (JObj tasks)
        /\ get_tasks_by_state project st f = Ok r
        /\ (forall k info, In (k, info) r <->
              In (k, info) tasks
              /\ exists o, info = JObj o /\ get_or_none "status" o = JStr st)
        /\ (forall st' r' k info,
              get_tasks_by_state project st' f = Ok r' ->
              In (k, info) r -> In (k, info) r' -> st' = st)).
Proof.
  intros Hl. split.
  - intros H. unfold get_tasks_by_state. rewrite H. reflexivity.
  - intros Hv.
    assert (Hs := load_shape _ _ _ Hl). unfold migrated_shape in Hs.
    destruct (dget "known_tasks" data) as [[| | | | | tasks]|] eqn:Ek; try discriminate.
    apply andb_prop in Hs as [Hobj _].
    assert (Hq : forall s, tasks_with_status s data
                 = Ok (List.filter
                         (fun kv => match snd kv with
                                    | JObj info0 => is_str s (get_or_none "status" info0)
                                    | _ => false
                                    end) tasks)).
    { intros s. unfold tasks_with_status. rewrite Ek.
      unfold entries_are_objects in Hobj. rewrite Hobj. reflexivity. }
    assert (Hin : forall s k info,
              In (k, info) (List.filter
                              (fun kv => match snd kv with
                                         | JObj info0 => is_str s (get_or_none "status" info0)
                                         | _ => false
                                         end) tasks)
              <-> In (k, info) tasks
                  /\ exists o, info = JObj o /\ get_or_none "status" o = JStr s).
    { intros s k info. rewrite filter_In. cbn [snd]. split.
      - intros [H1 H2]. split; [exact H1|].
        destruct info as [| | | | | o]; try discriminate.
        exists o. split; [reflexivity|]. unfold is_str in H2.
        destruct (get_or_none "status" o); try discriminate.
        apply String.eqb_eq in H2. congruence.
      - intros [H1 (o & -> & H2)]. split; [exact H1|].
        rewrite H2. cbn [is_str]. apply String.eqb_refl. }
    exists tasks. eexists. split; [reflexivity|].
    unfold get_tasks_by_state. rewrite Hv, Hl. cbn [negb pbind]. rewrite Hq.
    split; [reflexivity|]. split; [apply Hin|].
    intros st' r' k info. destruct (mem st' VALID_STATES); cbn [negb pbind];
      [| discriminate].
    rewrite Hq. intros H; inversion H; subst r'; clear H.
    rewrite !Hin. intros [_ (o & -> & H1)] [_ (o' & E & H2)].
    inversion E; subst o'. congruence.
Qed.

Lemma status_query_selects_by_status_witness :
  exists r, get_tasks_by_state "demo" "pending" (Some normalized_doc) = Ok r.
Proof.
  destruct (load "demo" (Some normalized_doc)) as [d| |] eqn:Hl;
    try (vm_compute in Hl; discriminate).
  destruct (status_query_selects_by_status "demo" "pending" (Some normalized_doc) d Hl)
    as (_ & H).
  destruct (H eq_refl) as (tasks & r & _ & E & _). exists r. exact E.
Defined.

End TasksFileFacts.

(** ** dashboard_data.py: sanitizing, nudges, bookkeeping *)

Module DashboardFacts.
Import Detector.
Import DashboardData.
Import Samples.

#[local] Set Warnings "-clear-no-such-hyp".

(** What [sanitize_content] does to one character. *)
Lemma sanitize_content_map (s : ustr) :
  sanitize_content s
  = List.map (fun c =>
      let c1 := if (c =? 8220)%N then 34%N else c in
      let c2 := if (c1 =? 8221)%N then 34%N else c1 in
      let c3 := if (c2 =? 8216)%N then 39%N else c2 in
      let c4 := if (c3 =? 8217)%N then 39%N else c3 in
      let c5 := if (c4 =? 8212)%N then 45%N else c4 in
      if (c5 =? 8211)%N then 45%N else c5) s.
Proof.
  unfold sanitize_content, replace_cp. rewrite !List.map_map. reflexivity.
Qed.

(** [sanitize_content] replaces character by character: the length of
    the text stays, none of the six typographic characters is left, ASCII
    text is not changed, and sanitizing twice is sanitizing once. *)
Theorem sanitize_content_cleans (s : ustr) :
  List.length (sanitize_content s) = List.length s
  /\ existsb is_fancy (sanitize_content s) = false
  /\ sanitize_content (sanitize_content s) = sanitize_content s
  /\ (forallb (fun c => (c <? 128)%N) s = true -> sanitize_content s = s).
Proof.
  rewrite !sanitize_content_map.
  match goal with |- context [List.map ?f s] => set (g := f) end.
  assert (Hcases : forall c,
            (is_fancy c = false /\ g c = c)
            \/ (is_fancy c = true /\ (g c = 34 \/ g c = 39 \/ g c = 45)%N)).
  { intros c. subst g. cbv beta zeta. unfold is_fancy.
    destruct (N.eqb_spec c 8220); [subst; right; split; auto|].
    destruct (N.eqb_spec c 8221); [subst; right; split; auto|].
    destruct (N.eqb_spec c 8216); [subst; right; split; auto|].
    destruct (N.eqb_spec c 8217); [subst; right; split; auto|].
    destruct (N.eqb_spec c 8212); [subst; right; split; auto|].
    destruct (N.eqb_spec c 8211); [subst; right; split; auto|].
    left. split; reflexivity. }
  assert (Hfix : forall c, is_fancy (g c) = false /\ g (g c) = g c).
  { intros c. destruct (Hcases c) as [[H1 H2] | [_ [H | [H | H]]]]; rewrite ?H2, ?H;
      auto. }
  split; [apply length_map|]. split; [| split].
  - induction s as [|c r IH]; [reflexivity|].
    cbn [List.map existsb]. rewrite IH, (proj1 (Hfix c)). reflexivity.
  - rewrite List.map_map. apply List.map_ext. intros c. apply Hfix.
  - intros H. rewrite <- (List.map_id s) at 2. apply List.map_ext_in.
    intros c Hin. rewrite forallb_forall in H. specialize (H c Hin).
    apply N.ltb_lt in H.
    destruct (Hcases c) as [[_ H2] | [H1 _]]; [exact H2|].
    exfalso. unfold is_fancy in H1.
    repeat (apply orb_prop in H1 as [H1 | H1]); apply N.eqb_eq in H1; lia.
Qed.

(** The nudge messages rotate.  For every nudge count, negative ones
    included, both builders find a message in their list (the index never
    leaves the list); the agent messages repeat with period 5 and the
    sub-orchestrator messages with period 4; a task context that is not
    empty is appended after the separator [ - ]. *)
Theorem nudge_messages_rotate (nudge_count : Z) (task_context : string) :
  (exists m,
      In m _AGENT_NUDGE_MESSAGES
      /\ build_agent_nudge_message nudge_count EmptyString = Some m
      /\ build_agent_nudge_message (nudge_count + 5) EmptyString = Some m
      /\ (task_context <> EmptyString ->
          build_agent_nudge_message nudge_count task_context
          = Some (m +:+ " - " +:+ task_context)))
  /\ (exists m,
        In m _SUB_ORCH_NUDGE_MESSAGES
        /\ build_sub_orch_nudge_message nudge_count = Some m
        /\ build_sub_orch_nudge_message (nudge_count + 4) = Some m).
Proof.
  split.
  - unfold build_agent_nudge_message.
    change (Z.of_nat (List.length _AGENT_NUDGE_MESSAGES)) with 5%Z.
    replace ((nudge_count + 5) mod 5)%Z with (nudge_count mod 5)%Z
      by (rewrite <- (Z_mod_plus_full nudge_count 1 5); f_equal; lia).
    pose proof (Z.mod_pos_bound nudge_count 5 ltac:(lia)) as Hb.
    assert (Hc : (nudge_count mod 5 = 0 \/ nudge_count mod 5 = 1
                  \/ nudge_count mod 5 = 2 \/ nudge_count mod 5 = 3
                  \/ nudge_count mod 5 = 4)%Z) by lia.
    destruct Hc as [-> | [-> | [-> | [-> | ->]]]];
      (eexists; split; [| split; [reflexivity | split; [reflexivity |]]];
       [ cbn; auto 10
       | intros Hne; destruct task_context; [congruence | reflexivity] ]).
  - unfold build_sub_orch_nudge_message.
    change (Z.of_nat (List.length _SUB_ORCH_NUDGE_MESSAGES)) with 4%Z.
    replace ((nudge_count + 4) mod 4)%Z with (nudge_count mod 4)%Z
      by (rewrite <- (Z_mod_plus_full nudge_count 1 4); f_equal; lia).
    pose proof (Z.mod_pos_bound nudge_count 4 ltac:(lia)) as Hb.
    assert (Hc : (nudge_count mod 4 = 0 \/ nudge_count mod 4 = 1
                  \/ nudge_count mod 4 = 2 \/ nudge_count mod 4 = 3)%Z) by lia.
    destruct Hc as [-> | [-> | [-> | ->]]];
      (eexists; split; [| split; reflexivity]; cbn; auto 10).
Qed.

(** [find_new_task_ids] reports nothing on the first check (no previous
    ids), and otherwise exactly the current ids that are neither previous
    ids nor ids the orchestrator created itself. *)
Theorem new_task_ids_are_new (current_ids previous_ids : gset string)
    (recently_created_ids : option (gset string)) :
  let new_ids := find_new_task_ids current_ids previous_ids recently_created_ids in
  (previous_ids = ∅ -> new_ids = ∅)
  /\ (previous_ids <> ∅ ->
      forall x, x ∈ new_ids <->
        (x ∈ current_ids) /\ (x ∉ previous_ids)
        /\ (x ∉ default ∅ recently_created_ids)).
Proof.
  cbv zeta. unfold find_new_task_ids. split.
  - intros ->. destruct (decide (∅ = ∅)); [reflexivity | congruence].
  - intros Hne. destruct (decide (previous_ids = ∅)); [contradiction|].
    intros x. destruct recently_created_ids as [r|]; cbn [default].
    + destruct (decide (r = ∅)) as [-> | Hr]; set_solver.
    + set_solver.
Qed.

(** [should_nudge_agent] keeps its limits: when it says yes, the agent is
    free or needs input, it is not marked completed (neither by its
    [status_detail] nor in [completed_agents]) and it has been nudged
    fewer than [agent_max_nudges] times. *)
Theorem agent_nudge_keeps_limits (agent : WorkerAgent) (nudge_state : NudgeState)
    (agent_max_nudges : Z) (agent_nudge_interval agent_nudge_cooldown : float)
    (completed_agents : list ustr) (now : float) :
  should_nudge_agent agent nudge_state agent_max_nudges agent_nudge_interval
    agent_nudge_cooldown completed_agents now = true ->
  (opt_eqb (wa_status agent) AgentStatus.FREE = true
   \/ opt_eqb (wa_status agent) AgentStatus.NEEDS_INPUT = true)
  /\ opt_eqb (wa_status_detail agent) (u "completed") = false
  /\ existsb (ustr_eqb (default [] (wa_name agent))) completed_agents = false
  /\ (default 0 (ns_nudge_count nudge_state) < agent_max_nudges)%Z.
Proof.
  unfold should_nudge_agent.
  destruct (opt_eqb (wa_status_detail agent) (u "completed")); cbn [orb];
    [intros H; discriminate H|].
  destruct (existsb _ completed_agents); [intros H; discriminate H|].
  destruct (wa_status agent) as [st|]; cbn [default opt_eqb];
    [| intros H; discriminate H].
  change (id st) with st.
  destruct (ustr_eqb st AgentStatus.FREE);
    destruct (ustr_eqb st AgentStatus.NEEDS_INPUT); cbn [orb negb];
    try (intros H; discriminate H);
    (destruct (ustr_eqb st AgentStatus.COMPLETED); [intros H; discriminate H|]);
    match goal with
    | |- context [(?a <=? ?b)%Z] =>
        destruct (Z.leb_spec a b); [intros H'; discriminate H'|]
    end;
    intros _; repeat split; auto.
Qed.

Lemma agent_nudge_keeps_limits_witness :
  should_nudge_agent
    {| wa_name := Some (u "worker-1"); wa_status := Some AgentStatus.FREE;
       wa_status_detail := None |}
    {| ns_nudge_count := Some 2%Z; ns_last_activity := Some 100%float;
       ns_last_nudge := None |}
    5 300%float 120%float [u "worker-2"] 1000%float = true
  /\ (2 < 5)%Z.
Proof.
  split; [vm_compute; reflexivity|].
  apply (agent_nudge_keeps_limits
           {| wa_name := Some (u "worker-1"); wa_status := Some AgentStatus.FREE;
              wa_status_detail := None |}
           {| ns_nudge_count := Some 2%Z; ns_last_activity := Some 100%float;
              ns_last_nudge := None |}
           5 300%float 120%float [u "worker-2"] 1000%float).
  vm_compute; reflexivity.
Defined.

(** The two completion detectors agree on short output: when
    [detect_agent_completion_signal] finds a signal in an output of at most
    800 characters, [detect_agent_status] answers [completed]. *)
Theorem completion_detectors_agree (lower_tail : N -> list N) (output : ustr) :
  List.length output <= 800 ->
  detect_agent_completion_signal lower_tail output = true ->
  detect_agent_status lower_tail output = (AgentStatus.COMPLETED, u "completed").
Proof.
  intros Hlen. unfold detect_agent_completion_signal, detect_agent_status.
  destruct output as [|c r]; [discriminate|].
  unfold last_chars.
  replace (List.length (c :: r) - 800) with 0 by lia. cbn [skipn].
  unfold completion_signals. intros ->. reflexivity.
Qed.

Lemma completion_detectors_agree_witness :
  detect_agent_status plain_lower pane_with_completion
  = (AgentStatus.COMPLETED, u "completed").
Proof.
  apply (completion_detectors_agree plain_lower pane_with_completion).
  - vm_compute. lia.
  - vm_compute; reflexivity.
Defined.

Lemma sget_bump (k k' : string) (stats : Stats) :
  sget k (bump k' stats)
  = (sget k stats + (if String.eqb k k' && shas k stats then 1 else 0))%Z.
Proof.
  unfold shas. induction stats as [| [k0 v] r IH].
  - cbn. rewrite andb_false_r. lia.
  - cbn [bump]. destruct (String.eqb_spec k' k0) as [-> | Hne].
    + cbn [sget existsb fst]. destruct (String.eqb_spec k k0) as [-> | Hk].
      * reflexivity.
      * cbn [andb]. lia.
    + cbn [sget existsb fst]. destruct (String.eqb_spec k k0) as [-> | Hk].
      * destruct (String.eqb_spec k0 k'); [congruence|]. cbn [andb]. lia.
      * cbn [orb]. exact IH.
Qed.

Lemma shas_bump (k k' : string) (stats : Stats) :
  shas k (bump k' stats) = shas k stats.
Proof.
  unfold shas. induction stats as [| [k0 v] r IH]; [reflexivity|].
  cbn [bump]. destruct (String.eqb k' k0); cbn [existsb fst]; [reflexivity|].
  rewrite IH. reflexivity.
Qed.

Lemma count_status_cons (k : string) (task : TasksJson.json) (r : list TasksJson.json) :
  count_status k (task :: r)
  = ((if has_status k task then 1 else 0) + count_status k r)%Z.
Proof.
  unfold count_status. cbn [List.filter]. destruct (has_status k task);
    cbn [List.length]; lia.
Qed.

(** The loop adds, for every key of [stats], the number of tasks that
    count under that key. *)
Lemma count_statuses_spec (tasks : list TasksJson.json) (stats r : Stats) :
  count_statuses tasks stats = TasksJson.Ok r ->
  forall k, sget k r
            = (sget k stats + (if shas k stats then count_status k tasks else 0))%Z.
Proof.
  revert stats. induction tasks as [|task rest IH]; intros stats.
  - cbn [count_statuses]. intros H. inversion H. intros k.
    unfold count_status. cbn. destruct (shas k r); lia.
  - cbn [count_statuses]. intros H k. rewrite count_status_cons.
    destruct task as [| | | | | o]; try discriminate.
    cbn [has_status].
    destruct (TasksJson.dget "status" o) as [[| | | st | |]|];
      try discriminate;
      specialize (IH _ H k); rewrite IH; clear IH;
      rewrite ?sget_bump, ?shas_bump;
      destruct (shas k stats); rewrite ?andb_true_r, ?andb_false_r; lia.
Qed.

(** [get_task_stats] counts by status; a missing status counts as
    [open].  Each of the six status counters holds the number of tasks
    with that status.  The counter [total] is looked up like the others,
    so it holds the number of tasks plus the number of tasks whose status
    is the word [total]. *)
Theorem task_stats_count_by_status (tasks : list TasksJson.json) (stats : Stats) :
  get_task_stats tasks = TasksJson.Ok stats ->
  sget "total" stats = (Z.of_nat (List.length tasks) + count_status "total" tasks)%Z
  /\ forall k, In k ["completed"; "in_progress"; "open"; "pending"; "blocked"; "failed"] ->
       sget k stats = count_status k tasks.
Proof.
  unfold get_task_stats. intros H.
  pose proof (count_statuses_spec _ _ _ H) as Hs. split.
  - rewrite Hs. reflexivity.
  - intros k Hk. rewrite Hs. cbn [In] in Hk.
    destruct Hk as [<- | [<- | [<- | [<- | [<- | [<- | []]]]]]]; reflexivity.
Qed.

Lemma task_stats_count_by_status_witness :
  exists stats,
    get_task_stats MoreSamples.odd_tasks = TasksJson.Ok stats
    /\ sget "total" stats = 4%Z /\ sget "open" stats = 2%Z.
Proof.
  eexists. split; [vm_compute; reflexivity|].
  destruct (task_stats_count_by_status MoreSamples.odd_tasks _ eq_refl) as [H1 H2].
  split; [exact H1 | apply (H2 "open"); cbn; auto].
Defined.

End DashboardFacts.

(** ** claw_town_events.py *)

Module EventsFacts.
Import PyStr.
Import TasksJson.
Import Events.

Lemma truncate_is_last_lines (lines : list Line) :
  _truncate_if_needed lines = last_lines _MAX_EVENTS lines.
Proof.
  unfold _truncate_if_needed, last_lines.
  destruct (Nat.leb_spec (List.length lines) _MAX_EVENTS) as [H | H]; [| reflexivity].
  replace (List.length lines - _MAX_EVENTS) with 0 by lia. reflexivity.
Qed.

Lemma last_lines_snoc {A : Type} (k : nat) (l : list A) (x : A) :
  1 <= k -> last_lines k (last_lines k l ++ [x]) = last_lines k (l ++ [x]).
Proof.
  intros Hk. unfold last_lines.
  rewrite !length_app, length_skipn. cbn [List.length].
  rewrite !skipn_app, length_skipn, skipn_skipn.
  destruct (Nat.le_gt_cases k (List.length l)) as [Hle | Hgt].
  - replace (List.length l - (List.length l - k) + 1 - k) with 1 by lia.
    replace (1 + (List.length l - k)) with (List.length l + 1 - k) by lia.
    replace (1 - (List.length l - (List.length l - k))) with 0 by lia.
    replace (List.length l + 1 - k - List.length l) with 0 by lia.
    reflexivity.
  - replace (List.length l - (List.length l - k) + 1 - k) with 0 by lia.
    replace (List.length l - k) with 0 by lia.
    replace (List.length l + 1 - k) with 0 by lia.
    reflexivity.
Qed.

Lemma log_all_snoc (calls : list LogCall) (c : LogCall) (lines : list Line) :
  log_all (calls ++ [c]) lines
  = log_event (lc_now c) (lc_type c) (lc_summary c) (lc_details c)
      (log_all calls lines).
Proof. unfold log_all. rewrite fold_left_app. reflexivity. Qed.

(** The log keeps the last 500 lines.  After one or more calls of
    [log_event] the file holds the last [_MAX_EVENTS] lines of what it held
    before followed by the new records, in the order of the calls; so it
    never has more than [_MAX_EVENTS] lines, and the newest record is its
    last line. *)
Theorem events_log_keeps_the_last_500 (calls : list LogCall) (lines : list Line) :
  calls <> [] ->
  log_all calls lines = last_lines _MAX_EVENTS (lines ++ List.map line_of calls)
  /\ List.length (log_all calls lines) <= _MAX_EVENTS
  /\ List.last (log_all calls lines) Blank = line_of (List.last calls (mkLogCall "" "" "" None)).
Proof.
  intros Hne.
  assert (H1 : log_all calls lines
               = last_lines _MAX_EVENTS (lines ++ List.map line_of calls)).
  { induction calls as [|c calls IH] using rev_ind; [congruence|].
    rewrite log_all_snoc. unfold log_event at 1. rewrite truncate_is_last_lines.
    rewrite List.map_app, app_assoc. cbn [List.map].
    destruct calls as [|c0 calls'].
    - cbn [List.map log_all List.fold_left]. rewrite app_nil_r. reflexivity.
    - rewrite IH by discriminate. fold (line_of c).
      apply last_lines_snoc. unfold _MAX_EVENTS. lia. }
  split; [exact H1|]. split.
  - rewrite H1. unfold last_lines. rewrite length_skipn. lia.
  - rewrite H1. destruct (exists_last Hne) as (calls' & c & ->).
    rewrite List.map_app, app_assoc. cbn [List.map]. rewrite List.last_last.
    unfold last_lines. rewrite length_app. cbn [List.length].
    rewrite skipn_app.
    replace (List.length (lines ++ List.map line_of calls') + 1 - _MAX_EVENTS
             - List.length (lines ++ List.map line_of calls')) with 0
      by (unfold _MAX_EVENTS; lia).
    cbn [skipn]. apply List.last_last.
Qed.

Lemma events_log_keeps_the_last_500_witness :
  List.length (log_all MoreSamples.three_calls []) <= _MAX_EVENTS.
Proof.
  apply (events_log_keeps_the_last_500 MoreSamples.three_calls []).
  discriminate.
Defined.

(** What the loop of [read_events] lets through. *)
Lemma matching_events_sound (since event_type : option string)
    (lines : list Line) (events : list json) :
  matching_events since event_type lines = Some events ->
  forall ev, In ev events ->
    In (Parsed ev) lines
    /\ (PyStr.truthy event_type = true ->
        type_differs ev (default EmptyString event_type) = Some false)
    /\ (PyStr.truthy since = true ->
        before_since ev (default EmptyString since) = Some false).
Proof.
  revert events. induction lines as [|l r IH]; intros events.
  - cbn [matching_events]. intros H. inversion H. intros ev [].
  - assert (Hskip : matching_events since event_type r = Some events ->
              forall ev, In ev events ->
                In (Parsed ev) (l :: r)
                /\ (PyStr.truthy event_type = true ->
                    type_differs ev (default EmptyString event_type) = Some false)
                /\ (PyStr.truthy since = true ->
                    before_since ev (default EmptyString since) = Some false)).
    { intros H ev Hin. destruct (IH _ H ev Hin) as (H1 & H2 & H3).
      split; [right; exact H1 | auto]. }
    destruct l as [| | ev0]; cbn [matching_events]; try exact Hskip.
    destruct (PyStr.truthy event_type) eqn:Et.
    + destruct (type_differs ev0 _) as [[|]|] eqn:Ed; try discriminate; [exact Hskip|].
      destruct (PyStr.truthy since) eqn:Es.
      * destruct (before_since ev0 _) as [[|]|] eqn:Eb; try discriminate;
          [exact Hskip|].
        destruct (matching_events since event_type r) as [es|] eqn:Em;
          [| discriminate].
        intros H. inversion H; subst events. intros ev [<- | Hin].
        -- split; [left; reflexivity | auto].
        -- destruct (IH _ eq_refl ev Hin) as (H1 & H2 & H3).
           split; [right; exact H1 | auto].
      * destruct (matching_events since event_type r) as [es|] eqn:Em;
          [| discriminate].
        intros H. inversion H; subst events. intros ev [<- | Hin].
        -- split; [left; reflexivity | split; [auto | discriminate]].
        -- destruct (IH _ eq_refl ev Hin) as (H1 & H2 & H3).
           split; [right; exact H1 | auto].
    + destruct (PyStr.truthy since) eqn:Es.
      * destruct (before_since ev0 _) as [[|]|] eqn:Eb; try discriminate;
          [exact Hskip|].
        destruct (matching_events since event_type r) as [es|] eqn:Em;
          [| discriminate].
        intros H. inversion H; subst events. intros ev [<- | Hin].
        -- split; [left; reflexivity | split; [discriminate | auto]].
        -- destruct (IH _ eq_refl ev Hin) as (H1 & H2 & H3).
           split; [right; exact H1 | auto].
      * destruct (matching_events since event_type r) as [es|] eqn:Em;
          [| discriminate].
        intros H. inversion H; subst events. intros ev [<- | Hin].
        -- split; [left; reflexivity | split; discriminate].
        -- destruct (IH _ eq_refl ev Hin) as (H1 & H2 & H3).
           split; [right; exact H1 | auto].
Qed.

Lemma in_skipn {A : Type} (n : nat) (l : list A) (x : A) :
  In x (skipn n l) -> In x l.
Proof.
  revert l. induction n as [|n IH]; intros l; [auto|].
  destruct l as [|y r]; [auto|]. cbn [skipn]. intros H. right. apply IH, H.
Qed.

(** [read_events] keeps its promises on any file: every event it returns
    is a line of the file and passes the type filter and the [since]
    filter that were given, and with a positive [limit] it returns at most
    [limit] events. *)
Theorem read_events_filters_and_limits (since event_type : option string)
    (limit : Z) (file : option (list Line)) :
  let events := read_events since event_type limit file in
  (forall ev, In ev events ->
     (exists lines, file = Some lines /\ In (Parsed ev) lines)
     /\ (PyStr.truthy event_type = true ->
         type_differs ev (default EmptyString event_type) = Some false)
     /\ (PyStr.truthy since = true ->
         before_since ev (default EmptyString since) = Some false))
  /\ ((0 < limit)%Z -> (Z.of_nat (List.length events) <= limit)%Z).
Proof.
  cbv zeta. unfold read_events.
  destruct file as [lines|]; [| split; [intros ev [] | cbn; lia]].
  destruct (matching_events since event_type lines) as [events|] eqn:Em;
    [| split; [intros ev [] | cbn; lia]].
  pose proof (matching_events_sound _ _ _ _ Em) as Hs.
  destruct (negb (limit =? 0)%Z && (limit <? Z.of_nat (List.length events))%Z) eqn:Ec.
  - apply andb_prop in Ec as [_ Hlt]. apply Z.ltb_lt in Hlt. split.
    + intros ev Hin.
      assert (Hin' : In ev events).
      { revert Hin. unfold tail_by, last_lines.
        destruct (0 <? limit)%Z; apply in_skipn. }
      destruct (Hs ev Hin') as (H1 & H2 & H3). split; [eauto | auto].
    + intros Hpos. unfold tail_by. rewrite (proj2 (Z.ltb_lt 0 limit) Hpos).
      unfold last_lines. rewrite length_skipn. lia.
  - split.
    + intros ev Hin. destruct (Hs ev Hin) as (H1 & H2 & H3). split; [eauto | auto].
    + intros Hpos. apply andb_false_iff in Ec as [Ec | Ec].
      * apply negb_false_iff, Z.eqb_eq in Ec. lia.
      * apply Z.ltb_ge in Ec. exact Ec.
Qed.

Lemma matching_events_app (since event_type : option string) (l1 l2 : list Line) :
  matching_events since event_type (l1 ++ l2)
  = match matching_events since event_type l1,
          matching_events since event_type l2 with
    | Some a, Some b => Some (a ++ b)
    | _, _ => None
    end.
Proof.
  induction l1 as [|l r IH].
  - cbn [app matching_events]. destruct (matching_events since event_type l2);
      reflexivity.
  - cbn [app]. destruct l as [| | ev]; cbn [matching_events]; try exact IH.
    destruct (if PyStr.truthy event_type then _ else _) as [[|]|];
      [exact IH | | reflexivity].
    destruct (if PyStr.truthy since then _ else _) as [[|]|];
      [exact IH | | reflexivity].
    rewrite IH. destruct (matching_events since event_type r);
      destruct (matching_events since event_type l2); reflexivity.
Qed.

(** With objects only and no [since], the loop never fails. *)
Lemma matching_events_objects (event_type : option string) (lines : list Line) :
  objects_only lines = true ->
  exists events, matching_events None event_type lines = Some events.
Proof.
  unfold objects_only. induction lines as [|l r IH]; [eexists; reflexivity|].
  cbn [forallb]. intros H. apply andb_prop in H as [Hl Hr].
  destruct (IH Hr) as (es & Ees).
  destruct l as [| | ev]; cbn [matching_events]; eauto.
  destruct ev as [| | | | | o]; try discriminate.
  destruct (PyStr.truthy event_type); cbn [type_differs PyStr.truthy].
  - destruct (match dget "type" o with Some (JStr t) => _ | _ => true end);
      rewrite ?Ees; eauto.
  - rewrite Ees. eauto.
Qed.

Lemma hd_rev_skipn {A : Type} (n : nat) (l : list A) :
  n < List.length l -> hd_error (List.rev (skipn n l)) = hd_error (List.rev l).
Proof.
  intros Hn. rewrite <- (firstn_skipn n l) at 2. rewrite rev_app_distr.
  destruct (List.rev (skipn n l)) as [|x r] eqn:E; [| reflexivity].
  exfalso. apply (f_equal (@List.length _)) in E.
  rewrite length_rev, length_skipn in E. cbn in E. lia.
Qed.

Lemma first_of_type_is_last_match (ty : string) (lines : list Line) (events : list json) :
  ty <> EmptyString ->
  objects_only lines = true ->
  matching_events None (Some ty) lines = Some events ->
  first_of_type ty (List.rev lines) = hd_error (List.rev events).
Proof.
  intros Hty. revert events.
  induction lines as [|x l IH] using rev_ind; intros events Hobj.
  - cbn. intros H. inversion H. reflexivity.
  - unfold objects_only in Hobj. rewrite forallb_app in Hobj.
    apply andb_prop in Hobj as [Hl Hx]. cbn [forallb] in Hx.
    rewrite matching_events_app, rev_app_distr. cbn [List.rev app].
    destruct (matching_events None (Some ty) l) as [a|] eqn:Ea; [| discriminate].
    specialize (IH a Hl eq_refl).
    destruct x as [| | ev]; cbn [matching_events first_of_type].
    + intros H. inversion H. rewrite app_nil_r. exact IH.
    + intros H. inversion H. rewrite app_nil_r. exact IH.
    + destruct ev as [| | | | | o]; try discriminate.
      assert (Ht : PyStr.truthy (Some ty) = true) by (destruct ty; [congruence | reflexivity]).
      rewrite Ht. cbn [default type_differs PyStr.truthy].
      destruct (match dget "type" o with Some (JStr t) => _ | _ => true end).
      * intros H. inversion H. rewrite app_nil_r. exact IH.
      * intros H. inversion H. rewrite rev_app_distr. reflexivity.
Qed.

(** The two readers agree.  On a file whose JSON lines are objects, and
    for a type that is not the empty string, [last_event_of_type] returns
    the last of the events that [read_events] lists for that type (with no
    [since] and a limit that is not negative), and [None] exactly when
    that list is empty. *)
Theorem last_event_is_the_last_one_read (ty : string) (limit : Z)
    (lines : list Line) :
  ty <> EmptyString ->
  (0 <= limit)%Z ->
  objects_only lines = true ->
  last_event_of_type ty (Some lines)
  = hd_error (List.rev (read_events None (Some ty) limit (Some lines))).
Proof.
  intros Hty Hlim Hobj.
  destruct (matching_events_objects (Some ty) lines Hobj) as (events & Em).
  unfold last_event_of_type, read_events. rewrite Em.
  rewrite (first_of_type_is_last_match ty lines events Hty Hobj Em).
  destruct (negb (limit =? 0)%Z && (limit <? Z.of_nat (List.length events))%Z) eqn:Ec;
    [| reflexivity].
  apply andb_prop in Ec as [Hz Hlt]. apply negb_true_iff, Z.eqb_neq in Hz.
  apply Z.ltb_lt in Hlt. unfold tail_by.
  rewrite (proj2 (Z.ltb_lt 0 limit)) by lia. unfold last_lines.
  symmetry. apply hd_rev_skipn. lia.
Qed.

Lemma last_event_is_the_last_one_read_witness :
  last_event_of_type "nudge_orch" (Some (log_all MoreSamples.three_calls []))
  = Some (record_of "2026-01-01T00:10:00+00:00" "nudge_orch" "third" None).
Proof.
  rewrite (last_event_is_the_last_one_read "nudge_orch" 1
             (log_all MoreSamples.three_calls [])).
  - vm_compute; reflexivity.
  - discriminate.
  - lia.
  - vm_compute; reflexivity.
Defined.

End EventsFacts.

(** ** dashboard_view.py *)

Module ViewFacts.
Import Detector.
Import View.

Lemma take_while_app_spaces (r : ustr) (k : nat) :
  take_while is_param (r ++ List.repeat 32%N k) = take_while is_param r.
Proof.
  induction r as [|c r IH].
  - destruct k; reflexivity.
  - cbn [app take_while]. destruct (is_param c); [rewrite IH|]; reflexivity.
Qed.

Lemma length_take_while (f : N -> bool) (r : ustr) :
  List.length (take_while f r) <= List.length r.
Proof.
  induction r as [|c r IH]; [reflexivity|].
  cbn [take_while]. destruct (f c); cbn [List.length]; lia.
Qed.

(** Spaces after the text neither complete nor break an escape sequence. *)
Lemma match_len_app_spaces (c : N) (r : ustr) (k : nat) :
  match_len ((c :: r) ++ List.repeat 32%N k) = match_len (c :: r).
Proof.
  cbn [app]. unfold match_len.
  destruct (N.eqb_spec c 27) as [-> | Hc].
  2:{ destruct c as [|p]; [reflexivity|].
      repeat (destruct p as [p|p|]; try reflexivity); congruence. }
  destruct r as [|b r].
  - destruct k as [|[|k]]; reflexivity.
  - cbn [app]. destruct (N.eqb_spec b 91) as [-> | Hb].
    2:{ destruct b as [|p]; [reflexivity|].
        repeat (destruct p as [p|p|]; try reflexivity); congruence. }
    cbv zeta. rewrite take_while_app_spaces.
    pose proof (length_take_while is_param r) as Hl.
    rewrite skipn_app.
    destruct (skipn (List.length (take_while is_param r)) r) as [|x rest] eqn:E.
    + cbn [app].
      replace (List.length (take_while is_param r) - List.length r) with 0 by lia.
      cbn [skipn]. destruct k; reflexivity.
    + cbn [app]. reflexivity.
Qed.

Lemma match_len_bound (s : ustr) (n : nat) :
  match_len s = Some n -> 1 <= n <= List.length s.
Proof.
  unfold match_len.
  destruct s as [|c [|b r]]; try discriminate.
  - destruct c as [|p]; [discriminate|].
    repeat (destruct p as [p|p|]; try discriminate).
  - destruct (N.eqb_spec c 27) as [-> | Hc].
    2:{ destruct c as [|p]; [discriminate|].
        repeat (destruct p as [p|p|]; try discriminate); congruence. }
    destruct (N.eqb_spec b 91) as [-> | Hb].
    2:{ destruct b as [|p]; [discriminate|].
        repeat (destruct p as [p|p|]; try discriminate); congruence. }
    cbv zeta.
    destruct (skipn (List.length (take_while is_param r)) r) as [|x rest] eqn:E;
      [discriminate|].
    assert (Hlt : List.length (take_while is_param r) < List.length r).
    { apply (f_equal (@List.length _)) in E. rewrite length_skipn in E.
      cbn [List.length] in E. lia. }
    destruct x as [|p]; [discriminate|].
    repeat (destruct p as [p|p|]; try discriminate).
    intros H. inversion H. cbn [List.length]. lia.
Qed.

Lemma sub_ansi_app_spaces (s : ustr) (skip k : nat) :
  skip <= List.length s ->
  sub_ansi skip (s ++ List.repeat 32%N k) = sub_ansi skip s ++ List.repeat 32%N k.
Proof.
  revert skip. induction s as [|c r IH]; intros skip Hs.
  - cbn [List.length] in Hs. replace skip with 0 by lia. cbn [app sub_ansi].
    induction k as [|k IHk]; [reflexivity|].
    cbn [List.repeat sub_ansi match_len]. rewrite IHk. reflexivity.
  - destruct skip as [|skip].
    + change (sub_ansi 0 ((c :: r) ++ List.repeat 32%N k))
        with (match match_len ((c :: r) ++ List.repeat 32%N k) with
              | Some n => sub_ansi (n - 1) (r ++ List.repeat 32%N k)
              | None => c :: sub_ansi 0 (r ++ List.repeat 32%N k)
              end).
      rewrite match_len_app_spaces. cbn [sub_ansi].
      destruct (match_len (c :: r)) as [n|] eqn:E.
      * apply match_len_bound in E. cbn [List.length] in E. apply IH. lia.
      * rewrite IH by lia. reflexivity.
    + cbn [app sub_ansi]. apply IH. cbn [List.length] in Hs. lia.
Qed.

(** [ansi_pad] pads to the width as it is displayed: the text is kept as
    a prefix, and the display width of the result, as [strip_ansi]
    measures it, is the larger of the display width of the text and
    [width]. *)
Theorem ansi_pad_reaches_width (text : ustr) (width : Z) :
  (exists padding, ansi_pad text width = text ++ padding)
  /\ Z.of_nat (strip_ansi (ansi_pad text width))
     = Z.max (Z.of_nat (strip_ansi text)) width.
Proof.
  unfold ansi_pad. cbv zeta.
  destruct (Z.leb_spec width (Z.of_nat (strip_ansi text))) as [H | H].
  - split; [exists []; symmetry; apply app_nil_r | lia].
  - split; [eexists; reflexivity|].
    unfold strip_ansi at 1. rewrite sub_ansi_app_spaces by lia.
    rewrite length_app, repeat_length. fold (strip_ansi text). lia.
Qed.

End ViewFacts.
